(** * whois-core: the query engine of [whois.go], embedded in Rocq

  The development follows the layout of the Go file:

  - [GoStrings]: the functions of Go's [strings] and [net] packages that
    [whois.go] calls, on byte strings;
  - [Directory]: the shared server directory ([*serverMap]);
  - [Engine]: [getServer], [rawQuery], [Client.Whois], [NewClient],
    [InitWhois] and the configuration setters, as state-passing
    functions over the package state;
  - [Fixture]: concrete collaborators (a scripted network, a clock, a
    directory file) on which the engine is evaluated;
  - the properties: facts on byte strings, the runs of [rawQuery] and
    of the referral chase written out, what the calls keep of the
    state, and the theorems on [Whois], [rawQuery] and [getServer].

  The functions of the package that are in other files than [whois.go]
  ([IsASN], [getExtension], [extractHostname], the loader of the
  directory file) are parameters of the engine, as are the network and
  the clock.

  A Go [string] is a sequence of bytes: it is a [string] of Rocq, one
  [ascii] per byte.  A Go [int] is a [Z].  A Go [(string, error)] result
  is a pair [string * option error], [None] being [nil]. *)

From Stdlib Require Import ZArith String Ascii List Bool Lia DecimalString.
From stdpp Require Import base option gmap strings.

Open Scope string_scope.
Open Scope list_scope.

Set Warnings "-notation-for-abbreviation".

(** ** Go's [strings] package, as far as [whois.go] uses it *)

Module GoStrings.

(** [len(s)] *)
Definition len (s : string) : Z := Z.of_nat (String.length s).

(** [s[lo:]] and [s[lo:hi]] on in-range indices. *)
Fixpoint drop_bytes (n : nat) (s : string) : string :=
  match n, s with
  | O, _ => s
  | S _, EmptyString => EmptyString
  | S n', String _ s' => drop_bytes n' s'
  end.

Fixpoint take_bytes (n : nat) (s : string) : string :=
  match n, s with
  | O, _ => EmptyString
  | S _, EmptyString => EmptyString
  | S n', String c s' => String c (take_bytes n' s')
  end.

Definition slice_from (s : string) (lo : Z) : string :=
  drop_bytes (Z.to_nat lo) s.

Definition slice (s : string) (lo hi : Z) : string :=
  take_bytes (Z.to_nat (hi - lo)) (drop_bytes (Z.to_nat lo) s).

(** [strings.HasPrefix] *)
Fixpoint HasPrefix (s prefix : string) : bool :=
  match prefix, s with
  | EmptyString, _ => true
  | String _ _, EmptyString => false
  | String p prefix', String c s' => Ascii.eqb c p && HasPrefix s' prefix'
  end.

(** [strings.Index]: the byte offset of the first instance of [substr]
    in [s], or [-1]. *)
Fixpoint index_from (s substr : string) : option nat :=
  if HasPrefix s substr then Some O
  else match s with
       | EmptyString => None
       | String _ s' => S <$> index_from s' substr
       end.

Definition Index (s substr : string) : Z :=
  match index_from s substr with
  | Some n => Z.of_nat n
  | None => (-1)%Z
  end.

(** [strings.Contains] *)
Definition Contains (s substr : string) : bool := (0 <=? Index s substr)%Z.

(** [strings.Split] for a non-empty separator: the pieces between the
    instances of [sep], at least one piece.  ([whois.go] only splits
    on [":"].) *)
Fixpoint genSplit (fuel : nat) (s sep : string) : list string :=
  match fuel with
  | O => [s]
  | S fuel' =>
      match index_from s sep with
      | None => [s]
      | Some m =>
          take_bytes m s
            :: genSplit fuel' (drop_bytes (m + String.length sep) s) sep
      end
  end.

Definition Split (s sep : string) : list string :=
  genSplit (String.length s) s sep.

(** The six ASCII white-space bytes of [asciiSpace]. *)
Definition isAsciiSpace (c : ascii) : bool :=
  let n := nat_of_ascii c in
  ((9 <=? n) && (n <=? 13))%nat || (n =? 32)%nat.

(** The white-space runes of [unicode.IsSpace] beyond ASCII, by their
    UTF-8 encoding: U+0085, U+00A0 (two bytes) and U+1680,
    U+2000..U+200A, U+2028, U+2029, U+202F, U+205F, U+3000 (three). *)
Definition isSpace2 (b1 b2 : ascii) : bool :=
  let n1 := nat_of_ascii b1 in
  let n2 := nat_of_ascii b2 in
  (n1 =? 194)%nat && ((n2 =? 133)%nat || (n2 =? 160)%nat).

Definition isSpace3 (b1 b2 b3 : ascii) : bool :=
  let n1 := nat_of_ascii b1 in
  let n2 := nat_of_ascii b2 in
  let n3 := nat_of_ascii b3 in
  ((n1 =? 225) && (n2 =? 154) && (n3 =? 128))%nat
  || ((n1 =? 226) && (n2 =? 128)
      && (((128 <=? n3) && (n3 <=? 138))
          || (n3 =? 168) || (n3 =? 169) || (n3 =? 175)))%nat
  || ((n1 =? 226) && (n2 =? 129) && (n3 =? 159))%nat
  || ((n1 =? 227) && (n2 =? 128) && (n3 =? 128))%nat.

(** The scan of [strings.TrimLeftFunc]: a rune is decoded at the head
    of [s] and dropped when it is one of the set; the set is given by
    its encodings of one, two and three bytes.  An invalid byte decodes
    to [RuneError], which is in no set, and stops the scan. *)
Fixpoint trimRunes (one : ascii -> bool) (two : ascii -> ascii -> bool)
    (three : ascii -> ascii -> ascii -> bool) (s : string) : string :=
  match s with
  | EmptyString => s
  | String b1 s1 =>
      if one b1 then trimRunes one two three s1
      else match s1 with
           | EmptyString => s
           | String b2 s2 =>
               if two b1 b2 then trimRunes one two three s2
               else match s2 with
                    | EmptyString => s
                    | String b3 s3 =>
                        if three b1 b2 b3 then trimRunes one two three s3
                        else s
                    end
           end
  end.

(** [strings.TrimLeftFunc(s, unicode.IsSpace)] *)
Definition trimLeftSpace (s : string) : string :=
  trimRunes isAsciiSpace isSpace2 isSpace3 s.

Fixpoint rev_bytes (acc s : string) : string :=
  match s with
  | EmptyString => acc
  | String c s' => rev_bytes (String c acc) s'
  end.

Definition reverse (s : string) : string := rev_bytes EmptyString s.

(** The same scan from the tail, on the reversed bytes: the last rune
    is decoded backwards ([utf8.DecodeLastRuneInString]), so its bytes
    come in the opposite order. *)
Definition trimLeftSpaceRev (r : string) : string :=
  trimRunes isAsciiSpace (fun b1 b2 => isSpace2 b2 b1)
            (fun b1 b2 b3 => isSpace3 b3 b2 b1) r.

Definition trimRightSpace (s : string) : string :=
  reverse (trimLeftSpaceRev (reverse s)).

(** [strings.TrimSpace]: leading white space is removed first, then
    trailing white space of what is left. *)
Definition TrimSpace (s : string) : string :=
  trimRightSpace (trimLeftSpace s).

(** [strings.Trim(s, cutset)] for a cutset of one ASCII byte
    ([trimLeftByte], [trimRightByte]). *)
Fixpoint trimLeftByte (s : string) (c : ascii) : string :=
  match s with
  | EmptyString => s
  | String b s' => if Ascii.eqb b c then trimLeftByte s' c else s
  end.

Definition trimRightByte (s : string) (c : ascii) : string :=
  reverse (trimLeftByte (reverse s) c).

Definition TrimByte (s : string) (c : ascii) : string :=
  trimRightByte (trimLeftByte s c) c.

(** [strings.ToUpper] and [strings.ToLower] on ASCII text: the letters
    are mapped, every other byte is kept.  (Go maps the runes beyond
    ASCII through the Unicode case tables; those tables are not part of
    this embedding, and the properties below that depend on the case
    mapping are stated for ASCII queries.) *)
Definition upperByte (c : ascii) : ascii :=
  let n := nat_of_ascii c in
  if ((97 <=? n) && (n <=? 122))%nat then ascii_of_nat (n - 32) else c.

Definition lowerByte (c : ascii) : ascii :=
  let n := nat_of_ascii c in
  if ((65 <=? n) && (n <=? 90))%nat then ascii_of_nat (n + 32) else c.

Fixpoint mapBytes (f : ascii -> ascii) (s : string) : string :=
  match s with
  | EmptyString => EmptyString
  | String c s' => String (f c) (mapBytes f s')
  end.

Definition ToUpper (s : string) : string := mapBytes upperByte s.
Definition ToLower (s : string) : string := mapBytes lowerByte s.

Fixpoint allBytes (p : ascii -> bool) (s : string) : bool :=
  match s with
  | EmptyString => true
  | String c s' => p c && allBytes p s'
  end.

(** Every byte is below [utf8.RuneSelf]. *)
Definition isASCII (s : string) : bool :=
  allBytes (fun c => (nat_of_ascii c <? 128)%nat) s.

Definition isDigit (c : ascii) : bool :=
  let n := nat_of_ascii c in ((48 <=? n) && (n <=? 57))%nat.

(** [net.JoinHostPort]: a host with a colon is taken for an IPv6
    literal and put in brackets. *)
Definition JoinHostPort (host port : string) : string :=
  if Contains host ":"
  then "[" +:+ host +:+ "]:" +:+ port
  else host +:+ ":" +:+ port.

(** [%d] of [fmt.Sprintf] on an integer. *)
Definition formatInt (z : Z) : string :=
  NilZero.string_of_int (Z.to_int z).

End GoStrings.

Import GoStrings.

(** Line breaks of the Go literals: ["\n"] and ["\r\n"]. *)
Definition LF : string := String (ascii_of_nat 10) EmptyString.
Definition CRLF : string := String (ascii_of_nat 13) LF.

(** ** Errors

  [ErrDomainEmpty] and [ErrWhoisServerNotFound] are the two sentinel
  errors of the package.  [ExternalError] stands for an error value
  coming from outside the package: from the dialer, from the
  connection, or from the context when its deadline passes.  [Errorf]
  is [fmt.Errorf] with one [%w] verb: the text before the wrapped
  error, the wrapped error, the text after it. *)

Inductive error : Type :=
| ErrDomainEmpty
| ErrWhoisServerNotFound
| ExternalError (msg : string)
| Errorf (before : string) (wrapped : error) (after : string).

Fixpoint error_eqb (e1 e2 : error) : bool :=
  match e1, e2 with
  | ErrDomainEmpty, ErrDomainEmpty => true
  | ErrWhoisServerNotFound, ErrWhoisServerNotFound => true
  | ExternalError m1, ExternalError m2 => String.eqb m1 m2
  | Errorf b1 w1 a1, Errorf b2 w2 a2 =>
      String.eqb b1 b2 && error_eqb w1 w2 && String.eqb a1 a2
  | _, _ => false
  end.

(** [errors.Is]: [target] is [err] or an error that [err] wraps. *)
Fixpoint errors_Is (err target : error) : bool :=
  error_eqb err target
  || match err with
     | Errorf _ wrapped _ => errors_Is wrapped target
     | _ => false
     end.

(** ** Pointers, events and the package state *)

(** A pointer is an index into the heap of its type; [None] is [nil]. *)
Notation ptr := nat (only parsing).

(** What a call does to the world outside it, in the order it does it.
  The directory events carry the receiver of the method call;
  [EvRawQuery] marks the entry of [rawQuery] with its arguments (the
  server as resolved, before the rewrite table); [EvDial], [EvWrite],
  [EvReadAll] and [EvClose] are the operations on the network. *)
Inductive event : Type :=
| EvGetWhoisServer (recv : option ptr) (ext : string)
| EvSetWhoisServer (recv : option ptr) (ext server : string)
| EvGetRewriteServer (recv : option ptr) (server : string)
| EvRawQuery (domain server port : string)
| EvDial (network addr : string)
| EvWrite (data : string)
| EvReadAll
| EvClose.

(** What a connection does with the query line written to it: the write
  fails, the read fails, or the peer answers and closes.  These are the
  cases of a connection that answers: [rawQuery] sets no deadline on
  the connection (lines 222 and 230 are comments), so [io.ReadAll]
  waits for ever on a peer that keeps the connection open; such a call
  has no outcome here, and the properties speak of the calls that
  end. *)
Inductive conn_reply : Type :=
| WriteFails (err : error)
| ReadFails (err : error)
| Reads (buffer : string).

(** What [dialContext] returns: an error (of [Dial], or of the context
  when it is done first), or a connection. *)
Inductive dial_result : Type :=
| DialFails (err : error)
| Connected (conn : string -> conn_reply).

(** A [proxy.Dialer], seen through [dialContext]: the result depends on
  the time allowed, on what happened before, and on the network and
  address dialled.  A nil dialer, with which [dialContext] panics, is
  no value of this type: the clients of the embedding have a dialer. *)
Definition Dialer : Type := Z -> list event -> string -> string -> dial_result.

Module Directory.

(** Modelled from the spec: the type [serverMap] and its methods are
    not in [whois.go].  Section 4.1 of the specification gives a table
    from extension to server and a separate rewrite table from server
    to the host to dial; [GetWhoisServer] and [GetRewriteServer] are
    pure lookups, [SetWhoisServer] inserts or overwrites. *)
Record serverMap : Type := mkServerMap {
  whoisServers : gmap string string;
  rewriteServers : gmap string string
}.

(** Modelled from the spec: [NewServerMap] is not in [whois.go]; the
    directory is empty until it is populated. *)
Definition NewServerMap : serverMap :=
  {| whoisServers := ∅; rewriteServers := ∅ |}.

Definition lookupWhoisServer (m : serverMap) (ext : string) : string * bool :=
  match whoisServers m !! ext with
  | Some v => (v, true)
  | None => ("", false)
  end.

Definition insertWhoisServer (m : serverMap) (ext server : string) : serverMap :=
  {| whoisServers := <[ext := server]> (whoisServers m);
     rewriteServers := rewriteServers m |}.

Definition lookupRewriteServer (m : serverMap) (server : string) : string * bool :=
  match rewriteServers m !! server with
  | Some v => (v, true)
  | None => ("", false)
  end.

End Directory.

(** [type Client struct]: the durations are in nanoseconds. *)
Record Client : Type := mkClient {
  dialer : Dialer;
  timeout : Z;
  elapsed : Z;
  disableStats : bool;
  disableReferral : bool;
  serverMap : option ptr
}.

(** The package state: the two package variables [serverMapInstance] and
  [onceWhois] (its flag), the variable [DefaultClient], the objects
  behind the pointers, and the events so far. *)
Record state : Type := mkState {
  serverMapInstance : option ptr;
  onceWhois : bool;
  DefaultClient : option ptr;
  maps : list Directory.serverMap;
  clients : list Client;
  trace : list event
}.

Definition set_trace (t : list event) (st : state) : state :=
  {| serverMapInstance := serverMapInstance st; onceWhois := onceWhois st;
     DefaultClient := DefaultClient st; maps := maps st;
     clients := clients st; trace := t |}.

Definition set_maps (ms : list Directory.serverMap) (st : state) : state :=
  {| serverMapInstance := serverMapInstance st; onceWhois := onceWhois st;
     DefaultClient := DefaultClient st; maps := ms;
     clients := clients st; trace := trace st |}.

Definition set_clients (cs : list Client) (st : state) : state :=
  {| serverMapInstance := serverMapInstance st; onceWhois := onceWhois st;
     DefaultClient := DefaultClient st; maps := maps st;
     clients := cs; trace := trace st |}.

(** ** Calls: a state-passing monad with Go's panic *)

Inductive outcome (A : Type) : Type :=
| Returns (a : A)
| Panics (why : string).

Arguments Returns {A} a.
Arguments Panics {A} why.

Definition M (A : Type) : Type := state -> outcome A * state.

Definition ret {A : Type} (a : A) : M A := fun st => (Returns a, st).

Definition bind {A B : Type} (m : M A) (k : A -> M B) : M B :=
  fun st =>
    match m st with
    | (Returns a, st') => k a st'
    | (Panics why, st') => (Panics why, st')
    end.

Definition panic {A : Type} (why : string) : M A := fun st => (Panics why, st).

Notation "x <- m ;; k" := (bind m (fun x => k))
  (at level 100, m at next level, right associativity).
Notation "m ;;; k" := (bind m (fun _ => k))
  (at level 100, right associativity).

(** The runtime panic of a nil pointer dereference. *)
Definition nilDereference : string :=
  "runtime error: invalid memory address or nil pointer dereference".

Definition emit (e : event) : M unit :=
  fun st => (Returns tt, set_trace (trace st ++ [e]) st).

(** Reading the fields of [*c]. *)
Definition load (c : ptr) : M Client :=
  fun st =>
    match clients st !! c with
    | Some cl => (Returns cl, st)
    | None => (Panics nilDereference, st)
    end.

(** Writing the fields of [*c]. *)
Definition store (c : ptr) (f : Client -> Client) : M unit :=
  fun st =>
    match clients st !! c with
    | Some cl => (Returns tt, set_clients (<[c := f cl]> (clients st)) st)
    | None => (Panics nilDereference, st)
    end.

(** The methods of [*serverMap], on a receiver that may be nil: the
  tables are read through the receiver. *)
Definition deref (recv : option ptr) : M Directory.serverMap :=
  fun st =>
    match recv ≫= (fun p => maps st !! p) with
    | Some m => (Returns m, st)
    | None => (Panics nilDereference, st)
    end.

Definition GetWhoisServer (recv : option ptr) (ext : string) : M (string * bool) :=
  emit (EvGetWhoisServer recv ext) ;;;
  m <- deref recv ;;
  ret (Directory.lookupWhoisServer m ext).

Definition SetWhoisServer (recv : option ptr) (ext server : string) : M unit :=
  emit (EvSetWhoisServer recv ext server) ;;;
  m <- deref recv ;;
  match recv with
  | Some p => fun st =>
      (Returns tt,
       set_maps (<[p := Directory.insertWhoisServer m ext server]> (maps st)) st)
  | None => panic nilDereference
  end.

Definition GetRewriteServer (recv : option ptr) (server : string) : M (string * bool) :=
  emit (EvGetRewriteServer recv server) ;;;
  m <- deref recv ;;
  ret (Directory.lookupRewriteServer m server).

(** ** The constants of [whois.go] *)

Definition defaultWhoisServer : string := "whois.iana.org".
Definition defaultWhoisPort : string := "43".
(** [15 * time.Second] and [5 * time.Second], in nanoseconds. *)
Definition defaultElapsedTimeout : Z := 15 * 1000000000.
Definition defaultTimeout : Z := 5 * 1000000000.

(** Modelled from the spec: the constant [asnPrefix] is not in
  [whois.go]; the specification calls it the uppercase ASN prefix and
  writes the canonical form of the number 15169 as [AS15169]. *)
Definition asnPrefix : string := "AS".

(** ** The query engine *)

Module Engine.

Section Collaborators.

(** The collaborators of [whois.go] that live in other files of the
    package or outside it: the ASN test, the extension of a query, the
    host name of a URL, the loader of the directory file, the dialer
    [&net.Dialer{Timeout: defaultTimeout}] of the standard library on
    the network at hand, the clock (nanoseconds, as a function of the
    events so far) and the layout [Mon Jan 02 15:04:05 MST 2006] of
    [time.Format]. *)
Variable IsASN : string -> bool.
Variable getExtension : string -> string.
Variable extractHostname : string -> string.
Variable LoadFromFile :
  string -> Directory.serverMap -> Directory.serverMap * option error.
Variable netDialer : Dialer.
Variable now : list event -> Z.
Variable formatTime : Z -> string.

(** [NewClient]: the directory of the new client is the value of
    [serverMapInstance] now. *)
Definition NewClient : M ptr :=
  fun st =>
    let c := {| dialer := netDialer;
                timeout := defaultElapsedTimeout;
                elapsed := 0;
                disableStats := false;
                disableReferral := false;
                serverMap := serverMapInstance st |} in
    (Returns (length (clients st)), set_clients (clients st ++ [c]) st).

Definition SetDialer (c : ptr) (d : Dialer) : M ptr :=
  store c (fun cl =>
    {| dialer := d; timeout := timeout cl; elapsed := elapsed cl;
       disableStats := disableStats cl;
       disableReferral := disableReferral cl;
       serverMap := serverMap cl |}) ;;;
  ret c.

Definition SetTimeout (c : ptr) (t : Z) : M ptr :=
  store c (fun cl =>
    {| dialer := dialer cl; timeout := t; elapsed := elapsed cl;
       disableStats := disableStats cl;
       disableReferral := disableReferral cl;
       serverMap := serverMap cl |}) ;;;
  ret c.

Definition SetDisableStats (c : ptr) (disabled : bool) : M ptr :=
  store c (fun cl =>
    {| dialer := dialer cl; timeout := timeout cl; elapsed := elapsed cl;
       disableStats := disabled;
       disableReferral := disableReferral cl;
       serverMap := serverMap cl |}) ;;;
  ret c.

Definition SetDisableReferral (c : ptr) (disabled : bool) : M ptr :=
  store c (fun cl =>
    {| dialer := dialer cl; timeout := timeout cl; elapsed := elapsed cl;
       disableStats := disableStats cl;
       disableReferral := disabled;
       serverMap := serverMap cl |}) ;;;
  ret c.

(** [c.elapsed = 0] *)
Definition atRest (cl : Client) : Client :=
  {| dialer := dialer cl; timeout := timeout cl; elapsed := 0;
     disableStats := disableStats cl;
     disableReferral := disableReferral cl;
     serverMap := serverMap cl |}.

Definition resetElapsed (c : ptr) : M unit := store c atRest.

(** [getServer]: the loop over the tokens, in their order. *)
Definition tokens : list string :=
  [ "Registrar WHOIS Server: "; "whois: "; "ReferralServer: "; "refer: " ].

Definition serverAt (data : string) (start : Z) : string * string :=
  let end_ := Index (slice_from data start) LF in
  let end_ := if (end_ =? -1)%Z then len (slice_from data start) else end_ in
  let server := TrimSpace (slice data start (start + end_)) in
  let server := extractHostname server in
  let port := defaultWhoisPort in
  if Contains server ":"
  then let v := Split server ":" in (nth 0 v "", nth 1 v "")
  else (server, port).

Fixpoint getServerIn (toks : list string) (data : string) : string * string :=
  match toks with
  | [] => ("", "")
  | token :: toks' =>
      let start := Index data token in
      if negb (start =? -1)%Z
      then serverAt data (start + len token)
      else getServerIn toks' data
  end.

Definition getServer (data : string) : string * string :=
  getServerIn tokens data.

(** [dialContext]: the race between the dial and the context is
    decided by the dialer, and the result is what the function returns.
    A dial that ends after the context is done can still deliver a
    connection, which nobody closes: the trace has no event for it, and
    [EvDial] says that an address was dialled, not that a connection is
    held. *)
Definition dialContext (timeout : Z) (d : Dialer) (network addr : string)
  : M dial_result :=
  emit (EvDial network addr) ;;;
  fun st => (Returns (d timeout (trace st) network addr), st).

(** [rawQuery] *)
Definition rawQuery (c : ptr) (domain server port : string)
  : M (string * option error) :=
  emit (EvRawQuery domain server port) ;;;
  resetElapsed c ;;;
  let domain :=
    if String.eqb server "whois.arin.net"
    then if IsASN domain then "a + " +:+ domain else "n + " +:+ domain
    else domain in
  cl <- load c ;;
  r <- GetRewriteServer (serverMap cl) server ;;
  let server := if snd r then fst r else server in
  cl <- load c ;;
  dr <- dialContext (timeout cl) (dialer cl) "tcp" (JoinHostPort server port) ;;
  match dr with
  | DialFails err =>
      ret ("", Some (Errorf ("whois: connect to whois server (" +:+ server
                             +:+ ") failed: ") err ""))
  | Connected conn =>
      emit (EvWrite (domain +:+ CRLF)) ;;;
      match conn (domain +:+ CRLF) with
      | WriteFails err =>
          emit EvClose ;;;
          ret ("", Some (Errorf ("whois: send to whois server (" +:+ server
                                 +:+ ") failed: ") err ""))
      | ReadFails err =>
          emit EvReadAll ;;;
          emit EvClose ;;;
          ret ("", Some (Errorf ("whois: read from whois server (" +:+ server
                                 +:+ ") failed: ") err ""))
      | Reads buffer =>
          emit EvReadAll ;;;
          emit EvClose ;;;
          ret (buffer, None)
      end
  end.

(** [Whois], line 131: the query as it is classified. *)
Definition normalize (domain : string) : string :=
  TrimByte (TrimSpace domain) ".".

(** [Whois], lines 136 to 141: the query of an ASN gets the prefix
    when its uppercase form does not start with it. *)
Definition withPrefix (domain : string) : string :=
  if IsASN domain
  then if negb (HasPrefix (ToUpper domain) asnPrefix)
       then asnPrefix +:+ domain
       else domain
  else domain.

(** [len(servers) > 0 && servers[0] != ""]: the server the caller
    names, if any. *)
Definition override (servers : list string) : option string :=
  match servers with
  | s0 :: _ => if negb (String.eqb s0 "") then Some s0 else None
  | [] => None
  end.

(** [Whois], lines 147 to 169: the server and port to query ([inl]),
    or the values the call returns at once ([inr]). *)
Definition resolveServer (c : ptr) (domain : string) (servers : list string)
  : M (string * string + string * option error) :=
  match override servers with
  | Some s0 => ret (inl (ToLower s0, defaultWhoisPort))
  | None =>
      let ext := getExtension domain in
      cl <- load c ;;
      r <- GetWhoisServer (serverMap cl) ext ;;
      if snd r
      then ret (inl (fst r, defaultWhoisPort))
      else
        q <- rawQuery c ext defaultWhoisServer defaultWhoisPort ;;
        match snd q with
        | Some err =>
            ret (inr ("", Some (Errorf "whois: query for whois server failed: "
                                       err "")))
        | None =>
            let sp := getServer (fst q) in
            if String.eqb (fst sp) ""
            then ret (inr ("", Some (Errorf "" ErrWhoisServerNotFound
                                            (": " +:+ domain))))
            else
              cl <- load c ;;
              SetWhoisServer (serverMap cl) ext (fst sp) ;;;
              ret (inl sp)
        end
  end.

(** [Whois], lines 171 to 190: the query to the resolved server and the
    referral.  The results [result] and [err] of [Whois] are named:
    [data, err := c.rawQuery(...)] on line 185 stands in the block of
    the function body, where [err] is declared already, so it assigns
    the result [err], and the bare [return] of line 190 returns it. *)
Definition queryAndRefer (c : ptr) (domain server port : string)
  : M (string * option error) :=
  q <- rawQuery c domain server port ;;
  match snd q with
  | Some err => ret (fst q, Some err)
  | None =>
      let result := fst q in
      cl <- load c ;;
      if disableReferral cl then ret (result, None)
      else
        let ref := getServer result in
        if String.eqb (fst ref) "" || String.eqb (fst ref) server
        then ret (result, None)
        else
          d <- rawQuery c domain (fst ref) (snd ref) ;;
          match snd d with
          | None => ret (result +:+ fst d, None)
          | Some err => ret (result, Some err)
          end
  end.

(** [Whois], lines 131 to 190. *)
Definition whoisBody (c : ptr) (domain : string) (servers : list string)
  : M (string * option error) :=
  let domain := normalize domain in
  if String.eqb domain "" then ret ("", Some ErrDomainEmpty)
  else
    let isASN := IsASN domain in
    let domain := withPrefix domain in
    if negb (Contains domain ".") && negb (Contains domain ":") && negb isASN
    then rawQuery c domain defaultWhoisServer defaultWhoisPort
    else
      r <- resolveServer c domain servers ;;
      match r with
      | inr early => ret early
      | inl (server, port) => queryAndRefer c domain server port
      end.

(** [time.Duration.Milliseconds]: the integer division of Go. *)
Definition Milliseconds (d : Z) : Z := Z.quot d 1000000.

(** [fmt.Sprintf] with the format of line 125. *)
Definition withStats (result : string) (msec : Z) (when : string) : string :=
  result +:+ LF +:+ LF +:+ "% Query time: " +:+ formatInt msec +:+ " msec"
    +:+ LF +:+ "% WHEN: " +:+ when +:+ LF.

(** [Whois], lines 122 to 129: the deferred function, on the results
    of the body. *)
Definition deferred (c : ptr) (start : Z) (r : string * option error)
  : M (string * option error) :=
  let result := TrimSpace (fst r) in
  if negb (String.eqb result "")
  then
    cl <- load c ;;
    if negb (disableStats cl)
    then fun st =>
           (Returns (withStats result (Milliseconds (now (trace st) - start))
                               (formatTime start), snd r), st)
    else ret (result, snd r)
  else ret (result, snd r).

(** [(c *Client) Whois] *)
Definition Whois (c : ptr) (domain : string) (servers : list string)
  : M (string * option error) :=
  fun st =>
    let start := now (trace st) in
    (r <- whoisBody c domain servers ;; deferred c start r) st.

(** [InitWhois]: [onceWhois.Do] runs the function the first time only,
    and counts the call as done also when the function panics. *)
Definition InitWhois (configFile : string) : M unit :=
  fun st =>
    if onceWhois st then (Returns tt, st)
    else
      let p := length (maps st) in
      let loaded := LoadFromFile configFile Directory.NewServerMap in
      let st' :=
        {| serverMapInstance := Some p; onceWhois := true;
           DefaultClient := DefaultClient st;
           maps := maps st ++ [fst loaded];
           clients := clients st; trace := trace st |} in
      match snd loaded with
      | Some err => (Panics "InitWhois: LoadFromFile failed", st')
      | None => (Returns tt, st')
      end.

(** The package before any call: the package variables have their zero
    values when [DefaultClient = NewClient()] is evaluated. *)
Definition zeroState : state :=
  {| serverMapInstance := None; onceWhois := false; DefaultClient := None;
     maps := []; clients := []; trace := [] |}.

Definition packageInit : state :=
  let st := snd (NewClient zeroState) in
  {| serverMapInstance := serverMapInstance st; onceWhois := onceWhois st;
     DefaultClient := Some 0%nat; maps := maps st;
     clients := clients st; trace := trace st |}.

(** The function [Whois] of the package. *)
Definition PackageWhois (domain : string) (servers : list string)
  : M (string * option error) :=
  fun st =>
    match DefaultClient st with
    | Some c => Whois c domain servers st
    | None => (Panics nilDereference, st)
    end.

(** The exported operations, as a caller of the package issues them
    one after the other. *)
Inductive call : Type :=
| CallInitWhois (configFile : string)
| CallNewClient
| CallSetDialer (c : ptr) (d : Dialer)
| CallSetTimeout (c : ptr) (t : Z)
| CallSetDisableStats (c : ptr) (disabled : bool)
| CallSetDisableReferral (c : ptr) (disabled : bool)
| CallWhois (c : ptr) (domain : string) (servers : list string)
| CallPackageWhois (domain : string) (servers : list string).

Definition exec (k : call) (st : state) : state :=
  match k with
  | CallInitWhois f => snd (InitWhois f st)
  | CallNewClient => snd (NewClient st)
  | CallSetDialer c d => snd (SetDialer c d st)
  | CallSetTimeout c t => snd (SetTimeout c t st)
  | CallSetDisableStats c b => snd (SetDisableStats c b st)
  | CallSetDisableReferral c b => snd (SetDisableReferral c b st)
  | CallWhois c domain servers => snd (Whois c domain servers st)
  | CallPackageWhois domain servers => snd (PackageWhois domain servers st)
  end.

Definition run (ks : list call) (st : state) : state :=
  fold_left (fun s k => exec k s) ks st.

(** *** The run of [rawQuery], written out

    The query line written to the connection, the host dialled, and the
    exchange on the network with its results: what [rawQuery] does for a
    client [cl] whose directory is [m], as functions. *)
Definition queryLine (domain server : string) : string :=
  (if String.eqb server "whois.arin.net"
   then if IsASN domain then "a + " +:+ domain else "n + " +:+ domain
   else domain) +:+ CRLF.

Definition dialTarget (m : Directory.serverMap) (server : string) : string :=
  match Directory.rewriteServers m !! server with
  | Some v => v
  | None => server
  end.

Definition exchange (cl : Client) (hist : list event) (target port line : string)
  : (string * option error) * list event :=
  match dialer cl (timeout cl) hist "tcp" (JoinHostPort target port) with
  | DialFails err =>
      (("", Some (Errorf ("whois: connect to whois server (" +:+ target
                          +:+ ") failed: ") err "")), [])
  | Connected conn =>
      match conn line with
      | WriteFails err =>
          (("", Some (Errorf ("whois: send to whois server (" +:+ target
                              +:+ ") failed: ") err "")),
           [EvWrite line; EvClose])
      | ReadFails err =>
          (("", Some (Errorf ("whois: read from whois server (" +:+ target
                              +:+ ") failed: ") err "")),
           [EvWrite line; EvReadAll; EvClose])
      | Reads buffer => ((buffer, None), [EvWrite line; EvReadAll; EvClose])
      end
  end.

(** The events of one [rawQuery], from its entry to its return. *)
Definition rawQueryEvents (cl : Client) (p : ptr) (m : Directory.serverMap)
    (hist : list event) (domain server port : string) : list event :=
  let head :=
    [ EvRawQuery domain server port;
      EvGetRewriteServer (Some p) server;
      EvDial "tcp" (JoinHostPort (dialTarget m server) port) ] in
  head ++ snd (exchange cl (hist ++ head) (dialTarget m server) port
                        (queryLine domain server)).

Definition rawQueryResult (cl : Client) (p : ptr) (m : Directory.serverMap)
    (hist : list event) (domain server port : string) : string * option error :=
  fst (exchange cl (hist ++ [ EvRawQuery domain server port;
                              EvGetRewriteServer (Some p) server;
                              EvDial "tcp" (JoinHostPort (dialTarget m server) port) ])
                (dialTarget m server) port (queryLine domain server)).

(** The server and the port of a value, as lines 263 to 268 of
    [getServer] split it. *)
Definition hostPort (server : string) : string * string :=
  if Contains server ":"
  then (nth 0 (Split server ":") "", nth 1 (Split server ":") "")
  else (server, defaultWhoisPort).

(** *** The run of the referral chase and of the deferred function,
    written out *)

(** The referral server that [Whois] queries after a first query to
    [server] has returned [r1], if it queries one. *)
Definition referral (cl : Client) (r1 : string * option error) (server : string)
  : option (string * string) :=
  match snd r1 with
  | Some _ => None
  | None =>
      if disableReferral cl then None
      else
        let ref := getServer (fst r1) in
        if String.eqb (fst ref) "" || String.eqb (fst ref) server
        then None
        else Some ref
  end.

Definition queryAndReferEvents (cl : Client) (p : ptr) (m : Directory.serverMap)
    (hist : list event) (domain server port : string) : list event :=
  let ev1 := rawQueryEvents cl p m hist domain server port in
  match referral cl (rawQueryResult cl p m hist domain server port) server with
  | None => ev1
  | Some ref =>
      ev1 ++ rawQueryEvents cl p m (hist ++ ev1) domain (fst ref) (snd ref)
  end.

Definition queryAndReferResult (cl : Client) (p : ptr) (m : Directory.serverMap)
    (hist : list event) (domain server port : string) : string * option error :=
  let r1 := rawQueryResult cl p m hist domain server port in
  let ev1 := rawQueryEvents cl p m hist domain server port in
  match referral cl r1 server with
  | None => r1
  | Some ref =>
      let r2 := rawQueryResult cl p m (hist ++ ev1) domain (fst ref) (snd ref) in
      match snd r2 with
      | None => (fst r1 +:+ fst r2, None)
      | Some err => (fst r1, Some err)
      end
  end.

(** The text [Whois] returns for the text [result] of its body: [stats]
    is the negation of [disableStats], [start] and [finish] are the
    times at entry and at return. *)
Definition formatResult (stats : bool) (start finish : Z) (result : string)
  : string :=
  let trimmed := TrimSpace result in
  if negb (String.eqb trimmed "") && stats
  then withStats trimmed (Milliseconds (finish - start)) (formatTime start)
  else trimmed.

(** *** [getServer] with the range checks of Go

    A slice expression [s[lo:hi]] panics unless [0 <= lo <= hi <= len(s)],
    and an index expression [v[i]] unless [i < len(v)].  The functions
    below are lines 242 to 273 with these checks written out; [None] is
    the panic. *)
Definition checkedSliceFrom (s : string) (lo : Z) : option string :=
  if ((0 <=? lo) && (lo <=? len s))%Z then Some (slice_from s lo) else None.

Definition checkedSlice (s : string) (lo hi : Z) : option string :=
  if ((0 <=? lo) && (lo <=? hi) && (hi <=? len s))%Z
  then Some (slice s lo hi)
  else None.

Definition checkedServerAt (data : string) (start : Z) : option (string * string) :=
  match checkedSliceFrom data start with
  | None => None
  | Some rest =>
      let end_ := Index rest LF in
      let end_ := if (end_ =? -1)%Z then len rest else end_ in
      match checkedSlice data start (start + end_) with
      | None => None
      | Some value =>
          let server := TrimSpace value in
          let server := extractHostname server in
          let port := defaultWhoisPort in
          if Contains server ":"
          then let v := Split server ":" in
               match v !! 0%nat, v !! 1%nat with
               | Some v0, Some v1 => Some (v0, v1)
               | _, _ => None
               end
          else Some (server, port)
      end
  end.

Fixpoint checkedGetServerIn (toks : list string) (data : string)
  : option (string * string) :=
  match toks with
  | [] => Some ("", "")
  | token :: toks' =>
      let start := Index data token in
      if negb (start =? -1)%Z
      then checkedServerAt data (start + len token)
      else checkedGetServerIn toks' data
  end.

Definition checkedGetServer (data : string) : option (string * string) :=
  checkedGetServerIn tokens data.

End Collaborators.

End Engine.

Import Engine.

(** ** Observations on a trace *)

(** The events a call adds to the trace. *)
Definition eventsOf {A : Type} (m : M A) (st : state) : list event :=
  drop (length (trace st)) (trace (snd (m st))).

(** The calls of [rawQuery]: query, server as resolved, port. *)
Definition rawQueries (evs : list event) : list (string * string * string) :=
  omap (fun e => match e with
                 | EvRawQuery d s p => Some (d, s, p)
                 | _ => None
                 end) evs.

(** The addresses dialled and the query lines written. *)
Definition dials (evs : list event) : list string :=
  omap (fun e => match e with EvDial _ addr => Some addr | _ => None end) evs.

Definition writes (evs : list event) : list string :=
  omap (fun e => match e with EvWrite data => Some data | _ => None end) evs.

(** The lookups and updates of the extension table. *)
Definition isDirectoryLookup (e : event) : bool :=
  match e with
  | EvGetWhoisServer _ _ | EvSetWhoisServer _ _ _ => true
  | _ => false
  end.

Definition directoryLookups (evs : list event) : list event :=
  List.filter isDirectoryLookup evs.

(** The receivers of the calls into the directory. *)
Definition receivers (evs : list event) : list (option ptr) :=
  omap (fun e => match e with
                 | EvGetWhoisServer r _ | EvSetWhoisServer r _ _
                 | EvGetRewriteServer r _ => Some r
                 | _ => None
                 end) evs.

(** The updates of the extension table. *)
Definition directoryWrites (evs : list event) : list (string * string) :=
  omap (fun e => match e with
                 | EvSetWhoisServer _ ext server => Some (ext, server)
                 | _ => None
                 end) evs.

(** Modelled from the spec: [IsASN] is not in [whois.go].  Section 4.2
    of the specification: a query matches the ASN pattern when it is
    numeric, or already prefixed, case-insensitively, with the ASN
    marker. *)
Definition asnPattern (s : string) : bool :=
  let u := ToUpper s in
  let number := if HasPrefix u asnPrefix then drop_bytes 2 u else u in
  negb (String.eqb number "") && allBytes isDigit number.

(** ** Concrete collaborators *)

Module Fixture.

(** The fixture classifies by the ASN pattern. *)
Definition IsASN : string -> bool := asnPattern.

(** Modelled from the spec: [getExtension] is not in [whois.go].  The
    extension is the final label of the query, the text after its
    last dot. *)
Definition getExtension (domain : string) : string :=
  List.last (Split domain ".") domain.

(** The text before the first instance of [sep], or the whole text. *)
Definition upTo (sep s : string) : string :=
  match index_from s sep with
  | Some n => take_bytes n s
  | None => s
  end.

(** Modelled from the spec: [extractHostname] is not in [whois.go].
    Section 4.4: if the value is a URL, only the host name component is
    kept.  Here a URL is a value with a scheme separator; its host name
    ends before the first slash or colon after the separator. *)
Definition extractHostname (server : string) : string :=
  match index_from server "://" with
  | Some n => upTo ":" (upTo "/" (drop_bytes (n + 3) server))
  | None => server
  end.

(** A directory file with one extension and one rewrite rule; any
    other file fails to load. *)
Definition LoadFromFile (configFile : string) (m : Directory.serverMap)
  : Directory.serverMap * option error :=
  if String.eqb configFile "whois-servers.conf"
  then ({| Directory.whoisServers :=
             <["com" := "whois.verisign-grs.com"]> (Directory.whoisServers m);
           Directory.rewriteServers :=
             <["whois.arin.net" := "whois-v4.arin.net"]>
               (Directory.rewriteServers m) |}, None)
  else (m, Some (ExternalError "open: no such file or directory")).

(** A clock that advances by three milliseconds with every event. *)
Definition now (t : list event) : Z := 3000000 * Z.of_nat (length t).
Definition formatTime (t : Z) : string := "T+" +:+ formatInt (t / 1000000).

Fixpoint assoc {A : Type} (k : string) (l : list (string * A)) : option A :=
  match l with
  | [] => None
  | (k', a) :: l' => if String.eqb k k' then Some a else assoc k l'
  end.

(** A server that answers the query lines of its table and answers
    nothing to any other line. *)
Definition answers (table : list (string * string)) : string -> conn_reply :=
  fun line =>
    match assoc line table with
    | Some text => Reads text
    | None => Reads ""
    end.

(** A network of such servers; dialling any other address fails. *)
Definition network (hosts : list (string * (string -> conn_reply))) : Dialer :=
  fun _ _ _ addr =>
    match assoc addr hosts with
    | Some conn => Connected conn
    | None => DialFails (ExternalError "dial tcp: connection refused")
    end.

Definition hosts : list (string * (string -> conn_reply)) :=
  [ ("whois.iana.org:43",
     answers [ ("xy" +:+ CRLF, "% IANA WHOIS server" +:+ LF
                               +:+ "whois: whois.nic.xy" +:+ LF);
               ("zz" +:+ CRLF, "% no such domain" +:+ LF);
               ("com" +:+ CRLF, "domain: COM" +:+ LF
                                +:+ "whois: whois.verisign-grs.com" +:+ LF) ]);
    ("whois.nic.xy:43",
     answers [ ("name.xy" +:+ CRLF, "Domain Name: name.xy" +:+ LF);
               ("other.xy" +:+ CRLF, "Domain Name: other.xy" +:+ LF) ]);
    ("whois.verisign-grs.com:43",
     answers [ ("example.com" +:+ CRLF,
                "Domain Name: EXAMPLE.COM" +:+ LF
                +:+ "Registrar WHOIS Server: whois.registrar.example" +:+ LF);
               ("good.com" +:+ CRLF,
                "Domain Name: GOOD.COM" +:+ LF
                +:+ "Registrar WHOIS Server: whois.good.example" +:+ LF) ]);
    ("whois.radb.example:43",
     answers [ ("AS15169" +:+ CRLF, "aut-num: AS15169" +:+ LF);
               ("as15169" +:+ CRLF, "aut-num: AS15169" +:+ LF) ]);
    ("whois.good.example:43",
     answers [ ("good.com" +:+ CRLF, "Registrar: Good Names" +:+ LF) ]);
    ("whois-v4.arin.net:43",
     answers [ ("n + 8.8.8.8" +:+ CRLF, "NetRange: 8.8.8.0 - 8.8.8.255" +:+ LF);
               ("a + AS15169" +:+ CRLF, "ASName: GOOGLE" +:+ LF);
               ("a + as15169" +:+ CRLF, "ASName: GOOGLE" +:+ LF) ]) ].

Definition net : Dialer := network hosts.

Definition Whois := Whois IsASN getExtension extractHostname now formatTime.
Definition run :=
  run IsASN getExtension extractHostname LoadFromFile net now formatTime.

(** The package as it is loaded, and after [InitWhois] and a
    [NewClient]: client 0 is [DefaultClient], client 1 is the new one. *)
Definition loaded : state := packageInit net.

Definition ready : state :=
  run [CallInitWhois "whois-servers.conf"; CallNewClient] loaded.

(** The client 1 and its directory, as [ready] holds them. *)
Definition client : Client :=
  {| dialer := net; timeout := defaultElapsedTimeout; elapsed := 0;
     disableStats := false; disableReferral := false;
     serverMap := Some 0%nat |}.

Definition directory : Directory.serverMap :=
  fst (LoadFromFile "whois-servers.conf" Directory.NewServerMap).

(** A further client, made after [ready]: client 2 has the directory
    of client 1. *)
Definition pair : state := run [CallNewClient] ready.

(** Client 1 behind a dialer that reaches no host. *)
Definition unplugged : Dialer := network [].

Definition offline : state := run [CallSetDialer 1%nat unplugged] ready.

Definition offlineClient : Client :=
  {| dialer := unplugged; timeout := defaultElapsedTimeout; elapsed := 0;
     disableStats := false; disableReferral := false;
     serverMap := Some 0%nat |}.

(** Client 1 on a network where a call goes all the way: the root
    server knows the registry of [pq], and the registry names a
    registrar. *)
Definition chain : Dialer :=
  network
    [ ("whois.iana.org:43",
       answers [ ("pq" +:+ CRLF, "whois: whois.nic.pq" +:+ LF) ]);
      ("whois.nic.pq:43",
       answers [ ("name.pq" +:+ CRLF,
                  "Registrar WHOIS Server: whois.registrar.pq" +:+ LF) ]);
      ("whois.registrar.pq:43",
       answers [ ("name.pq" +:+ CRLF, "Registrar: PQ Names" +:+ LF) ]) ].

Definition chained : state := run [CallSetDialer 1%nat chain] ready.

End Fixture.

(** ** Predicates on states and results *)

(** The client [c] is [cl] up to its field [elapsed], and its directory
    is the object [m] behind [p]. *)
Definition serves (c : ptr) (cl : Client) (p : ptr) (m : Directory.serverMap)
    (st : state) : Prop :=
  (exists cl', clients st !! c = Some cl' /\ atRest cl' = atRest cl)
  /\ serverMap cl = Some p
  /\ maps st !! p = Some m.

(** The text starts with a rune of the set ([one], [two], [three] as
    for [trimRunes]). *)
Definition leadsWith (one : ascii -> bool) (two : ascii -> ascii -> bool)
    (three : ascii -> ascii -> ascii -> bool) (s : string) : bool :=
  match s with
  | EmptyString => false
  | String b1 s1 =>
      one b1
      || match s1 with
         | EmptyString => false
         | String b2 s2 =>
             two b1 b2
             || match s2 with
                | EmptyString => false
                | String b3 _ => three b1 b2 b3
                end
         end
  end.

(** The text starts, or ends, with a white-space rune. *)
Definition startsWithSpace (s : string) : bool :=
  leadsWith isAsciiSpace isSpace2 isSpace3 s.

Definition endsWithSpace (s : string) : bool :=
  leadsWith isAsciiSpace (fun b1 b2 => isSpace2 b2 b1)
            (fun b1 b2 b3 => isSpace3 b3 b2 b1) (reverse s).

(** The text starts, or ends, with the byte [c]; it is made of the
    byte [c] alone. *)
Definition startsWithByte (c : ascii) (s : string) : bool :=
  match s with
  | EmptyString => false
  | String b _ => Ascii.eqb b c
  end.

Definition endsWithByte (c : ascii) (s : string) : bool :=
  startsWithByte c (reverse s).

Definition onlyByte (c : ascii) (s : string) : bool :=
  allBytes (fun b => Ascii.eqb b c) s.

(** An error that [fmt.Errorf] made, or no error. *)
Definition wrapped (o : option error) : Prop :=
  match o with
  | Some (Errorf _ _ _) => True
  | Some _ => False
  | None => True
  end.

(** An error that [rawQuery] makes: the stage that failed, the host
    that was dialled, and the error it wraps. *)
Definition isQueryError (e : error) : Prop :=
  exists stage host cause,
    In stage ["connect to"; "send to"; "read from"]
    /\ e = Errorf ("whois: " +:+ stage +:+ " whois server (" +:+ host
                   +:+ ") failed: ") cause "".

(** The raw queries of a referral chase after a query to [server]: none,
    or one, for the same text [d], to a named server other than
    [server]. *)
Definition chase (d server : string) (refs : list (string * string * string))
  : Prop :=
  (length refs <= 1)%nat
  /\ Forall (fun q => fst (fst q) = d /\ snd (fst q) <> ""
                      /\ snd (fst q) <> server) refs.

(** No entry of the extension table has the empty server. *)
Definition named (m : Directory.serverMap) : Prop :=
  forall ext s, Directory.whoisServers m !! ext = Some s -> s <> "".

(** The client with its flag [disableStats] set to [b], and the state
    in which the client behind [c] has the flag so: the state after
    [SetDisableStats]. *)
Definition statsFlag (b : bool) (cl : Client) : Client :=
  {| dialer := dialer cl; timeout := timeout cl; elapsed := elapsed cl;
     disableStats := b;
     disableReferral := disableReferral cl;
     serverMap := serverMap cl |}.

Definition flagged (c : nat) (b : bool) (st : state) : state :=
  snd (store c (statsFlag b) st).

(** A call does the same, and returns the same, in the state with the
    flag set as in the state without. *)
Definition ignoresStats {A : Type} (c : nat) (b : bool) (m : M A) : Prop :=
  forall st, m (flagged c b st) = (fst (m st), flagged c b (snd (m st))).

(** A call keeps a property of the state. *)
Definition keeps {A : Type} (Inv : state -> Prop) (m : M A) : Prop :=
  forall st, Inv st -> Inv (snd (m st)).

(** The directory behind [p] maps the extension [ext] to [s]. *)
Definition memo (p : ptr) (ext s : string) (st : state) : Prop :=
  exists m, maps st !! p = Some m /\ Directory.whoisServers m !! ext = Some s.

(** The client behind [c0] exists and its directory is [x]. *)
Definition holds (c0 : ptr) (x : option ptr) (st : state) : Prop :=
  exists cl, clients st !! c0 = Some cl /\ serverMap cl = x.

(** A call adds events with the property [P] to the trace, whether it
    returns or panics. *)
Definition emits {A : Type} (P : list event -> Prop) (m : M A) : Prop :=
  forall st, exists evs, trace (snd (m st)) = trace st ++ evs /\ P evs.

(** At most [q] raw queries, [d] dials and [w] updates of the extension
    table. *)
Definition within (q d w : nat) (evs : list event) : Prop :=
  (length (rawQueries evs) <= q)%nat
  /\ (length (dials evs) <= d)%nat
  /\ (length (directoryWrites evs) <= w)%nat.

(** The directory behind [p] has the rewrite table of [m] and every
    entry of the extension table of [m]. *)
Definition grows (p : ptr) (m : Directory.serverMap) (st : state) : Prop :=
  exists m', maps st !! p = Some m'
             /\ Directory.rewriteServers m' = Directory.rewriteServers m
             /\ Directory.whoisServers m ⊆ Directory.whoisServers m'.

(** The case analysis of a run: every [match] and [if] of a hypothesis
    is split, impossible equations are closed. *)
Ltac run_cases :=
  repeat (simpl in *;
          match goal with
          | H : (_, _) = (_, _) |- _ => injection H as ? ?; subst
          | H : Returns _ = Returns _ |- _ => injection H as ?; subst
          | H : Panics _ = Returns _ |- _ => discriminate H
          | H : inl _ = inr _ |- _ => discriminate H
          | H : inr _ = inr _ |- _ => injection H as ?; subst
          | H : context [match ?x with _ => _ end] |- _ =>
              destruct x eqn:?
          | H : context [if ?x then _ else _] |- _ =>
              destruct x eqn:?
          end).

(** * Properties *)

(** ** Byte strings *)

Section StringFacts.

Lemma append_cons (a : ascii) (s t : string) :
  String a s +:+ t = String a (s +:+ t).
Proof. reflexivity. Qed.

Lemma append_nil_l (t : string) : "" +:+ t = t.
Proof. reflexivity. Qed.

Lemma append_nil_r (s : string) : s +:+ "" = s.
Proof.
  induction s as [|a s IH]; [reflexivity|].
  rewrite append_cons, IH. reflexivity.
Qed.

Lemma append_assoc (a b c : string) : (a +:+ b) +:+ c = a +:+ (b +:+ c).
Proof.
  induction a as [|x a IH]; [reflexivity|].
  rewrite !append_cons, IH. reflexivity.
Qed.

Lemma length_append (a b : string) :
  String.length (a +:+ b) = (String.length a + String.length b)%nat.
Proof.
  induction a as [|x a IH]; [reflexivity|].
  rewrite append_cons. simpl. rewrite IH. reflexivity.
Qed.

Lemma drop_bytes_app (a s : string) : drop_bytes (String.length a) (a +:+ s) = s.
Proof.
  induction a as [|x a IH]; [destruct s; reflexivity|].
  rewrite append_cons. simpl. exact IH.
Qed.

Lemma take_bytes_app (a s : string) : take_bytes (String.length a) (a +:+ s) = a.
Proof.
  induction a as [|x a IH]; [destruct s; reflexivity|].
  rewrite append_cons. simpl. rewrite IH. reflexivity.
Qed.

Lemma HasPrefix_nil (s : string) : HasPrefix s "" = true.
Proof. destruct s; reflexivity. Qed.

Lemma HasPrefix_app (p s : string) : HasPrefix (p +:+ s) p = true.
Proof.
  induction p as [|x p IH]; [apply HasPrefix_nil|].
  rewrite append_cons. simpl. rewrite Ascii.eqb_refl. exact IH.
Qed.

Lemma HasPrefix_split (s p : string) :
  HasPrefix s p = true -> s = p +:+ drop_bytes (String.length p) s.
Proof.
  revert s. induction p as [|x p IH]; intros s H.
  - destruct s; reflexivity.
  - destruct s as [|a s]; simpl in H; [discriminate|].
    apply andb_true_iff in H. destruct H as [Ha Hp].
    apply Ascii.eqb_eq in Ha. subst a.
    rewrite append_cons. simpl. f_equal. apply IH. exact Hp.
Qed.

Lemma Index_none (s sub : string) : Index s sub = (-1)%Z <-> index_from s sub = None.
Proof.
  unfold Index. destruct (index_from s sub); split; intros H;
    try discriminate; try reflexivity. lia.
Qed.

Lemma Index_some (s sub : string) (n : nat) :
  Index s sub = Z.of_nat n <-> index_from s sub = Some n.
Proof.
  unfold Index. destruct (index_from s sub) as [k|]; split; intros H.
  - f_equal. lia.
  - injection H as ->. reflexivity.
  - lia.
  - discriminate.
Qed.

Lemma Contains_false (s sub : string) :
  Contains s sub = false <-> index_from s sub = None.
Proof.
  unfold Contains, Index. destruct (index_from s sub); split; intros H;
    try discriminate; try reflexivity.
  apply Z.leb_gt in H. lia.
Qed.

(** The first instance of a one-byte separator after a text without it. *)
Lemma index_from_byte_app (value rest : string) (c : ascii) :
  index_from value (String c "") = None ->
  index_from (value +:+ String c rest) (String c "") = Some (String.length value).
Proof.
  induction value as [|a value IH]; intros H.
  - rewrite append_nil_l. simpl. rewrite Ascii.eqb_refl, HasPrefix_nil. reflexivity.
  - rewrite append_cons. simpl in *.
    destruct (Ascii.eqb a c); simpl in *.
    + rewrite HasPrefix_nil in H. discriminate.
    + destruct (index_from value (String c "")) eqn:E; [discriminate|].
      rewrite IH by reflexivity. reflexivity.
Qed.

Lemma drop_bytes_add (n k : nat) (s : string) :
  drop_bytes (n + k) s = drop_bytes k (drop_bytes n s).
Proof.
  revert s. induction n as [|n IH]; intros s; [reflexivity|].
  destruct s as [|a s]; simpl; [destruct k; reflexivity | apply IH].
Qed.

(** A value [host:port] splits into its two parts. *)
Lemma Split_host_port (host port : string) :
  Contains host ":" = false ->
  Contains port ":" = false ->
  Split (host +:+ ":" +:+ port) ":" = [host; port].
Proof.
  intros Hh Hp. apply Contains_false in Hh. apply Contains_false in Hp.
  change (":" +:+ port) with (String ":" port).
  unfold Split. rewrite length_append.
  change (String.length (String ":" port)) with (S (String.length port)).
  rewrite Nat.add_succ_r. simpl genSplit.
  rewrite (index_from_byte_app host port ":" Hh).
  rewrite take_bytes_app, drop_bytes_add, drop_bytes_app. simpl drop_bytes.
  destruct (String.length host + String.length port)%nat; simpl; [reflexivity|].
  rewrite Hp. reflexivity.
Qed.

Lemma ToUpper_app (a b : string) : ToUpper (a +:+ b) = ToUpper a +:+ ToUpper b.
Proof.
  unfold ToUpper. induction a as [|x a IH]; [reflexivity|].
  rewrite append_cons. simpl. rewrite IH. reflexivity.
Qed.

(** A letter is no digit: a byte whose uppercase form is a digit is
    that digit. *)
Lemma upperByte_digit (c : ascii) : isDigit (upperByte c) = true -> upperByte c = c.
Proof.
  destruct c as [[] [] [] [] [] [] [] []]; vm_compute; intros H;
    first [reflexivity | discriminate H].
Qed.

Lemma ToUpper_digits (s : string) :
  allBytes isDigit (ToUpper s) = true -> ToUpper s = s.
Proof.
  unfold ToUpper. induction s as [|c s IH]; [reflexivity|].
  simpl. intros H. apply andb_true_iff in H. destruct H as [Hc Hs].
  rewrite (upperByte_digit c Hc), (IH Hs). reflexivity.
Qed.

Lemma upperByte_ascii (c : ascii) :
  (nat_of_ascii (upperByte c) <? 128)%nat = (nat_of_ascii c <? 128)%nat.
Proof. destruct c as [[] [] [] [] [] [] [] []]; vm_compute; reflexivity. Qed.

Lemma isASCII_ToUpper (s : string) : isASCII (ToUpper s) = isASCII s.
Proof.
  unfold isASCII, ToUpper. induction s as [|c s IH]; [reflexivity|].
  simpl. rewrite upperByte_ascii, IH. reflexivity.
Qed.

Lemma isASCII_app (a b : string) : isASCII (a +:+ b) = isASCII a && isASCII b.
Proof.
  unfold isASCII. induction a as [|c a IH]; [reflexivity|].
  rewrite append_cons. simpl. rewrite IH, andb_assoc. reflexivity.
Qed.

Lemma digit_ascii (c : ascii) : isDigit c = true -> (nat_of_ascii c <? 128)%nat = true.
Proof.
  destruct c as [[] [] [] [] [] [] [] []]; vm_compute; intros H;
    first [reflexivity | discriminate H].
Qed.

Lemma digits_ascii (s : string) : allBytes isDigit s = true -> isASCII s = true.
Proof.
  unfold isASCII. induction s as [|c s IH]; [reflexivity|].
  simpl. intros H. apply andb_true_iff in H. destruct H as [Hc Hs].
  rewrite (digit_ascii c Hc), (IH Hs). reflexivity.
Qed.

(** *** Reversal *)

Lemma rev_bytes_app (acc s : string) : rev_bytes acc s = reverse s +:+ acc.
Proof.
  unfold reverse. revert acc. induction s as [|c s IH]; intros acc; [reflexivity|].
  simpl. rewrite (IH (String c acc)), (IH (String c "")), append_assoc.
  reflexivity.
Qed.

Lemma reverse_cons (c : ascii) (s : string) :
  reverse (String c s) = reverse s +:+ String c "".
Proof. unfold reverse at 1. simpl. apply rev_bytes_app. Qed.

Lemma reverse_app (a b : string) : reverse (a +:+ b) = reverse b +:+ reverse a.
Proof.
  induction a as [|c a IH].
  - rewrite append_nil_l. change (reverse "") with "". rewrite append_nil_r.
    reflexivity.
  - rewrite append_cons, !reverse_cons, IH, append_assoc. reflexivity.
Qed.

Lemma reverse_involutive (s : string) : reverse (reverse s) = s.
Proof.
  induction s as [|c s IH]; [reflexivity|].
  rewrite reverse_cons, reverse_app, IH. reflexivity.
Qed.

Lemma allBytes_app (p : ascii -> bool) (a b : string) :
  allBytes p (a +:+ b) = allBytes p a && allBytes p b.
Proof.
  induction a as [|c a IH]; [reflexivity|].
  rewrite append_cons. simpl. rewrite IH, andb_assoc. reflexivity.
Qed.

Lemma allBytes_reverse (p : ascii -> bool) (s : string) :
  allBytes p (reverse s) = allBytes p s.
Proof.
  induction s as [|c s IH]; [reflexivity|].
  rewrite reverse_cons, allBytes_app, IH. simpl.
  rewrite andb_true_r, andb_comm. reflexivity.
Qed.

(** *** Trimming a byte *)

Lemma trimLeftByte_split (s : string) (c : ascii) :
  exists pre,
    s = pre +:+ trimLeftByte s c
    /\ onlyByte c pre = true
    /\ startsWithByte c (trimLeftByte s c) = false.
Proof.
  induction s as [|b s (pre & Hs & Hp & Hn)].
  - exists "". repeat split.
  - simpl. destruct (Ascii.eqb b c) eqn:E.
    + exists (String b pre). rewrite append_cons, <- Hs.
      split; [reflexivity|]. split; [|exact Hn].
      unfold onlyByte in *. simpl. rewrite E, Hp. reflexivity.
    + exists "". split; [reflexivity|]. split; [reflexivity|].
      simpl. exact E.
Qed.

Lemma startsWithByte_prefix (c : ascii) (a b : string) :
  startsWithByte c (a +:+ b) = false -> startsWithByte c a = false.
Proof. destruct a as [|x a]; [reflexivity|]. rewrite append_cons. auto. Qed.

(** What [strings.Trim] with a cutset of one byte returns: the text
    without the run of that byte at its head and at its tail. *)
Lemma TrimByte_spec (s : string) (c : ascii) :
  exists pre post,
    s = pre +:+ TrimByte s c +:+ post
    /\ onlyByte c pre = true
    /\ onlyByte c post = true
    /\ startsWithByte c (TrimByte s c) = false
    /\ endsWithByte c (TrimByte s c) = false.
Proof.
  destruct (trimLeftByte_split s c) as (pre & Hs & Hp & Hn).
  destruct (trimLeftByte_split (reverse (trimLeftByte s c)) c)
    as (rpost & Hr & Hrp & Hrn).
  assert (Ht : trimLeftByte s c = TrimByte s c +:+ reverse rpost).
  { rewrite <- (reverse_involutive (trimLeftByte s c)). rewrite Hr at 1.
    rewrite reverse_app. reflexivity. }
  exists pre, (reverse rpost).
  split; [rewrite <- Ht; exact Hs|]. split; [exact Hp|].
  split; [unfold onlyByte; rewrite allBytes_reverse; exact Hrp|].
  split.
  - apply (startsWithByte_prefix c _ (reverse rpost)). rewrite <- Ht. exact Hn.
  - unfold endsWithByte, TrimByte, trimRightByte. rewrite reverse_involutive.
    exact Hrn.
Qed.

(** *** Trimming runes *)

Section RuneTrim.

Variable one : ascii -> bool.
Variable two : ascii -> ascii -> bool.
Variable three : ascii -> ascii -> ascii -> bool.

Lemma trimRunes_fixed (s : string) :
  leadsWith one two three s = false -> trimRunes one two three s = s.
Proof.
  destruct s as [|b1 [|b2 [|b3 s3]]]; simpl; intros H; try reflexivity;
    repeat (apply orb_false_iff in H; destruct H as [? H]);
    repeat match goal with E : _ = false |- _ => rewrite E; clear E end;
    try rewrite H; reflexivity.
Qed.

Lemma trimRunes_split_le (n : nat) (s : string) :
  (String.length s <= n)%nat ->
  exists pre,
    s = pre +:+ trimRunes one two three s
    /\ trimRunes one two three pre = ""
    /\ leadsWith one two three (trimRunes one two three s) = false.
Proof.
  revert s. induction n as [|n IH]; intros s Hl.
  - destruct s; [|simpl in Hl; lia]. exists "". repeat split.
  - destruct s as [|b1 s1]; [exists ""; repeat split|].
    simpl in Hl. simpl trimRunes. destruct (one b1) eqn:E1.
    { destruct (IH s1 ltac:(lia)) as (pre & Hs & Hp & Hn).
      exists (String b1 pre). rewrite append_cons, <- Hs.
      split; [reflexivity|]. split; [simpl; rewrite E1; exact Hp | exact Hn]. }
    destruct s1 as [|b2 s2].
    { exists "". split; [reflexivity|]. split; [reflexivity|].
      simpl. rewrite E1. reflexivity. }
    simpl in Hl. destruct (two b1 b2) eqn:E2.
    { destruct (IH s2 ltac:(lia)) as (pre & Hs & Hp & Hn).
      exists (String b1 (String b2 pre)). rewrite !append_cons, <- Hs.
      split; [reflexivity|]. split; [simpl; rewrite E1, E2; exact Hp | exact Hn]. }
    destruct s2 as [|b3 s3].
    { exists "". split; [reflexivity|]. split; [reflexivity|].
      simpl. rewrite E1, E2. reflexivity. }
    simpl in Hl. destruct (three b1 b2 b3) eqn:E3.
    { destruct (IH s3 ltac:(lia)) as (pre & Hs & Hp & Hn).
      exists (String b1 (String b2 (String b3 pre))). rewrite !append_cons, <- Hs.
      split; [reflexivity|].
      split; [simpl; rewrite E1, E2, E3; exact Hp | exact Hn]. }
    exists "". split; [reflexivity|]. split; [reflexivity|].
    simpl. rewrite E1, E2, E3. reflexivity.
Qed.

Lemma trimRunes_split (s : string) :
  exists pre,
    s = pre +:+ trimRunes one two three s
    /\ trimRunes one two three pre = ""
    /\ leadsWith one two three (trimRunes one two three s) = false.
Proof. apply (trimRunes_split_le (String.length s)). lia. Qed.

Lemma leadsWith_prefix (a b : string) :
  leadsWith one two three (a +:+ b) = false -> leadsWith one two three a = false.
Proof.
  destruct a as [|b1 [|b2 [|b3 a3]]]; try reflexivity;
    rewrite ?append_cons, ?append_nil_l; simpl; intros H;
    repeat (apply orb_false_iff in H; destruct H as [? H]);
    repeat match goal with E : _ = false |- _ => rewrite E; clear E end;
    try reflexivity; try exact H.
Qed.

End RuneTrim.

(** What [strings.TrimSpace] returns: the text without the white-space
    runes at its head and at its tail; trimming it again changes
    nothing. *)
Lemma TrimSpace_spec (s : string) :
  (exists pre post,
      s = pre +:+ TrimSpace s +:+ post
      /\ trimLeftSpace pre = ""
      /\ trimRightSpace post = "")
  /\ startsWithSpace (TrimSpace s) = false
  /\ endsWithSpace (TrimSpace s) = false
  /\ TrimSpace (TrimSpace s) = TrimSpace s.
Proof.
  unfold TrimSpace, trimRightSpace, trimLeftSpace, trimLeftSpaceRev,
    startsWithSpace, endsWithSpace.
  set (two' := fun b1 b2 => isSpace2 b2 b1).
  set (three' := fun b1 b2 b3 => isSpace3 b3 b2 b1).
  set (one := isAsciiSpace). set (two := isSpace2). set (three := isSpace3).
  destruct (trimRunes_split one two three s) as (pre & Hs & Hp & Hn).
  set (t := trimRunes one two three s) in *.
  destruct (trimRunes_split one two' three' (reverse t)) as (rpost & Hr & Hrp & Hrn).
  set (u := trimRunes one two' three' (reverse t)) in *.
  assert (Ht : t = reverse u +:+ reverse rpost).
  { rewrite <- (reverse_involutive t). rewrite Hr at 1. apply reverse_app. }
  assert (Hstart : leadsWith one two three (reverse u) = false).
  { apply (leadsWith_prefix one two three _ (reverse rpost)). rewrite <- Ht.
    exact Hn. }
  assert (Hend : leadsWith one two' three' (reverse (reverse u)) = false)
    by (rewrite reverse_involutive; exact Hrn).
  split; [|split; [exact Hstart | split; [exact Hend|]]].
  - exists pre, (reverse rpost). split; [rewrite <- Ht; exact Hs|].
    split; [exact Hp|]. rewrite reverse_involutive, Hrp. reflexivity.
  - rewrite (trimRunes_fixed one two three _ Hstart).
    rewrite (trimRunes_fixed one two' three' _ Hend).
    apply reverse_involutive.
Qed.

End StringFacts.

Section EngineProperties.

Variable IsASN : string -> bool.
Variable getExtension : string -> string.
Variable extractHostname : string -> string.
Variable LoadFromFile :
  string -> Directory.serverMap -> Directory.serverMap * option error.
Variable netDialer : Dialer.
Variable now : list event -> Z.
Variable formatTime : Z -> string.

Local Notation rawQuery := (rawQuery IsASN).
Local Notation getServer := (getServer extractHostname).
Local Notation withPrefix := (withPrefix IsASN).
Local Notation resolveServer := (resolveServer IsASN getExtension extractHostname).
Local Notation queryAndRefer := (queryAndRefer IsASN extractHostname).
Local Notation whoisBody := (whoisBody IsASN getExtension extractHostname).
Local Notation deferred := (deferred now formatTime).
Local Notation Whois := (Whois IsASN getExtension extractHostname now formatTime).
Local Notation NewClient := (NewClient netDialer).
Local Notation packageInit := (packageInit netDialer).
Local Notation run :=
  (run IsASN getExtension extractHostname LoadFromFile netDialer now formatTime).
Local Notation exec :=
  (exec IsASN getExtension extractHostname LoadFromFile netDialer now formatTime).
Local Notation queryLine := (queryLine IsASN).
Local Notation rawQueryEvents := (rawQueryEvents IsASN).
Local Notation rawQueryResult := (rawQueryResult IsASN).
Local Notation referral := (referral extractHostname).
Local Notation queryAndReferEvents := (queryAndReferEvents IsASN extractHostname).
Local Notation queryAndReferResult := (queryAndReferResult IsASN extractHostname).
Local Notation formatResult := (formatResult formatTime).

Lemma rawQuery_run c cl p m domain server port st :
  serves c cl p m st ->
  exists st',
    rawQuery c domain server port st
    = (Returns (rawQueryResult cl p m (trace st) domain server port), st')
    /\ trace st' = trace st ++ rawQueryEvents cl p m (trace st) domain server port
    /\ maps st' = maps st
    /\ serves c cl p m st'.
Proof.
  intros [(cl' & Hc & Hcl) [Hp Hm]].
  assert (Hlt : (c < length (clients st))%nat) by (eapply lookup_lt_Some; eauto).
  assert (Hf : serverMap cl' = serverMap cl /\ dialer cl' = dialer cl
                /\ timeout cl' = timeout cl)
    by (unfold atRest in Hcl; injection Hcl; auto).
  destruct Hf as (Hf1 & Hf2 & Hf3).
  unfold Engine.rawQuery, Engine.rawQueryResult, Engine.rawQueryEvents, Engine.exchange, resetElapsed, GetRewriteServer, dialContext.
  unfold bind, emit, store, load, deref, ret. simpl.
  rewrite Hc. simpl.
  rewrite list_lookup_insert_eq by assumption. simpl.
  rewrite Hf1, Hp. simpl. rewrite Hm. simpl.
  rewrite list_lookup_insert_eq by assumption. simpl.
  rewrite Hf2, Hf3.
  unfold Directory.lookupRewriteServer, dialTarget, Engine.queryLine.
  rewrite <- ?app_assoc. simpl.
  set (target := match Directory.rewriteServers m !! server with Some v => v | None => server end).
  assert (Ht : (if (match Directory.rewriteServers m !! server with Some v => (v, true) | None => ("", false) end).2 then (match Directory.rewriteServers m !! server with Some v => (v, true) | None => ("", false) end).1 else server) = target)
    by (subst target; destruct (Directory.rewriteServers m !! server); reflexivity).
  rewrite Ht.
  assert (Hserves : forall t, serves c cl p m (set_trace t (set_clients (<[c:=atRest cl']> (clients st)) st))).
  { intros t. split; [|split]; simpl; auto.
    exists (atRest cl'). split; [apply list_lookup_insert_eq; assumption|].
    rewrite <- Hcl. reflexivity. }
  destruct (dialer cl (timeout cl) _ "tcp" _) as [err|conn]; simpl.
  - eexists; split; [reflexivity|]. simpl. rewrite <- ?app_assoc. simpl. split; [reflexivity|]. split; [reflexivity|]. apply Hserves.
  - destruct (conn _) as [err|err|buffer]; simpl;
      (eexists; split; [reflexivity|]; simpl; rewrite <- ?app_assoc; simpl;
       split; [reflexivity|]; split; [reflexivity|]; apply Hserves).
Qed.
Lemma serves_client c cl p m st :
  serves c cl p m st ->
  exists cl', clients st !! c = Some cl'
              /\ disableStats cl' = disableStats cl
              /\ disableReferral cl' = disableReferral cl
              /\ serverMap cl' = Some p.
Proof.
  intros [(cl' & Hc & Hcl) [Hp _]]. exists cl'.
  unfold atRest in Hcl. injection Hcl as H1 H2 H3 H4 H5.
  repeat split; congruence.
Qed.

Lemma serves_trace c cl p m st t :
  serves c cl p m st -> serves c cl p m (set_trace t st).
Proof. intros H. exact H. Qed.

Lemma queryAndRefer_run c cl p m domain server port st :
  serves c cl p m st ->
  exists st',
    queryAndRefer c domain server port st
    = (Returns (queryAndReferResult cl p m (trace st) domain server port), st')
    /\ trace st' = trace st ++ queryAndReferEvents cl p m (trace st) domain server port
    /\ maps st' = maps st
    /\ serves c cl p m st'.
Proof.
  intros Hs.
  destruct (rawQuery_run c cl p m domain server port st Hs)
    as (st1 & E1 & T1 & M1 & S1).
  unfold Engine.queryAndRefer, Engine.queryAndReferResult,
    Engine.queryAndReferEvents, Engine.referral, bind.
  rewrite E1.
  set (r1 := rawQueryResult cl p m (trace st) domain server port) in *.
  set (ev1 := rawQueryEvents cl p m (trace st) domain server port) in *.
  destruct (snd r1) as [err|] eqn:Herr.
  - exists st1. unfold ret. rewrite <- Herr, <- surjective_pairing. auto.
  - destruct (serves_client _ _ _ _ _ S1) as (cl1 & Hc1 & _ & Hr1 & _).
    unfold load. rewrite Hc1, Hr1.
    destruct (disableReferral cl).
    + exists st1. unfold ret. rewrite <- Herr, <- surjective_pairing. auto.
    + destruct (String.eqb (getServer r1.1).1 "" || String.eqb (getServer r1.1).1 server).
      * exists st1. unfold ret. rewrite <- Herr, <- surjective_pairing. auto.
      * destruct (rawQuery_run c cl p m domain (getServer r1.1).1 (getServer r1.1).2 st1 S1)
          as (st2 & E2 & T2 & M2 & S2).
        rewrite E2, T1.
        exists st2. rewrite T2, T1, M2, M1, <- app_assoc.
        destruct (snd (rawQueryResult _ _ _ _ _ _ _)); auto.
Qed.

Lemma deferred_run c cl p m start r st :
  serves c cl p m st ->
  deferred c start r st
  = (Returns (formatResult (negb (disableStats cl)) start (now (trace st)) (fst r),
              snd r), st).
Proof.
  intros Hs. destruct (serves_client _ _ _ _ _ Hs) as (cl1 & Hc1 & Hd1 & _ & _).
  unfold Engine.deferred, Engine.formatResult, bind, load, ret.
  destruct (negb (String.eqb (TrimSpace (fst r)) "")); simpl; [|reflexivity].
  rewrite Hc1, Hd1. destruct (negb (disableStats cl)); reflexivity.
Qed.

Lemma eventsOf_app {A : Type} (m : M A) (st : state) (evs : list event) :
  trace (snd (m st)) = trace st ++ evs -> eventsOf m st = evs.
Proof. unfold eventsOf. intros ->. apply drop_app_length. Qed.

Lemma eventsOf_run {A : Type} (m : M A) (st st' : state) (out : outcome A)
    (evs : list event) :
  m st = (out, st') -> trace st' = trace st ++ evs -> eventsOf m st = evs.
Proof. intros E T. apply eventsOf_app. rewrite E. exact T. Qed.

Lemma exchange_events cl hist target port line :
  snd (Engine.exchange cl hist target port line) = []
  \/ exists rest, snd (Engine.exchange cl hist target port line) = EvWrite line :: rest
                  /\ (rest = [EvClose] \/ rest = [EvReadAll; EvClose]).
Proof.
  unfold Engine.exchange.
  destruct (dialer cl _ _ _ _) as [err|conn]; [left; reflexivity|].
  right. destruct (conn line); simpl; eauto.
Qed.

Lemma exchange_ok_events cl hist target port line text :
  fst (Engine.exchange cl hist target port line) = (text, None) ->
  snd (Engine.exchange cl hist target port line) = [EvWrite line; EvReadAll; EvClose].
Proof.
  unfold Engine.exchange.
  destruct (dialer cl _ _ _ _) as [err|conn]; [discriminate|].
  destruct (conn line); simpl; intros H; try discriminate; reflexivity.
Qed.

Lemma rawQueryEvents_shape cl p m hist domain server port :
  rawQueries (rawQueryEvents cl p m hist domain server port) = [(domain, server, port)]
  /\ dials (rawQueryEvents cl p m hist domain server port)
     = [JoinHostPort (dialTarget m server) port]
  /\ directoryLookups (rawQueryEvents cl p m hist domain server port) = []
  /\ receivers (rawQueryEvents cl p m hist domain server port) = [Some p]
  /\ (writes (rawQueryEvents cl p m hist domain server port) = []
      \/ writes (rawQueryEvents cl p m hist domain server port)
         = [queryLine domain server]).
Proof.
  unfold Engine.rawQueryEvents.
  destruct (exchange_events cl
              (hist ++ [EvRawQuery domain server port;
                        EvGetRewriteServer (Some p) server;
                        EvDial "tcp" (JoinHostPort (dialTarget m server) port)])
              (dialTarget m server) port (queryLine domain server))
    as [-> | (rest & -> & [-> | ->])]; simpl; auto 10.
Qed.

Lemma rawQueryEvents_ok_writes cl p m hist domain server port text :
  rawQueryResult cl p m hist domain server port = (text, None) ->
  writes (rawQueryEvents cl p m hist domain server port) = [queryLine domain server].
Proof.
  unfold Engine.rawQueryResult, Engine.rawQueryEvents. intros H.
  rewrite (exchange_ok_events _ _ _ _ _ _ H). reflexivity.
Qed.

(** C7: a raw query to the ARIN server writes the query with the prefix
    [a + ] when the query is an ASN and [n + ] otherwise; the rewrite
    table [m], whatever it holds, only chooses the host that is dialled;
    a query to any other server is written as it is, also when the
    rewrite table sends the dial to the ARIN host. *)
Theorem rawQuery_arin_reformat c cl p m domain port st :
  serves c cl p m st ->
  let line :=
    (if IsASN domain then "a + " +:+ domain else "n + " +:+ domain) +:+ CRLF in
  let evs := eventsOf (rawQuery c domain "whois.arin.net" port) st in
  (exists rest,
      evs = EvRawQuery domain "whois.arin.net" port
              :: EvGetRewriteServer (Some p) "whois.arin.net"
              :: EvDial "tcp" (JoinHostPort (dialTarget m "whois.arin.net") port)
              :: rest
      /\ (rest = [] \/ exists rest', rest = EvWrite line :: rest' /\ writes rest' = []))
  /\ (forall text,
        fst (rawQuery c domain "whois.arin.net" port st) = Returns (text, None) ->
        writes evs = [line])
  /\ (forall server,
        server <> "whois.arin.net" ->
        let evs' := eventsOf (rawQuery c domain server port) st in
        dials evs' = [JoinHostPort (dialTarget m server) port]
        /\ (writes evs' = [] \/ writes evs' = [domain +:+ CRLF])).
Proof.
  intros Hs line evs. split; [|split].
  - destruct (rawQuery_run c cl p m domain "whois.arin.net" port st Hs)
      as (st1 & E1 & T1 & _).
    subst evs. rewrite (eventsOf_app _ _ (rawQueryEvents cl p m (trace st) domain "whois.arin.net" port))
      by (rewrite E1; exact T1).
    unfold Engine.rawQueryEvents. simpl.
    eexists; split; [reflexivity|].
    match goal with |- context [Engine.exchange ?a ?b ?c ?d ?e] =>
      destruct (exchange_events a b c d e) as [-> | (rest & -> & [-> | ->])] end;
      [left; reflexivity | right .. ]; eexists; (split; [reflexivity|reflexivity]).
  - intros text Hret.
    destruct (rawQuery_run c cl p m domain "whois.arin.net" port st Hs)
      as (st1 & E1 & T1 & _).
    subst evs. rewrite (eventsOf_app _ _ (rawQueryEvents cl p m (trace st) domain "whois.arin.net" port))
      by (rewrite E1; exact T1).
    rewrite E1 in Hret. simpl in Hret. injection Hret as Hret.
    rewrite (rawQueryEvents_ok_writes _ _ _ _ _ _ _ _ Hret). reflexivity.
  - intros server Hne evs'.
    destruct (rawQuery_run c cl p m domain server port st Hs)
      as (st1 & E1 & T1 & _).
    subst evs'. rewrite (eventsOf_app _ _ (rawQueryEvents cl p m (trace st) domain server port))
      by (rewrite E1; exact T1).
    destruct (rawQueryEvents_shape cl p m (trace st) domain server port)
      as (_ & Hd & _ & _ & Hw).
    split; [exact Hd|].
    destruct Hw as [Hw | Hw]; [left; exact Hw | right].
    rewrite Hw. unfold Engine.queryLine.
    destruct (String.eqb_spec server "whois.arin.net"); [contradiction | reflexivity].
Qed.

Lemma eqb_empty_false (s : string) : s <> "" -> String.eqb s "" = false.
Proof. intros H. destruct (String.eqb_spec s ""); [contradiction | reflexivity]. Qed.

Lemma whoisBody_bare c domain servers st :
  normalize domain <> "" ->
  Contains (normalize domain) "." = false ->
  Contains (normalize domain) ":" = false ->
  IsASN (normalize domain) = false ->
  whoisBody c domain servers st
  = rawQuery c (normalize domain) defaultWhoisServer defaultWhoisPort st.
Proof.
  intros Hne Hdot Hcolon Hasn. unfold Engine.whoisBody, Engine.withPrefix.
  rewrite (eqb_empty_false _ Hne), Hasn, Hdot, Hcolon. reflexivity.
Qed.

(** C5: a query without dot and colon that is no ASN is answered by one
    raw query to [whois.iana.org] on port 43, whose results are the
    results of the call (formatted by the deferred function, as for
    every call); the extension table is neither read nor written, no
    referral is followed, and one connection is dialled. *)
Theorem bare_label_fast_path c domain servers st :
  normalize domain <> "" ->
  Contains (normalize domain) "." = false ->
  Contains (normalize domain) ":" = false ->
  IsASN (normalize domain) = false ->
  Whois c domain servers st
  = (r <- rawQuery c (normalize domain) "whois.iana.org" "43" ;;
     deferred c (now (trace st)) r) st
  /\ forall cl p m,
      serves c cl p m st ->
      let evs := eventsOf (Whois c domain servers) st in
      let raw := rawQueryResult cl p m (trace st) (normalize domain)
                   "whois.iana.org" "43" in
      rawQueries evs = [(normalize domain, "whois.iana.org", "43")]
      /\ directoryLookups evs = []
      /\ dials evs = [JoinHostPort (dialTarget m "whois.iana.org") "43"]
      /\ fst (Whois c domain servers st)
         = Returns (formatResult (negb (disableStats cl)) (now (trace st))
                      (now (trace st ++ evs)) (fst raw), snd raw).
Proof.
  intros Hne Hdot Hcolon Hasn.
  assert (HW : Whois c domain servers st
               = (r <- rawQuery c (normalize domain) "whois.iana.org" "43" ;;
                  deferred c (now (trace st)) r) st).
  { unfold Engine.Whois, bind.
    rewrite (whoisBody_bare c domain servers st Hne Hdot Hcolon Hasn).
    reflexivity. }
  split; [exact HW|].
  intros cl p m Hs evs raw.
  destruct (rawQuery_run c cl p m (normalize domain) "whois.iana.org" "43" st Hs)
    as (st1 & E1 & T1 & M1 & S1).
  assert (HW' : Whois c domain servers st
                = (Returns (formatResult (negb (disableStats cl)) (now (trace st))
                              (now (trace st1)) (fst raw), snd raw), st1)).
  { rewrite HW. unfold bind. rewrite E1. apply (deferred_run c cl p m); exact S1. }
  assert (Hevs : evs = rawQueryEvents cl p m (trace st) (normalize domain)
                         "whois.iana.org" "43").
  { subst evs. apply eventsOf_app. rewrite HW'. exact T1. }
  destruct (rawQueryEvents_shape cl p m (trace st) (normalize domain)
              "whois.iana.org" "43") as (Hq & Hd & Hl & _).
  rewrite Hevs, Hq, Hd, Hl, HW', <- T1. auto.
Qed.






Lemma deferred_error c start r st r' st' :
  deferred c start r st = (Returns r', st') -> snd r' = snd r /\ st' = st.
Proof.
  unfold Engine.deferred, bind, load, ret.
  intros H. run_cases; auto.
Qed.

(** C8: the text a call returns is the text of its body trimmed of
    surrounding white space (what is cut off at either end is white
    space, and what is left neither starts nor ends with a white-space
    rune); with statistics enabled and a trimmed text
    that is not empty, it is followed by an empty line and the two lines
    of the footer, the elapsed time in whole milliseconds and the time
    of the start; with statistics disabled nothing is added.  The error
    of the body is returned unchanged. *)
Theorem result_formatting c domain servers st text err st1 cl1 :
  whoisBody c domain servers st = (Returns (text, err), st1) ->
  clients st1 !! c = Some cl1 ->
  Whois c domain servers st
  = (Returns
       (if disableStats cl1 then TrimSpace text
        else if String.eqb (TrimSpace text) "" then TrimSpace text
        else TrimSpace text +:+ LF +:+ LF
             +:+ "% Query time: "
             +:+ formatInt (Z.quot (now (trace st1) - now (trace st)) 1000000)
             +:+ " msec" +:+ LF
             +:+ "% WHEN: " +:+ formatTime (now (trace st)) +:+ LF,
        err), st1)
  /\ (exists sp1 sp2,
        text = sp1 +:+ TrimSpace text +:+ sp2
        /\ trimLeftSpace sp1 = "" /\ trimRightSpace sp2 = "")
  /\ startsWithSpace (TrimSpace text) = false
  /\ endsWithSpace (TrimSpace text) = false.
Proof.
  intros Hbody Hc.
  destruct (TrimSpace_spec text) as (Hsplit & Hs & He & _).
  split; [|split; [exact Hsplit | split; [exact Hs | exact He]]].
  unfold Engine.Whois, bind. rewrite Hbody.
  unfold Engine.deferred, bind, load, ret, withStats, Milliseconds. simpl.
  destruct (String.eqb (TrimSpace text) ""); simpl.
  - destruct (disableStats cl1); reflexivity.
  - rewrite Hc. destruct (disableStats cl1); reflexivity.
Qed.

Lemma whoisBody_resolved c domain servers st server port st1 :
  normalize domain <> "" ->
  negb (Contains (withPrefix (normalize domain)) ".")
  && negb (Contains (withPrefix (normalize domain)) ":")
  && negb (IsASN (normalize domain)) = false ->
  resolveServer c (withPrefix (normalize domain)) servers st
  = (Returns (inl (server, port)), st1) ->
  whoisBody c domain servers st
  = queryAndRefer c (withPrefix (normalize domain)) server port st1.
Proof.
  intros Hne Hbare Hres. unfold Engine.whoisBody, bind.
  rewrite (eqb_empty_false _ Hne), Hbare, Hres. reflexivity.
Qed.

Lemma whoisBody_early c domain servers st early st1 :
  normalize domain <> "" ->
  negb (Contains (withPrefix (normalize domain)) ".")
  && negb (Contains (withPrefix (normalize domain)) ":")
  && negb (IsASN (normalize domain)) = false ->
  resolveServer c (withPrefix (normalize domain)) servers st
  = (Returns (inr early), st1) ->
  whoisBody c domain servers st = (Returns early, st1).
Proof.
  intros Hne Hbare Hres. unfold Engine.whoisBody, bind.
  rewrite (eqb_empty_false _ Hne), Hbare, Hres. reflexivity.
Qed.

Lemma referral_chased cl r1 server :
  disableReferral cl = false ->
  snd r1 = None ->
  fst (getServer (fst r1)) <> "" ->
  fst (getServer (fst r1)) <> server ->
  referral cl r1 server = Some (getServer (fst r1)).
Proof.
  intros Hd Hr He Hs. unfold Engine.referral. rewrite Hr, Hd.
  rewrite (eqb_empty_false _ He).
  destruct (String.eqb_spec (fst (getServer (fst r1))) server);
    [contradiction | reflexivity].
Qed.

(** C1, as the code has it: when the first query succeeds and names a
    referral server other than the one queried, the call makes a second
    raw query to it.  If that query succeeds, its text is appended and
    the call returns no error; if it fails, the call returns the text of
    the first query alone together with the error of the second query. *)
Theorem referral_error_returned c cl p m domain servers server port st st1 :
  normalize domain <> "" ->
  let d := withPrefix (normalize domain) in
  negb (Contains d ".") && negb (Contains d ":")
  && negb (IsASN (normalize domain)) = false ->
  resolveServer c d servers st = (Returns (inl (server, port)), st1) ->
  serves c cl p m st1 ->
  disableReferral cl = false ->
  let r1 := rawQueryResult cl p m (trace st1) d server port in
  let ev1 := rawQueryEvents cl p m (trace st1) d server port in
  let ref := getServer (fst r1) in
  snd r1 = None ->
  fst ref <> "" ->
  fst ref <> server ->
  let r2 := rawQueryResult cl p m (trace st1 ++ ev1) d (fst ref) (snd ref) in
  exists st',
    Whois c domain servers st
    = (Returns
         (formatResult (negb (disableStats cl)) (now (trace st)) (now (trace st'))
            (match snd r2 with
             | None => fst r1 +:+ fst r2
             | Some _ => fst r1
             end),
          snd r2), st')
    /\ trace st'
       = trace st1 ++ ev1
         ++ rawQueryEvents cl p m (trace st1 ++ ev1) d (fst ref) (snd ref)
    /\ rawQueries (drop (length (trace st1)) (trace st'))
       = [(d, server, port); (d, fst ref, snd ref)].
Proof.
  intros Hne d Hbare Hres Hs Hd r1 ev1 ref Hr1 Hne1 Hne2 r2.
  destruct (queryAndRefer_run c cl p m d server port st1 Hs)
    as (st2 & E2 & T2 & M2 & S2).
  exists st2. unfold Engine.Whois, bind.
  rewrite (whoisBody_resolved c domain servers st server port st1 Hne Hbare Hres).
  fold d. rewrite E2.
  rewrite (deferred_run c cl p m _ _ st2 S2).
  unfold Engine.queryAndReferResult, Engine.queryAndReferEvents in *.
  fold r1 in T2 |- *. fold ev1 in T2 |- *.
  rewrite (referral_chased cl r1 server Hd Hr1 Hne1 Hne2) in T2 |- *.
  fold ref in T2 |- *. fold r2.
  split; [|split].
  - destruct (snd r2); reflexivity.
  - exact T2.
  - rewrite T2, drop_app_length. unfold rawQueries. rewrite omap_app.
    fold (rawQueries ev1).
    fold (rawQueries (rawQueryEvents cl p m (trace st1 ++ ev1) d (fst ref) (snd ref))).
    subst ev1.
    destruct (rawQueryEvents_shape cl p m (trace st1) d server port) as (-> & _).
    destruct (rawQueryEvents_shape cl p m
                (trace st1 ++ rawQueryEvents cl p m (trace st1) d server port)
                d (fst ref) (snd ref)) as (-> & _).
    reflexivity.
Qed.

(** *** What the calls keep

    A property of the state that a change of the trace, a change of the
    directory objects and a store to a client that leaves its field
    [serverMap] alone all keep, is kept by every call of a method of a
    client. *)

Section Keeps.

Variable Inv : state -> Prop.
Hypothesis Inv_trace : forall t st, Inv st -> Inv (set_trace t st).
Hypothesis Inv_maps : forall ms st, Inv st -> Inv (set_maps ms st).
Hypothesis Inv_store :
  forall c f cl st,
    clients st !! c = Some cl ->
    serverMap (f cl) = serverMap cl ->
    Inv st -> Inv (set_clients (<[c := f cl]> (clients st)) st).

Lemma keeps_same {A : Type} (m : M A) :
  (forall st, snd (m st) = st) -> keeps Inv m.
Proof. intros H st HI. rewrite H. exact HI. Qed.

Lemma keeps_ret {A : Type} (a : A) : keeps Inv (ret a).
Proof. apply keeps_same. reflexivity. Qed.

Lemma keeps_panic {A : Type} (why : string) : keeps Inv (@panic A why).
Proof. apply keeps_same. reflexivity. Qed.

Lemma keeps_bind {A B : Type} (m : M A) (k : A -> M B) :
  keeps Inv m -> (forall a, keeps Inv (k a)) -> keeps Inv (bind m k).
Proof.
  intros Hm Hk st H. unfold bind. specialize (Hm st H).
  destruct (m st) as [[a|why] st1]; simpl in *; [apply Hk; exact Hm | exact Hm].
Qed.

Lemma keeps_emit (e : event) : keeps Inv (emit e).
Proof. intros st H. apply Inv_trace. exact H. Qed.

Lemma keeps_load (c : ptr) : keeps Inv (load c).
Proof.
  apply keeps_same. intros st. unfold load.
  destruct (clients st !! c); reflexivity.
Qed.

Lemma keeps_deref (recv : option ptr) : keeps Inv (deref recv).
Proof.
  apply keeps_same. intros st. unfold deref.
  destruct (recv ≫= _); reflexivity.
Qed.

Lemma keeps_store (c : ptr) (f : Client -> Client) :
  (forall cl, serverMap (f cl) = serverMap cl) -> keeps Inv (store c f).
Proof.
  intros Hf st H. unfold store.
  destruct (clients st !! c) as [cl|] eqn:E; simpl; [|exact H].
  apply Inv_store; auto.
Qed.

Lemma keeps_state {A : Type} (f : state -> A) :
  keeps Inv (fun st => (Returns (f st), st)).
Proof. apply keeps_same. reflexivity. Qed.

Lemma keeps_set_maps (f : state -> list Directory.serverMap) :
  keeps Inv (fun st => (Returns tt, set_maps (f st) st)).
Proof. intros st H. apply Inv_maps. exact H. Qed.

Ltac keeps_step :=
  first
    [ apply keeps_ret | apply keeps_panic | apply keeps_emit | apply keeps_load
    | apply keeps_deref | apply keeps_state | apply keeps_set_maps
    | apply keeps_store; reflexivity
    | apply keeps_bind; [|intros ?]
    | match goal with
      | |- keeps _ (match ?t with _ => _ end) => destruct t
      end ].

Lemma keeps_GetWhoisServer recv ext : keeps Inv (GetWhoisServer recv ext).
Proof. unfold GetWhoisServer. repeat keeps_step. Qed.

Lemma keeps_GetRewriteServer recv server :
  keeps Inv (GetRewriteServer recv server).
Proof. unfold GetRewriteServer. repeat keeps_step. Qed.

Lemma keeps_SetWhoisServer recv ext server :
  keeps Inv (SetWhoisServer recv ext server).
Proof. unfold SetWhoisServer. repeat keeps_step. Qed.

Lemma keeps_dialContext t d network addr :
  keeps Inv (dialContext t d network addr).
Proof. unfold dialContext. repeat keeps_step. Qed.

Lemma keeps_rawQuery c domain server port :
  keeps Inv (rawQuery c domain server port).
Proof.
  unfold Engine.rawQuery, resetElapsed. cbv zeta.
  repeat first [apply keeps_GetRewriteServer | apply keeps_dialContext
               | keeps_step].
Qed.

Lemma keeps_queryAndRefer c domain server port :
  keeps Inv (queryAndRefer c domain server port).
Proof.
  unfold Engine.queryAndRefer. cbv zeta.
  repeat first [apply keeps_rawQuery | keeps_step].
Qed.

Lemma keeps_resolveServer c domain servers :
  keeps Inv (resolveServer c domain servers).
Proof.
  unfold Engine.resolveServer. cbv zeta.
  repeat first [apply keeps_rawQuery | apply keeps_GetWhoisServer
               | apply keeps_SetWhoisServer | keeps_step].
Qed.

Lemma keeps_deferred c start r : keeps Inv (deferred c start r).
Proof. unfold Engine.deferred. cbv zeta. repeat keeps_step. Qed.

(** [Whois] keeps what its server resolution keeps. *)
Lemma keeps_Whois_with c domain servers :
  (forall d, keeps Inv (resolveServer c d servers)) ->
  keeps Inv (Whois c domain servers).
Proof.
  intros Hres st H. unfold Engine.Whois.
  generalize (now (trace st)). intros start.
  revert st H. change (keeps Inv (r <- whoisBody c domain servers ;;
                                  deferred c start r)).
  unfold Engine.whoisBody. cbv zeta.
  repeat first [apply keeps_rawQuery | apply keeps_queryAndRefer
               | apply keeps_deferred | apply Hres | keeps_step].
Qed.

Lemma keeps_Whois c domain servers : keeps Inv (Whois c domain servers).
Proof. apply keeps_Whois_with. intros d. apply keeps_resolveServer. Qed.

Lemma keeps_setters c d t b :
  keeps Inv (SetDialer c d) /\ keeps Inv (SetTimeout c t)
  /\ keeps Inv (SetDisableStats c b) /\ keeps Inv (SetDisableReferral c b).
Proof.
  unfold SetDialer, SetTimeout, SetDisableStats, SetDisableReferral.
  repeat split; repeat keeps_step.
Qed.

End Keeps.

Lemma holds_stable c0 x :
  (forall t st, holds c0 x st -> holds c0 x (set_trace t st))
  /\ (forall ms st, holds c0 x st -> holds c0 x (set_maps ms st))
  /\ (forall c f cl st,
        clients st !! c = Some cl ->
        serverMap (f cl) = serverMap cl ->
        holds c0 x st -> holds c0 x (set_clients (<[c := f cl]> (clients st)) st)).
Proof.
  repeat split; try (intros; assumption).
  intros c f cl st Hc Hf (cl0 & Hc0 & Hx). unfold holds. simpl.
  destruct (decide (c = c0)) as [->|Hne].
  - exists (f cl). rewrite list_lookup_insert_eq by (eapply lookup_lt_Some; eauto).
    split; [reflexivity|]. rewrite Hf. congruence.
  - exists cl0. rewrite list_lookup_insert_ne by exact Hne. auto.
Qed.

Lemma holds_exec c0 x k st : holds c0 x st -> holds c0 x (exec k st).
Proof.
  destruct (holds_stable c0 x) as (Ht & Hm & Hs).
  intros H. destruct k; simpl.
  - unfold Engine.InitWhois. destruct (onceWhois st); [exact H|].
    destruct (snd (LoadFromFile configFile Directory.NewServerMap)); exact H.
  - destruct H as (cl & Hc & Hx). exists cl. simpl.
    rewrite lookup_app_l by (eapply lookup_lt_Some; eauto). auto.
  - apply (keeps_setters _ Hs c d 0 true); exact H.
  - apply (keeps_setters _ Hs c (fun _ _ _ _ => DialFails ErrDomainEmpty) t true);
      exact H.
  - apply (keeps_setters _ Hs c (fun _ _ _ _ => DialFails ErrDomainEmpty) 0 disabled);
      exact H.
  - apply (keeps_setters _ Hs c (fun _ _ _ _ => DialFails ErrDomainEmpty) 0 disabled);
      exact H.
  - apply (keeps_Whois _ Ht Hm Hs); exact H.
  - unfold PackageWhois. destruct (DefaultClient st); [|exact H].
    apply (keeps_Whois _ Ht Hm Hs); exact H.
Qed.

Lemma holds_run c0 x ks st : holds c0 x st -> holds c0 x (run ks st).
Proof.
  revert st. induction ks as [|k ks IH]; intros st H; simpl; [exact H|].
  apply IH. apply holds_exec. exact H.
Qed.

Lemma DefaultClient_exec k st : DefaultClient (exec k st) = DefaultClient st.
Proof.
  set (Inv := fun s => DefaultClient s = DefaultClient st).
  assert (Ht : forall t s, Inv s -> Inv (set_trace t s)) by (intros; assumption).
  assert (Hm : forall ms s, Inv s -> Inv (set_maps ms s)) by (intros; assumption).
  assert (Hs : forall c f cl s, clients s !! c = Some cl ->
                 serverMap (f cl) = serverMap cl ->
                 Inv s -> Inv (set_clients (<[c := f cl]> (clients s)) s))
    by (intros; assumption).
  change (Inv (exec k st)).
  assert (H : Inv st) by reflexivity.
  destruct k; simpl.
  - unfold Engine.InitWhois. destruct (onceWhois st); [exact H|].
    destruct (snd (LoadFromFile configFile Directory.NewServerMap)); exact H.
  - exact H.
  - apply (keeps_setters _ Hs c d 0 true); exact H.
  - apply (keeps_setters _ Hs c (fun _ _ _ _ => DialFails ErrDomainEmpty) t true);
      exact H.
  - apply (keeps_setters _ Hs c (fun _ _ _ _ => DialFails ErrDomainEmpty) 0 disabled);
      exact H.
  - apply (keeps_setters _ Hs c (fun _ _ _ _ => DialFails ErrDomainEmpty) 0 disabled);
      exact H.
  - apply (keeps_Whois _ Ht Hm Hs); exact H.
  - unfold PackageWhois. destruct (DefaultClient st); [|exact H].
    apply (keeps_Whois _ Ht Hm Hs); exact H.
Qed.

Lemma DefaultClient_run ks st : DefaultClient (run ks st) = DefaultClient st.
Proof.
  revert st. induction ks as [|k ks IH]; intros st; simpl; [reflexivity|].
  rewrite IH. apply DefaultClient_exec.
Qed.

(** *** The directory never forgets

    [memo p ext s]: the directory behind [p] maps the extension [ext] to
    the server [s].  [SetWhoisServer] is called for an extension only
    after the lookup of that extension has failed, so no call changes
    an entry that is there. *)

Lemma memo_stable p ext s :
  (forall t st, memo p ext s st -> memo p ext s (set_trace t st))
  /\ (forall c f cl st,
        clients st !! c = Some cl ->
        serverMap (f cl) = serverMap cl ->
        memo p ext s st -> memo p ext s (set_clients (<[c := f cl]> (clients st)) st)).
Proof. split; intros; assumption. Qed.

Lemma memo_resolveServer p ext s c domain servers :
  keeps (memo p ext s) (resolveServer c domain servers).
Proof.
  destruct (memo_stable p ext s) as (Ht & Hs).
  intros st Hmemo. unfold Engine.resolveServer.
  destruct (override servers); [exact Hmemo|].
  unfold bind at 1. unfold load at 1.
  destruct (clients st !! c) as [cl|] eqn:Hc; [|exact Hmemo].
  unfold bind at 1. unfold GetWhoisServer, bind at 1 2, emit, deref.
  cbn [trace maps set_trace fst snd].
  destruct (serverMap cl ≫= (fun q => maps st !! q)) as [m'|] eqn:Hrecv;
    [|exact Hmemo].
  unfold ret at 1. unfold Directory.lookupWhoisServer.
  destruct (Directory.whoisServers m' !! getExtension domain) as [v|] eqn:Hlook;
    cbn [fst snd]; [exact Hmemo|].
  set (st1 := set_trace (trace st ++ [EvGetWhoisServer (serverMap cl) (getExtension domain)]) st).
  assert (Hmemo1 : memo p ext s st1) by exact Hmemo.
  assert (Hkeep_maps : maps (snd (rawQuery c (getExtension domain) defaultWhoisServer
                                    defaultWhoisPort st1)) = maps st).
  { apply (keeps_rawQuery (fun st' => maps st' = maps st)); auto. }
  assert (Hkeep_client : holds c (serverMap cl)
                           (snd (rawQuery c (getExtension domain) defaultWhoisServer
                                   defaultWhoisPort st1))).
  { destruct (holds_stable c (serverMap cl)) as (Ht' & _ & Hs').
    apply (keeps_rawQuery (holds c (serverMap cl))); auto.
    exists cl. auto. }
  assert (Hkeep_memo : memo p ext s
                         (snd (rawQuery c (getExtension domain) defaultWhoisServer
                                 defaultWhoisPort st1)))
    by (apply (keeps_rawQuery (memo p ext s)); auto).
  unfold bind at 1.
  destruct (rawQuery c (getExtension domain) defaultWhoisServer defaultWhoisPort st1)
    as [[q|why] st2]; cbn [fst snd] in *; [|exact Hkeep_memo].
  destruct (snd q); [exact Hkeep_memo|].
  destruct (String.eqb _ ""); [exact Hkeep_memo|].
  destruct Hkeep_client as (cl2 & Hc2 & Hsm2).
  unfold bind at 1. unfold load at 1. rewrite Hc2.
  unfold bind at 1. unfold SetWhoisServer, bind at 1 2, emit, deref.
  cbn [trace maps set_trace fst snd].
  rewrite Hsm2, Hkeep_maps, Hrecv.
  destruct (serverMap cl) as [p'|] eqn:Hp'; [|exact Hkeep_memo].
  cbn [fst snd]. unfold ret. cbn [fst snd].
  destruct Hmemo as (m & Hm & Hms).
  unfold memo. cbn [maps set_maps set_trace].
  rewrite Hkeep_maps.
  simpl in Hrecv.
  destruct (decide (p' = p)) as [->|Hne].
  - rewrite Hm in Hrecv. injection Hrecv as <-.
    exists (Directory.insertWhoisServer m (getExtension domain)
              (fst (getServer (fst q)))).
    rewrite list_lookup_insert_eq by (eapply lookup_lt_Some; eauto).
    split; [reflexivity|]. simpl.
    rewrite lookup_insert_ne; [exact Hms|]. intros E. rewrite E in Hlook. congruence.
  - exists m. rewrite list_lookup_insert_ne by exact Hne. auto.
Qed.

Lemma memo_exec p ext s k st : memo p ext s st -> memo p ext s (exec k st).
Proof.
  destruct (memo_stable p ext s) as (Ht & Hs).
  intros H. destruct k; simpl.
  - unfold Engine.InitWhois. destruct (onceWhois st); [exact H|].
    destruct H as (m & Hm & Hms).
    assert (H' : memo p ext s
                   {| serverMapInstance := Some (length (maps st)); onceWhois := true;
                      DefaultClient := DefaultClient st;
                      maps := maps st ++ [fst (LoadFromFile configFile Directory.NewServerMap)];
                      clients := clients st; trace := trace st |}).
    { exists m. simpl. rewrite lookup_app_l by (eapply lookup_lt_Some; eauto). auto. }
    destruct (snd (LoadFromFile configFile Directory.NewServerMap)); exact H'.
  - exact H.
  - apply (keeps_setters _ Hs c d 0 true); exact H.
  - apply (keeps_setters _ Hs c (fun _ _ _ _ => DialFails ErrDomainEmpty) t true);
      exact H.
  - apply (keeps_setters _ Hs c (fun _ _ _ _ => DialFails ErrDomainEmpty) 0 disabled);
      exact H.
  - apply (keeps_setters _ Hs c (fun _ _ _ _ => DialFails ErrDomainEmpty) 0 disabled);
      exact H.
  - apply (keeps_Whois_with _ Ht Hs); [intros d; apply memo_resolveServer | exact H].
  - unfold PackageWhois. destruct (DefaultClient st); [|exact H].
    apply (keeps_Whois_with _ Ht Hs); [intros d; apply memo_resolveServer | exact H].
Qed.

Lemma memo_run p ext s ks st : memo p ext s st -> memo p ext s (run ks st).
Proof.
  revert st. induction ks as [|k ks IH]; intros st H; simpl; [exact H|].
  apply IH. apply memo_exec. exact H.
Qed.

(** After any calls, a client with a directory serves with it. *)
Lemma serves_run c cl p m ext s ks st :
  serves c cl p m st ->
  Directory.whoisServers m !! ext = Some s ->
  exists cl' m',
    serves c cl' p m' (run ks st)
    /\ Directory.whoisServers m' !! ext = Some s.
Proof.
  intros Hs Hm.
  destruct (serves_client _ _ _ _ _ Hs) as (cl0 & Hc0 & _ & _ & Hp0).
  destruct Hs as (_ & _ & Hmp).
  destruct (holds_run c (Some p) ks st) as (cl' & Hc' & Hp'); [exists cl0; auto|].
  destruct (memo_run p ext s ks st) as (m' & Hm' & Hs'); [exists m; auto|].
  exists cl', m'. split; [|exact Hs'].
  split; [exists cl'; auto|]. split; assumption.
Qed.

Lemma resolveServer_cached c cl p m domain servers st v :
  serves c cl p m st ->
  override servers = None ->
  Directory.whoisServers m !! getExtension domain = Some v ->
  resolveServer c domain servers st
  = (Returns (inl (v, "43")),
     set_trace (trace st ++ [EvGetWhoisServer (Some p) (getExtension domain)]) st).
Proof.
  intros Hs Ho Hv.
  destruct (serves_client _ _ _ _ _ Hs) as (cl1 & Hc1 & _ & _ & Hp1).
  destruct Hs as (_ & _ & Hm).
  unfold Engine.resolveServer, GetWhoisServer, bind, emit, load, deref, ret.
  rewrite Ho, Hc1, Hp1. simpl. rewrite Hm. simpl.
  unfold Directory.lookupWhoisServer. rewrite Hv. reflexivity.
Qed.

Lemma resolveServer_discover c cl p m domain servers st :
  serves c cl p m st ->
  override servers = None ->
  Directory.whoisServers m !! getExtension domain = None ->
  let ext := getExtension domain in
  let hist := trace st ++ [EvGetWhoisServer (Some p) ext] in
  let r0 := rawQueryResult cl p m hist ext "whois.iana.org" "43" in
  let ev0 := rawQueryEvents cl p m hist ext "whois.iana.org" "43" in
  exists st1,
    trace st1 = hist ++ ev0
                ++ match snd r0 with
                   | Some _ => []
                   | None =>
                       if String.eqb (fst (getServer (fst r0))) "" then []
                       else [EvSetWhoisServer (Some p) ext (fst (getServer (fst r0)))]
                   end
    /\ match snd r0 with
       | Some err =>
           resolveServer c domain servers st
           = (Returns (inr ("", Some (Errorf "whois: query for whois server failed: "
                                             err ""))), st1)
           /\ serves c cl p m st1
       | None =>
           if String.eqb (fst (getServer (fst r0))) ""
           then resolveServer c domain servers st
                = (Returns (inr ("", Some (Errorf "" ErrWhoisServerNotFound
                                                  (": " +:+ domain)))), st1)
                /\ serves c cl p m st1
           else resolveServer c domain servers st
                = (Returns (inl (getServer (fst r0))), st1)
                /\ serves c cl p
                     (Directory.insertWhoisServer m ext (fst (getServer (fst r0))))
                     st1
       end.
Proof.
  intros Hs Ho Hv ext hist r0 ev0. fold ext in Hv.
  destruct (serves_client _ _ _ _ _ Hs) as (cl1 & Hc1 & _ & _ & Hp1).
  pose proof Hs as (_ & _ & Hm).
  assert (Hs0 : serves c cl p m (set_trace hist st)) by exact Hs.
  destruct (rawQuery_run c cl p m ext "whois.iana.org" "43" _ Hs0)
    as (st1 & E1 & T1 & M1 & S1).
  change (trace (set_trace hist st)) with hist in E1, T1.
  fold r0 in E1. fold ev0 in T1.
  assert (Hres : resolveServer c domain servers st
                 = (q <- rawQuery c ext "whois.iana.org" "43" ;;
                    match snd q with
                    | Some err =>
                        ret (inr ("", Some (Errorf "whois: query for whois server failed: "
                                                   err "")))
                    | None =>
                        let sp := getServer (fst q) in
                        if String.eqb (fst sp) ""
                        then ret (inr ("", Some (Errorf "" ErrWhoisServerNotFound
                                                        (": " +:+ domain))))
                        else
                          cl <- load c ;;
                          SetWhoisServer (serverMap cl) ext (fst sp) ;;;
                          ret (inl sp)
                    end) (set_trace hist st)).
  { unfold Engine.resolveServer. rewrite Ho. fold ext.
    unfold GetWhoisServer, bind at 1 2 3 4, emit, load, deref, ret.
    rewrite Hc1, Hp1. simpl. rewrite Hm. simpl.
    unfold Directory.lookupWhoisServer. rewrite Hv. reflexivity. }
  unfold bind at 1 in Hres. rewrite E1 in Hres.
  clearbody r0 ev0 hist.
  destruct (snd r0) as [err|] eqn:Herr.
  - exists st1. rewrite app_nil_r. auto.
  - destruct (String.eqb (fst (getServer (fst r0))) "") eqn:Hempty.
    + exists st1. rewrite app_nil_r. auto.
    + destruct (serves_client _ _ _ _ _ S1) as (cl2 & Hc2 & _ & _ & Hp2).
      pose proof S1 as (Hcl2 & Hp' & Hm1).
      assert (Hlt : (p < length (maps st1))%nat) by (eapply lookup_lt_Some; eauto).
      unfold SetWhoisServer, bind, emit, load, deref, ret in Hres.
      rewrite Hc2, Hp2 in Hres. simpl in Hres. rewrite Hm1 in Hres. simpl in Hres.
      eexists. split; [|split; [exact Hres|]].
      * simpl. rewrite T1, <- app_assoc. reflexivity.
      * split; [exact Hcl2|]. split; [exact Hp'|].
        simpl. apply list_lookup_insert_eq. exact Hlt.
Qed.
Lemma queryAndReferEvents_shape cl p m hist domain server port :
  rawQueries (queryAndReferEvents cl p m hist domain server port)
  = (domain, server, port)
      :: match referral cl (rawQueryResult cl p m hist domain server port) server with
         | None => []
         | Some ref => [(domain, fst ref, snd ref)]
         end
  /\ directoryLookups (queryAndReferEvents cl p m hist domain server port) = [].
Proof.
  unfold Engine.queryAndReferEvents.
  destruct (rawQueryEvents_shape cl p m hist domain server port)
    as (Hq & _ & Hl & _).
  destruct (referral cl _ server) as [ref|]; [|auto].
  destruct (rawQueryEvents_shape cl p m
              (hist ++ rawQueryEvents cl p m hist domain server port)
              domain (fst ref) (snd ref)) as (Hq' & _ & Hl' & _).
  unfold rawQueries, directoryLookups in *.
  rewrite omap_app, List.filter_app, Hq, Hq', Hl, Hl'. auto.
Qed.

Lemma Whois_resolved c cl p m domain servers st server port st1 :
  normalize domain <> "" ->
  negb (Contains (withPrefix (normalize domain)) ".")
  && negb (Contains (withPrefix (normalize domain)) ":")
  && negb (IsASN (normalize domain)) = false ->
  resolveServer c (withPrefix (normalize domain)) servers st
  = (Returns (inl (server, port)), st1) ->
  serves c cl p m st1 ->
  exists st',
    Whois c domain servers st
    = (Returns
         (formatResult (negb (disableStats cl)) (now (trace st)) (now (trace st'))
            (fst (queryAndReferResult cl p m (trace st1)
                    (withPrefix (normalize domain)) server port)),
          snd (queryAndReferResult cl p m (trace st1)
                 (withPrefix (normalize domain)) server port)), st')
    /\ trace st' = trace st1
                   ++ queryAndReferEvents cl p m (trace st1)
                        (withPrefix (normalize domain)) server port
    /\ serves c cl p m st'.
Proof.
  intros Hne Hbare Hres Hs.
  destruct (queryAndRefer_run c cl p m (withPrefix (normalize domain)) server port
              st1 Hs) as (st2 & E2 & T2 & M2 & S2).
  exists st2. unfold Engine.Whois, bind.
  rewrite (whoisBody_resolved c domain servers st server port st1 Hne Hbare Hres).
  rewrite E2, (deferred_run c cl p m _ _ st2 S2). auto.
Qed.

Lemma dotted_not_bare (d : string) (b : bool) :
  Contains d "." = true ->
  negb (Contains d ".") && negb (Contains d ":") && negb b = false.
Proof. intros ->. reflexivity. Qed.

Lemma Whois_cached c cl p m domain servers st v :
  normalize domain <> "" ->
  Contains (withPrefix (normalize domain)) "." = true ->
  override servers = None ->
  serves c cl p m st ->
  Directory.whoisServers m !! getExtension (withPrefix (normalize domain)) = Some v ->
  let d := withPrefix (normalize domain) in
  let lookup := EvGetWhoisServer (Some p) (getExtension d) in
  let evs := eventsOf (Whois c domain servers) st in
  rawQueries evs
  = (d, v, "43")
      :: match referral cl (rawQueryResult cl p m (trace st ++ [lookup]) d v "43") v with
         | None => []
         | Some ref => [(d, fst ref, snd ref)]
         end
  /\ directoryLookups evs = [lookup]
  /\ serves c cl p m (snd (Whois c domain servers st)).
Proof.
  intros Hne Hdot Ho Hs Hv d lookup evs.
  pose proof (resolveServer_cached c cl p m d servers st v Hs Ho Hv) as Hres.
  destruct (Whois_resolved c cl p m domain servers st v "43" _ Hne
              (dotted_not_bare _ _ Hdot) Hres (serves_trace _ _ _ _ _ _ Hs))
    as (st' & EW & TW & SW).
  simpl in TW. fold d lookup in TW.
  assert (Hevs : evs = lookup :: queryAndReferEvents cl p m (trace st ++ [lookup]) d v "43").
  { subst evs. apply eventsOf_app. rewrite EW. simpl. rewrite TW, <- app_assoc.
    reflexivity. }
  destruct (queryAndReferEvents_shape cl p m (trace st ++ [lookup]) d v "43")
    as (Hq & Hl).
  rewrite Hevs, EW. simpl. fold (rawQueries (queryAndReferEvents cl p m (trace st ++ [lookup]) d v "43")).
  fold (directoryLookups (queryAndReferEvents cl p m (trace st ++ [lookup]) d v "43")).
  rewrite Hq, Hl. auto.
Qed.

(** C4: for a query with a dot and no server named by the caller.  If
    the directory holds a server for the extension, the first raw query
    of the call goes to that server on port 43, and the only other raw
    query the call can make is the referral: the root server is not
    asked.  Otherwise the call first sends the extension to
    [whois.iana.org] on port 43; if the answer holds no server, the call
    fails with an error that wraps [ErrWhoisServerNotFound]; if it holds
    one, the directory maps the extension to it when the call is over,
    and after any further calls to the package ([ks]) a call for a query
    with that extension asks the memoized server at once, without a
    query to the root server. *)
Theorem server_resolution c cl p m domain servers st :
  normalize domain <> "" ->
  let d := withPrefix (normalize domain) in
  Contains d "." = true ->
  override servers = None ->
  serves c cl p m st ->
  let ext := getExtension d in
  let lookup := EvGetWhoisServer (Some p) ext in
  let evs := eventsOf (Whois c domain servers) st in
  (forall v,
      Directory.whoisServers m !! ext = Some v ->
      rawQueries evs
      = (d, v, "43")
          :: match referral cl (rawQueryResult cl p m (trace st ++ [lookup]) d v "43") v with
             | None => []
             | Some ref => [(d, fst ref, snd ref)]
             end
      /\ directoryLookups evs = [lookup])
  /\ (Directory.whoisServers m !! ext = None ->
      let r0 := rawQueryResult cl p m (trace st ++ [lookup]) ext "whois.iana.org" "43" in
      (exists rest,
          evs = lookup :: rawQueryEvents cl p m (trace st ++ [lookup]) ext
                            "whois.iana.org" "43" ++ rest)
      /\ (snd r0 = None ->
          fst (getServer (fst r0)) = "" ->
          exists err,
            fst (Whois c domain servers st) = Returns ("", Some err)
            /\ err = Errorf "" ErrWhoisServerNotFound (": " +:+ d)
            /\ errors_Is err ErrWhoisServerNotFound = true
            /\ rawQueries evs = [(ext, "whois.iana.org", "43")])
      /\ (snd r0 = None ->
          fst (getServer (fst r0)) <> "" ->
          let s := fst (getServer (fst r0)) in
          let st' := snd (Whois c domain servers st) in
          (exists m', serves c cl p m' st'
                      /\ Directory.whoisServers m' !! ext = Some s)
          /\ directoryLookups evs = [lookup; EvSetWhoisServer (Some p) ext s]
          /\ forall ks domain2,
              normalize domain2 <> "" ->
              let d2 := withPrefix (normalize domain2) in
              Contains d2 "." = true ->
              getExtension d2 = ext ->
              let evs2 := eventsOf (Whois c domain2 servers) (run ks st') in
              directoryLookups evs2 = [lookup]
              /\ exists refs,
                  rawQueries evs2 = (d2, s, "43") :: refs
                  /\ (length refs <= 1)%nat
                  /\ Forall (fun q => fst (fst q) = d2) refs)).
Proof.
  intros Hne d Hdot Ho Hs ext lookup evs. split.
  - intros v Hv.
    destruct (Whois_cached c cl p m domain servers st v Hne Hdot Ho Hs Hv)
      as (Hq & Hl & _).
    split; assumption.
  - intros Hv r0.
    destruct (resolveServer_discover c cl p m d servers st Hs Ho Hv)
      as (st1 & T1 & Hcase).
    fold ext lookup r0 in T1, Hcase.
    set (ev0 := rawQueryEvents cl p m (trace st ++ [lookup]) ext "whois.iana.org" "43") in *.
    assert (Hev0 : rawQueries ev0 = [(ext, "whois.iana.org", "43")]
                   /\ directoryLookups ev0 = [])
      by (destruct (rawQueryEvents_shape cl p m (trace st ++ [lookup]) ext
                      "whois.iana.org" "43") as (? & _ & ? & _); auto).
    destruct Hev0 as (Hq0 & Hl0).
    clearbody ev0.
    assert (Hearly : forall early,
               resolveServer c d servers st = (Returns (inr early), st1) ->
               serves c cl p m st1 ->
               Whois c domain servers st
               = (Returns (TrimSpace (fst early), snd early), st1)
                 \/ TrimSpace (fst early) <> "").
    { intros early Hres S1. unfold Engine.Whois, bind.
      rewrite (whoisBody_early c domain servers st early st1 Hne
                 (dotted_not_bare _ _ Hdot) Hres).
      rewrite (deferred_run c cl p m _ _ st1 S1). unfold Engine.formatResult.
      destruct (String.eqb_spec (TrimSpace (fst early)) "") as [->|Hn];
        [left; reflexivity | right; exact Hn]. }
    split; [|split].
    + destruct (snd r0) as [err|] eqn:Herr.
      * destruct Hcase as (Hres & S1).
        destruct (Hearly _ Hres S1) as [EW | Hn]; [|exfalso; apply Hn; reflexivity].
        exists []. subst evs. apply (eventsOf_run _ _ _ _ _ EW).
        rewrite T1, <- !app_assoc. reflexivity.
      * destruct (String.eqb (fst (getServer (fst r0))) "") eqn:Hempty.
        -- destruct Hcase as (Hres & S1).
           destruct (Hearly _ Hres S1) as [EW | Hn]; [|exfalso; apply Hn; reflexivity].
           exists []. subst evs. apply (eventsOf_run _ _ _ _ _ EW).
           rewrite T1, <- !app_assoc. reflexivity.
        -- destruct Hcase as (Hres & S1).
           rewrite (surjective_pairing (getServer (fst r0))) in Hres.
           destruct (Whois_resolved c cl p _ domain servers st _ _ st1 Hne
                       (dotted_not_bare _ _ Hdot) Hres S1) as (st' & EW & TW & SW).
           eexists. subst evs. apply (eventsOf_run _ _ _ _ _ EW).
           rewrite TW, T1, <- !app_assoc. reflexivity.
    + intros Herr Hempty. rewrite Herr in Hcase, T1.
      rewrite Hempty in Hcase, T1. cbv iota beta in Hcase, T1.
      change (String.eqb "" "") with true in Hcase, T1. cbv iota in Hcase, T1.
      destruct Hcase as (Hres & S1).
      destruct (Hearly _ Hres S1) as [EW | Hn]; [|exfalso; apply Hn; reflexivity].
      eexists. rewrite EW. split; [reflexivity|]. split; [reflexivity|].
      split; [reflexivity|].
      assert (Hevs : evs = lookup :: ev0).
      { subst evs. apply (eventsOf_run _ _ _ _ _ EW).
        rewrite T1, <- !app_assoc. rewrite app_nil_r. reflexivity. }
      rewrite Hevs. exact Hq0.
    + intros Herr Hempty s st'. rewrite Herr in Hcase, T1.
      rewrite (eqb_empty_false _ Hempty) in Hcase, T1.
      destruct Hcase as (Hres & S1). fold s in Hres, S1, T1.
      rewrite (surjective_pairing (getServer (fst r0))) in Hres.
      destruct (Whois_resolved c cl p _ domain servers st _ _ st1 Hne
                  (dotted_not_bare _ _ Hdot) Hres S1) as (st2 & EW & TW & SW).
      assert (Hst' : st' = st2) by (subst st'; rewrite EW; reflexivity).
      rewrite Hst'. clear Hst'.
      assert (Hm' : Directory.whoisServers (Directory.insertWhoisServer m ext s) !! ext
                    = Some s) by apply lookup_insert_eq.
      split; [eauto|]. split.
      * assert (Hevs : evs = lookup :: ev0 ++ EvSetWhoisServer (Some p) ext s
                                 :: queryAndReferEvents cl p
                                      (Directory.insertWhoisServer m ext s)
                                      (trace st1) d s (snd (getServer (fst r0)))).
        { subst evs. apply (eventsOf_run _ _ _ _ _ EW).
          rewrite TW, T1, <- !app_assoc. reflexivity. }
        rewrite Hevs. unfold directoryLookups.
        change (List.filter isDirectoryLookup (lookup :: ?l))
          with (lookup :: List.filter isDirectoryLookup l).
        rewrite List.filter_app.
        fold (directoryLookups ev0). rewrite Hl0.
        change (List.filter isDirectoryLookup (EvSetWhoisServer ?a ?b ?e :: ?l))
          with (EvSetWhoisServer a b e :: List.filter isDirectoryLookup l).
        match goal with |- context [List.filter isDirectoryLookup ?l] =>
          fold (directoryLookups l) end.
        destruct (queryAndReferEvents_shape cl p (Directory.insertWhoisServer m ext s)
                    (trace st1) d s (snd (getServer (fst r0)))) as (_ & ->).
        reflexivity.
      * intros ks domain2 Hne2 d2 Hdot2 Hext2 evs2.
        destruct (serves_run c cl p _ ext s ks st2 SW Hm') as (cl2 & m2 & SW2 & Hm2).
        assert (Hv2 : Directory.whoisServers m2
                        !! getExtension (withPrefix (normalize domain2)) = Some s)
          by (fold d2; rewrite Hext2; exact Hm2).
        destruct (Whois_cached c cl2 p _ domain2 servers (run ks st2) s Hne2 Hdot2 Ho
                    SW2 Hv2) as (Hq2 & Hl2 & _).
        fold d2 in Hq2, Hl2. rewrite Hext2 in Hq2, Hl2. fold lookup in Hq2, Hl2.
        split; [exact Hl2|].
        eexists. split; [exact Hq2|].
        destruct (referral cl2 _ s); simpl; split; auto.
Qed.

(** *** A client without directory

    The methods of the directory read its tables through the receiver:
    on the nil receiver the first of them panics, and [Whois] with it. *)

Lemma rawQuery_nil c cl domain server port st :
  clients st !! c = Some cl ->
  serverMap cl = None ->
  exists st',
    rawQuery c domain server port st = (Panics nilDereference, st')
    /\ trace st' = trace st ++ [EvRawQuery domain server port;
                                EvGetRewriteServer None server].
Proof.
  intros Hc Hn.
  assert (Hlt : (c < length (clients st))%nat) by (eapply lookup_lt_Some; eauto).
  unfold Engine.rawQuery, resetElapsed, GetRewriteServer, bind, emit, store,
    load, deref. simpl.
  rewrite Hc. simpl. rewrite list_lookup_insert_eq by assumption. simpl.
  rewrite Hn. simpl. eexists. split; [reflexivity|]. simpl.
  rewrite <- app_assoc. reflexivity.
Qed.

Lemma Whois_nil c cl domain servers st :
  clients st !! c = Some cl ->
  serverMap cl = None ->
  normalize domain <> "" ->
  fst (Whois c domain servers st) = Panics nilDereference
  /\ receivers (eventsOf (Whois c domain servers) st) = [None].
Proof.
  intros Hc Hn Hne.
  assert (Hraw : forall d server port st0,
             clients st0 !! c = Some cl ->
             forall k : string * option error -> M (string * option error),
             exists st', (r <- rawQuery c d server port ;; k r) st0
                         = (Panics nilDereference, st')
                         /\ trace st' = trace st0 ++ [EvRawQuery d server port;
                                                      EvGetRewriteServer None server]).
  { intros d server port st0 Hc0 k.
    destruct (rawQuery_nil c cl d server port st0 Hc0 Hn) as (st' & E & T).
    exists st'. unfold bind. rewrite E. auto. }
  assert (Hgoal : exists st' evs,
             Whois c domain servers st = (Panics nilDereference, st')
             /\ trace st' = trace st ++ evs /\ receivers evs = [None]).
  { unfold Engine.Whois, Engine.whoisBody. rewrite (eqb_empty_false _ Hne).
    destruct (negb _ && negb _ && negb _).
    - destruct (Hraw (withPrefix (normalize domain)) defaultWhoisServer
                  defaultWhoisPort st Hc (deferred c (now (trace st))))
        as (st' & E & T).
      exists st'. eexists. split; [exact E|]. split; [exact T|]. reflexivity.
    - unfold Engine.resolveServer.
      destruct (override servers) as [s0|].
      + unfold bind at 1 2. unfold ret at 1. unfold Engine.queryAndRefer.
        unfold bind at 1.
        destruct (rawQuery_nil c cl (withPrefix (normalize domain)) (ToLower s0)
                    defaultWhoisPort st Hc Hn) as (st' & E & T).
        rewrite E. exists st'. eexists. split; [reflexivity|].
        split; [exact T|]. reflexivity.
      + unfold GetWhoisServer, bind, emit, load, deref. rewrite Hc. simpl.
        rewrite Hn. simpl. eexists. eexists. split; [reflexivity|].
        split; [reflexivity|]. reflexivity. }
  destruct Hgoal as (st' & evs & E & T & R).
  rewrite (eventsOf_run _ _ _ _ _ E T), E. auto.
Qed.

(** C3: [NewClient] gives the new client the value that
    [serverMapInstance] has at that moment; [DefaultClient], made when
    the package is loaded, has no directory; whatever the callers of the
    package do afterwards, [InitWhois] included, a client made without
    directory has none ([InitWhois] sets the package variable and leaves
    the clients alone); and every call into the directory that a
    [Whois] of such a client makes has the nil receiver. *)
Theorem nil_directory_is_permanent :
  (forall st,
      exists cl,
        fst (NewClient st) = Returns (length (clients st))
        /\ clients st !! length (clients st) = None
        /\ clients (snd (NewClient st)) !! length (clients st) = Some cl
        /\ serverMap cl = serverMapInstance st)
  /\ (serverMapInstance packageInit = None
      /\ DefaultClient packageInit = Some 0%nat
      /\ holds 0%nat None packageInit)
  /\ (forall configFile st,
        onceWhois st = false ->
        serverMapInstance (snd (InitWhois LoadFromFile configFile st))
        = Some (length (maps st))
        /\ clients (snd (InitWhois LoadFromFile configFile st)) = clients st)
  /\ (forall ks c st, holds c None st -> holds c None (run ks st))
  /\ (forall ks,
        DefaultClient (run ks packageInit) = Some 0%nat
        /\ holds 0%nat None (run ks packageInit))
  /\ (forall c domain servers st,
        holds c None st ->
        Forall (fun recv => recv = None)
               (receivers (eventsOf (Whois c domain servers) st))).
Proof.
  split; [|split; [|split; [|split; [|split]]]].
  - intros st.
    exists {| dialer := netDialer; timeout := defaultElapsedTimeout; elapsed := 0;
              disableStats := false; disableReferral := false;
              serverMap := serverMapInstance st |}.
    split; [reflexivity|].
    split; [apply lookup_ge_None; lia|]. split; [|reflexivity].
    simpl. rewrite lookup_app_r by lia. rewrite Nat.sub_diag. reflexivity.
  - split; [reflexivity|]. split; [reflexivity|]. eexists. split; reflexivity.
  - intros configFile st Hon. unfold Engine.InitWhois. rewrite Hon.
    destruct (snd (LoadFromFile configFile Directory.NewServerMap)); split; reflexivity.
  - intros ks c st. apply holds_run.
  - intros ks. rewrite DefaultClient_run. split; [reflexivity|].
    apply holds_run. eexists. split; reflexivity.
  - intros c domain servers st (cl & Hc & Hn).
    assert (Hcase : normalize domain <> "" ->
                    fst (Whois c domain servers st) = Panics nilDereference
                    /\ receivers (eventsOf (Whois c domain servers) st) = [None])
      by (apply (Whois_nil c cl); assumption).
    destruct (String.eqb_spec (normalize domain) "") as [He|Hne].
    + assert (E : Whois c domain servers st = (Returns ("", Some ErrDomainEmpty), st)).
      { unfold Engine.Whois, Engine.whoisBody, bind. rewrite He. reflexivity. }
      rewrite (eventsOf_run _ _ _ _ [] E) by (rewrite app_nil_r; reflexivity).
      constructor.
    + destruct (Hcase Hne) as (_ & ->). repeat constructor.
Qed.

(** *** The referral parser *)

Lemma getServerIn_none toks data :
  Forall (fun t => Index data t = (-1)%Z) toks ->
  Engine.getServerIn extractHostname toks data = ("", "").
Proof.
  induction 1 as [|t toks Ht _ IH]; simpl; [reflexivity|].
  rewrite Ht. simpl. exact IH.
Qed.

Lemma getServerIn_first before token after data :
  Forall (fun t => Index data t = (-1)%Z) before ->
  Index data token <> (-1)%Z ->
  Engine.getServerIn extractHostname (before ++ token :: after) data
  = Engine.serverAt extractHostname data (Index data token + len token).
Proof.
  intros Hb Ht. induction Hb as [|t toks Hn _ IH]; simpl.
  - destruct (Z.eqb_spec (Index data token) (-1)); [contradiction | reflexivity].
  - rewrite Hn. simpl. exact IH.
Qed.

Lemma serverAt_value data pre token value rest :
  data = pre +:+ token +:+ value +:+ rest ->
  Contains value LF = false ->
  rest = "" \/ HasPrefix rest LF = true ->
  Engine.serverAt extractHostname data (len pre + len token)
  = hostPort (extractHostname (TrimSpace value)).
Proof.
  intros Hd Hv Hr. apply Contains_false in Hv.
  assert (Hdrop : slice_from data (len pre + len token) = value +:+ rest).
  { unfold slice_from, len. rewrite <- Nat2Z.inj_add, Nat2Z.id.
    rewrite <- length_append, Hd, <- append_assoc. apply drop_bytes_app. }
  assert (Hend : (if (Index (value +:+ rest) LF =? -1)%Z
                  then len (value +:+ rest)
                  else Index (value +:+ rest) LF) = len value).
  { destruct Hr as [-> | Hr].
    - rewrite append_nil_r.
      rewrite (proj2 (Index_none value LF) Hv). reflexivity.
    - apply HasPrefix_split in Hr. rewrite Hr.
      change (LF +:+ drop_bytes (String.length LF) rest)
        with (String (ascii_of_nat 10) (drop_bytes 1 rest)).
      rewrite (proj2 (Index_some _ _ _) (index_from_byte_app value _ _ Hv)).
      unfold len. destruct (Z.eqb_spec (Z.of_nat (String.length value)) (-1)); [lia|].
      reflexivity. }
  unfold Engine.serverAt, hostPort. rewrite Hdrop, Hend.
  assert (Hslice : slice data (len pre + len token) (len pre + len token + len value)
                   = value).
  { unfold slice. fold (slice_from data (len pre + len token)). rewrite Hdrop.
    replace (len pre + len token + len value - (len pre + len token))%Z
      with (len value) by lia.
    unfold len. rewrite Nat2Z.id. apply take_bytes_app. }
  rewrite Hslice. reflexivity.
Qed.

(** C6: [getServer] looks for the four tokens in their order and takes
    the first of them that occurs in the text, at its first occurrence;
    the value runs to the next line feed or to the end of the text; it
    is trimmed (what is cut off at either end is white space, and what
    is left neither starts nor ends with a white-space rune, so the
    blanks after the token and a carriage return before the line feed
    are no part of it) and passed through [extractHostname]; a value
    [host:port] gives the host and the port, any other value the
    default port 43; without any token the result is the pair of empty
    strings. *)
Theorem getServer_extracts :
  Engine.tokens
  = ["Registrar WHOIS Server: "; "whois: "; "ReferralServer: "; "refer: "]
  /\ (forall data,
        Forall (fun t => Index data t = (-1)%Z) Engine.tokens ->
        getServer data = ("", ""))
  /\ (forall data before token after pre value rest,
        Engine.tokens = before ++ token :: after ->
        Forall (fun t => Index data t = (-1)%Z) before ->
        data = pre +:+ token +:+ value +:+ rest ->
        Index data token = len pre ->
        Contains value LF = false ->
        rest = "" \/ HasPrefix rest LF = true ->
        getServer data = hostPort (extractHostname (TrimSpace value))
        /\ (exists sp1 sp2,
              value = sp1 +:+ TrimSpace value +:+ sp2
              /\ trimLeftSpace sp1 = "" /\ trimRightSpace sp2 = "")
        /\ startsWithSpace (TrimSpace value) = false
        /\ endsWithSpace (TrimSpace value) = false)
  /\ (forall host port,
        Contains host ":" = false ->
        Contains port ":" = false ->
        hostPort (host +:+ ":" +:+ port) = (host, port))
  /\ (forall server, Contains server ":" = false -> hostPort server = (server, "43"))
  /\ (extractHostname "whois.example.com" = "whois.example.com" ->
      getServer ("Registrar WHOIS Server: whois.example.com" +:+ LF)
      = ("whois.example.com", "43"))
  /\ (extractHostname "whois.example.org:4321" = "whois.example.org:4321" ->
      getServer ("ReferralServer: whois.example.org:4321" +:+ LF)
      = ("whois.example.org", "4321"))
  /\ (extractHostname "whois.example.com" = "whois.example.com" ->
      getServer ("whois:        whois.example.com " +:+ CRLF)
      = ("whois.example.com", "43")).
Proof.
  split; [reflexivity|]. split; [|split; [|split; [|split; [|split; [|split]]]]].
  - intros data H. apply getServerIn_none. exact H.
  - intros data before token after pre value rest Htok Hb Hd Hi Hv Hr.
    destruct (TrimSpace_spec value) as (Hsplit & Hs & He & _).
    split; [|split; [exact Hsplit | split; [exact Hs | exact He]]].
    unfold Engine.getServer. rewrite Htok.
    rewrite getServerIn_first; [|exact Hb|rewrite Hi; unfold len; lia].
    rewrite Hi. apply (serverAt_value data pre token value rest Hd Hv Hr).
  - intros host port Hh Hp. unfold hostPort.
    rewrite (Split_host_port host port Hh Hp). simpl.
    destruct (Contains (host +:+ ":" +:+ port) ":") eqn:E; [reflexivity|].
    apply Contains_false in E. apply Contains_false in Hh.
    change (":" +:+ port) with (String ":" port) in E.
    rewrite (index_from_byte_app host port ":" Hh) in E. discriminate.
  - intros server H. unfold hostPort. rewrite H. reflexivity.
  - intros H.
    assert (E : getServer ("Registrar WHOIS Server: whois.example.com" +:+ LF)
                = hostPort (extractHostname "whois.example.com"))
      by (vm_compute; reflexivity).
    rewrite E, H. reflexivity.
  - intros H.
    assert (E : getServer ("ReferralServer: whois.example.org:4321" +:+ LF)
                = hostPort (extractHostname "whois.example.org:4321"))
      by (vm_compute; reflexivity).
    rewrite E, H. reflexivity.
  - intros H.
    assert (E : getServer ("whois:        whois.example.com " +:+ CRLF)
                = hostPort (extractHostname "whois.example.com"))
      by (vm_compute; reflexivity).
    rewrite E, H. reflexivity.
Qed.

(** *** The query of an ASN *)

Lemma Whois_asn c domain servers st :
  normalize domain <> "" ->
  IsASN (normalize domain) = true ->
  Whois c domain servers st
  = (r <- (t <- resolveServer c (withPrefix (normalize domain)) servers ;;
           match t with
           | inr early => ret early
           | inl (server, port) =>
               queryAndRefer c (withPrefix (normalize domain)) server port
           end) ;;
     deferred c (now (trace st)) r) st.
Proof.
  intros Hne Hasn. unfold Engine.Whois, Engine.whoisBody.
  rewrite (eqb_empty_false _ Hne), Hasn, !andb_false_r. reflexivity.
Qed.

(** C2, as the code has it.  A query that [IsASN] accepts and that has
    the ASN pattern of the specification (a number, or the letters AS in
    upper or lower case and a number) goes out with the prefix once, in
    the letter case it came in: [AS] is put before a bare number, and a
    query that has the prefix already is sent as it is.  The canonical
    forms of one number agree up to letter case, canonicalising twice
    changes nothing, and the canonical form is the query of every step
    after the classification.  Such a query is ASCII text, on which the
    case mapping of the embedding is the one of Go. *)
Theorem asn_prefix_once (q : string) :
  IsASN q = true ->
  asnPattern q = true ->
  isASCII q = true
  /\ (exists number,
        number <> "" /\ allBytes isDigit number = true
        /\ ToUpper (withPrefix q) = "AS" +:+ number
        /\ (HasPrefix (ToUpper q) "AS" = true -> withPrefix q = q)
        /\ (HasPrefix (ToUpper q) "AS" = false ->
            q = number /\ withPrefix q = "AS" +:+ q))
  /\ withPrefix (withPrefix q) = withPrefix q
  /\ asnPattern (withPrefix q) = true
  /\ forall c domain servers st,
      normalize domain = q -> q <> "" ->
      Whois c domain servers st
      = (r <- (t <- resolveServer c (withPrefix q) servers ;;
               match t with
               | inr early => ret early
               | inl (server, port) => queryAndRefer c (withPrefix q) server port
               end) ;;
         deferred c (now (trace st)) r) st.
Proof.
  intros Hasn Hpat.
  assert (Hcases :
            (HasPrefix (ToUpper q) "AS" = true
             /\ withPrefix q = q
             /\ drop_bytes 2 (ToUpper q) <> ""
             /\ allBytes isDigit (drop_bytes 2 (ToUpper q)) = true)
            \/ (HasPrefix (ToUpper q) "AS" = false
                /\ withPrefix q = "AS" +:+ q
                /\ q <> "" /\ allBytes isDigit q = true /\ ToUpper q = q)).
  { unfold Engine.withPrefix. rewrite Hasn. unfold asnPattern, asnPrefix in *.
    destruct (HasPrefix (ToUpper q) "AS") eqn:Hp; simpl negb; cbv iota.
    - left. apply andb_true_iff in Hpat. destruct Hpat as [Hn Hd].
      repeat split; auto.
      intros E. rewrite E in Hn. discriminate.
    - right. apply andb_true_iff in Hpat. destruct Hpat as [Hn Hd].
      pose proof (ToUpper_digits q Hd) as Hq. rewrite Hq in Hn, Hd.
      repeat split; auto.
      intros E. rewrite E in Hn. discriminate. }
  split; [|split; [|split; [|split]]].
  - rewrite <- isASCII_ToUpper.
    destruct Hcases as [(Hp & Hw & Hn & Hd) | (Hp & Hw & Hn & Hd & Hq)].
    + rewrite (HasPrefix_split _ _ Hp), isASCII_app.
      change (String.length "AS") with 2%nat. rewrite (digits_ascii _ Hd).
      reflexivity.
    + rewrite Hq. apply digits_ascii. exact Hd.
  - destruct Hcases as [(Hp & Hw & Hn & Hd) | (Hp & Hw & Hn & Hd & Hq)].
    + exists (drop_bytes 2 (ToUpper q)). rewrite Hw.
      split; [exact Hn|]. split; [exact Hd|].
      split; [apply (HasPrefix_split _ _ Hp)|].
      split; [reflexivity|]. rewrite Hp. discriminate.
    + exists q. rewrite Hw.
      split; [exact Hn|]. split; [exact Hd|].
      split; [rewrite ToUpper_app, Hq; reflexivity|].
      split; [rewrite Hp; discriminate|]. auto.
  - destruct Hcases as [(Hp & Hw & Hn & Hd) | (Hp & Hw & Hn & Hd & Hq)].
    + rewrite Hw. exact Hw.
    + rewrite Hw. unfold Engine.withPrefix at 1.
      destruct (IsASN ("AS" +:+ q)); [|reflexivity].
      rewrite ToUpper_app, Hq. unfold asnPrefix.
      change (ToUpper "AS") with "AS".
      rewrite (HasPrefix_app "AS" q). reflexivity.
  - destruct Hcases as [(Hp & Hw & Hn & Hd) | (Hp & Hw & Hn & Hd & Hq)].
    + rewrite Hw. exact Hpat.
    + rewrite Hw. unfold asnPattern, asnPrefix.
      rewrite ToUpper_app, Hq. change (ToUpper "AS") with "AS".
      rewrite (HasPrefix_app "AS" q).
      change 2%nat with (String.length "AS"). rewrite drop_bytes_app.
      rewrite Hd, (eqb_empty_false _ Hn). reflexivity.
  - intros c domain servers st Hq Hne. subst q.
    apply Whois_asn; assumption.
Qed.

End EngineProperties.

(** * The properties on the fixture *)

Lemma fixture_serves :
  serves 1%nat Fixture.client 0%nat Fixture.directory Fixture.ready.
Proof.
  split; [exists Fixture.client; split; reflexivity | split; reflexivity].
Defined.

(** The query [ com. ] is the bare label [com]: one raw query to the
    root server, no lookup of the extension table. *)
Lemma bare_label_fast_path_witness :
  rawQueries (eventsOf (Fixture.Whois 1%nat " com. " []) Fixture.ready)
  = [("com", "whois.iana.org", "43")]
  /\ directoryLookups (eventsOf (Fixture.Whois 1%nat " com. " []) Fixture.ready) = []
  /\ dials (eventsOf (Fixture.Whois 1%nat " com. " []) Fixture.ready)
     = ["whois.iana.org:43"].
Proof.
  assert (Hne : normalize " com. " <> "") by (vm_compute; discriminate).
  destruct (bare_label_fast_path Fixture.IsASN Fixture.getExtension
              Fixture.extractHostname Fixture.now Fixture.formatTime
              1%nat " com. " [] Fixture.ready Hne eq_refl eq_refl eq_refl)
    as [_ H].
  destruct (H Fixture.client 0%nat Fixture.directory fixture_serves)
    as (Hq & Hl & Hd & _).
  split; [exact Hq | split; [exact Hl | exact Hd]].
Defined.

(** A query to the ARIN server for an address and for an ASN: the
    rewrite rule of the fixture changes the host dialled and not the
    line written. *)
Lemma rawQuery_arin_reformat_witness :
  writes (eventsOf (rawQuery Fixture.IsASN 1%nat "8.8.8.8" "whois.arin.net" "43")
            Fixture.ready)
  = ["n + 8.8.8.8" +:+ CRLF]
  /\ writes (eventsOf (rawQuery Fixture.IsASN 1%nat "AS15169" "whois.arin.net" "43")
               Fixture.ready)
     = ["a + AS15169" +:+ CRLF].
Proof.
  split.
  - destruct (rawQuery_arin_reformat Fixture.IsASN 1%nat Fixture.client 0%nat
                Fixture.directory "8.8.8.8" "43" Fixture.ready fixture_serves)
      as (_ & H & _).
    apply (H ("NetRange: 8.8.8.0 - 8.8.8.255" +:+ LF)). vm_compute. reflexivity.
  - destruct (rawQuery_arin_reformat Fixture.IsASN 1%nat Fixture.client 0%nat
                Fixture.directory "AS15169" "43" Fixture.ready fixture_serves)
      as (_ & H & _).
    apply (H ("ASName: GOOGLE" +:+ LF)). vm_compute. reflexivity.
Defined.

(** The call for [good.com], whose referral succeeds: the trimmed text
    of both answers and the footer. *)
Lemma result_formatting_witness :
  fst (Fixture.Whois 1%nat "good.com" [] Fixture.ready)
  = Returns ("Domain Name: GOOD.COM" +:+ LF
             +:+ "Registrar WHOIS Server: whois.good.example" +:+ LF
             +:+ "Registrar: Good Names" +:+ LF +:+ LF
             +:+ "% Query time: 39 msec" +:+ LF
             +:+ "% WHEN: T+0" +:+ LF, None).
Proof.
  unfold Fixture.Whois.
  edestruct (result_formatting Fixture.IsASN Fixture.getExtension
               Fixture.extractHostname Fixture.now Fixture.formatTime
               1%nat "good.com" [] Fixture.ready
               ("Domain Name: GOOD.COM" +:+ LF
                +:+ "Registrar WHOIS Server: whois.good.example" +:+ LF
                +:+ "Registrar: Good Names" +:+ LF)
               None
               (snd (whoisBody Fixture.IsASN Fixture.getExtension
                       Fixture.extractHostname 1%nat "good.com" [] Fixture.ready))
               Fixture.client) as (E & _);
    [ vm_compute; reflexivity | vm_compute; reflexivity | ].
  rewrite E. vm_compute. reflexivity.
Defined.

(** C1 on the fixture: the registry answers for [example.com] and names
    the server [whois.registrar.example], which cannot be dialled; the
    call returns the text of the registry together with the error of
    the second query. *)
Lemma referral_error_not_swallowed :
  (exists cl, clients Fixture.ready !! 1%nat = Some cl /\ disableReferral cl = false)
  /\ rawQueries (eventsOf (Fixture.Whois 1%nat "example.com" []) Fixture.ready)
     = [("example.com", "whois.verisign-grs.com", "43");
        ("example.com", "whois.registrar.example", "43")]
  /\ fst (Fixture.Whois 1%nat "example.com" [] Fixture.ready)
     = Returns ("Domain Name: EXAMPLE.COM" +:+ LF
                +:+ "Registrar WHOIS Server: whois.registrar.example" +:+ LF +:+ LF
                +:+ "% Query time: 30 msec" +:+ LF
                +:+ "% WHEN: T+0" +:+ LF,
                Some (Errorf "whois: connect to whois server (whois.registrar.example) failed: "
                        (ExternalError "dial tcp: connection refused") "")).
Proof.
  split; [exists Fixture.client; split; reflexivity|].
  split; vm_compute; reflexivity.
Qed.

Lemma referral_error_returned_witness :
  exists st',
    Fixture.Whois 1%nat "example.com" [] Fixture.ready
    = (Returns ("Domain Name: EXAMPLE.COM" +:+ LF
                +:+ "Registrar WHOIS Server: whois.registrar.example" +:+ LF +:+ LF
                +:+ "% Query time: 30 msec" +:+ LF
                +:+ "% WHEN: T+0" +:+ LF,
                Some (Errorf "whois: connect to whois server (whois.registrar.example) failed: "
                        (ExternalError "dial tcp: connection refused") "")), st').
Proof.
  pose (st1 := set_trace (trace Fixture.ready ++ [EvGetWhoisServer (Some 0%nat) "com"])
                 Fixture.ready).
  assert (Hne : normalize "example.com" <> "") by (vm_compute; discriminate).
  assert (Hs1 : serves 1%nat Fixture.client 0%nat Fixture.directory st1)
    by exact fixture_serves.
  edestruct (referral_error_returned Fixture.IsASN Fixture.getExtension
               Fixture.extractHostname Fixture.now Fixture.formatTime
               1%nat Fixture.client 0%nat Fixture.directory "example.com" []
               "whois.verisign-grs.com" "43" Fixture.ready st1 Hne)
    as (st' & E & T & _);
    [ vm_compute; reflexivity | vm_compute; reflexivity | exact Hs1
    | reflexivity | vm_compute; reflexivity
    | vm_compute; discriminate | vm_compute; discriminate | ].
  exists st'. unfold Fixture.Whois. rewrite E, T.
  vm_compute. reflexivity.
Defined.

(** C4 on the fixture: the extension [xy] is not in the directory; the
    call for [name.xy] asks the root server and memoizes [whois.nic.xy];
    after a call for another domain, the call for [other.xy] asks
    [whois.nic.xy] at once. *)
Lemma server_resolution_witness :
  directoryLookups (eventsOf (Fixture.Whois 1%nat "name.xy" []) Fixture.ready)
  = [EvGetWhoisServer (Some 0%nat) "xy";
     EvSetWhoisServer (Some 0%nat) "xy" "whois.nic.xy"]
  /\ directoryLookups
       (eventsOf (Fixture.Whois 1%nat "other.xy" [])
          (Fixture.run [CallWhois 1%nat "good.com" []]
             (snd (Fixture.Whois 1%nat "name.xy" [] Fixture.ready))))
     = [EvGetWhoisServer (Some 0%nat) "xy"]
  /\ exists refs,
      rawQueries
        (eventsOf (Fixture.Whois 1%nat "other.xy" [])
           (Fixture.run [CallWhois 1%nat "good.com" []]
              (snd (Fixture.Whois 1%nat "name.xy" [] Fixture.ready))))
      = ("other.xy", "whois.nic.xy", "43") :: refs.
Proof.
  assert (Hne : normalize "name.xy" <> "") by (vm_compute; discriminate).
  assert (Hne2 : normalize "other.xy" <> "") by (vm_compute; discriminate).
  destruct (server_resolution Fixture.IsASN Fixture.getExtension
              Fixture.extractHostname Fixture.LoadFromFile Fixture.net
              Fixture.now Fixture.formatTime
              1%nat Fixture.client 0%nat Fixture.directory "name.xy" []
              Fixture.ready Hne eq_refl eq_refl fixture_serves)
    as (_ & H).
  destruct (H eq_refl) as (_ & _ & Hfound).
  destruct Hfound as (_ & Hl & Hnext);
    [ vm_compute; reflexivity | vm_compute; discriminate | ].
  destruct (Hnext [CallWhois 1%nat "good.com" []] "other.xy" Hne2 eq_refl eq_refl)
    as (Hl2 & refs & Hq2 & _).
  split; [exact Hl|]. split; [exact Hl2|]. exists refs. exact Hq2.
Defined.

(** C2 on the fixture: the three spellings of one ASN.  The number and
    the uppercase spelling go out as [AS15169]; the lowercase spelling
    goes out as it came in. *)
Lemma asn_lowercase_prefix_is_kept :
  Fixture.IsASN "AS15169" = true
  /\ Fixture.IsASN "as15169" = true
  /\ Fixture.IsASN "15169" = true
  /\ withPrefix Fixture.IsASN "AS15169" = "AS15169"
  /\ withPrefix Fixture.IsASN "15169" = "AS15169"
  /\ withPrefix Fixture.IsASN "as15169" = "as15169"
  /\ writes (eventsOf (Fixture.Whois 1%nat "AS15169" ["whois.radb.example"])
               Fixture.ready)
     = ["AS15169" +:+ CRLF]
  /\ writes (eventsOf (Fixture.Whois 1%nat "15169" ["whois.radb.example"])
               Fixture.ready)
     = ["AS15169" +:+ CRLF]
  /\ writes (eventsOf (Fixture.Whois 1%nat "as15169" ["whois.radb.example"])
               Fixture.ready)
     = ["as15169" +:+ CRLF]
  /\ "as15169" +:+ CRLF <> "AS15169" +:+ CRLF.
Proof.
  repeat split; try (vm_compute; reflexivity). vm_compute. discriminate.
Qed.

Lemma asn_prefix_once_witness :
  isASCII "as15169" = true
  /\ withPrefix Fixture.IsASN (withPrefix Fixture.IsASN "15169")
     = withPrefix Fixture.IsASN "15169"
  /\ asnPattern (withPrefix Fixture.IsASN "15169") = true.
Proof.
  destruct (asn_prefix_once Fixture.IsASN Fixture.getExtension
              Fixture.extractHostname Fixture.now Fixture.formatTime
              "as15169" eq_refl eq_refl) as (Ha & _).
  destruct (asn_prefix_once Fixture.IsASN Fixture.getExtension
              Fixture.extractHostname Fixture.now Fixture.formatTime
              "15169" eq_refl eq_refl) as (_ & _ & Hi & Hp & _).
  split; [exact Ha|]. split; [exact Hi | exact Hp].
Defined.

(** C6 on the fixture, whose [extractHostname] keeps a value without
    scheme as it is. *)
Lemma getServer_extracts_witness :
  getServer Fixture.extractHostname
    ("Registrar WHOIS Server: whois.example.com" +:+ LF)
  = ("whois.example.com", "43")
  /\ getServer Fixture.extractHostname
       ("ReferralServer: whois.example.org:4321" +:+ LF)
     = ("whois.example.org", "4321")
  /\ getServer Fixture.extractHostname ("Domain Name: EXAMPLE.COM" +:+ LF)
     = ("", "")
  /\ getServer Fixture.extractHostname
       ("whois:        whois.example.com " +:+ CRLF)
     = ("whois.example.com", "43").
Proof.
  destruct (getServer_extracts Fixture.extractHostname)
    as (_ & Hnone & _ & _ & _ & H1 & H2 & H3).
  split; [exact (H1 eq_refl)|]. split; [exact (H2 eq_refl)|].
  split; [|exact (H3 eq_refl)].
  apply Hnone. repeat constructor.
Defined.

(** C3 on the fixture: after [InitWhois] the package variable points to
    the directory, [DefaultClient] still has none, and the function
    [Whois] of the package panics on its first call into the
    directory. *)
Lemma nil_directory_is_permanent_witness :
  serverMapInstance Fixture.ready = Some 0%nat
  /\ DefaultClient Fixture.ready = Some 0%nat
  /\ holds 0%nat None Fixture.ready
  /\ receivers
       (eventsOf (PackageWhois Fixture.IsASN Fixture.getExtension
                    Fixture.extractHostname Fixture.now Fixture.formatTime
                    "example.com" []) Fixture.ready)
     = [None]
  /\ fst (PackageWhois Fixture.IsASN Fixture.getExtension
            Fixture.extractHostname Fixture.now Fixture.formatTime
            "example.com" [] Fixture.ready)
     = Panics nilDereference.
Proof.
  destruct (nil_directory_is_permanent Fixture.IsASN Fixture.getExtension
              Fixture.extractHostname Fixture.LoadFromFile Fixture.net
              Fixture.now Fixture.formatTime) as (_ & _ & _ & _ & H & _).
  destruct (H [CallInitWhois "whois-servers.conf"; CallNewClient]) as (Hd & Hh).
  split; [reflexivity|]. split; [exact Hd|]. split; [exact Hh|].
  split; vm_compute; reflexivity.
Defined.

(** * Further properties *)

(** ** Byte strings: lengths and bounds *)

Section StringBounds.

Lemma length_drop_bytes (n : nat) (s : string) :
  String.length (drop_bytes n s) = (String.length s - n)%nat.
Proof.
  revert s. induction n as [|n IH]; intros s; [simpl; lia|].
  destruct s as [|a s]; simpl; [reflexivity | apply IH].
Qed.

Lemma length_take_bytes (n : nat) (s : string) :
  String.length (take_bytes n s) = Nat.min n (String.length s).
Proof.
  revert s. induction n as [|n IH]; intros s; [reflexivity|].
  destruct s as [|a s]; simpl; [reflexivity | rewrite IH; reflexivity].
Qed.

Lemma HasPrefix_length (s p : string) :
  HasPrefix s p = true -> (String.length p <= String.length s)%nat.
Proof.
  revert s. induction p as [|x p IH]; intros s H; [simpl; lia|].
  destruct s as [|a s]; simpl in H; [discriminate|].
  apply andb_true_iff in H. destruct H as [_ H]. apply IH in H. simpl. lia.
Qed.

Lemma index_from_eq (s sub : string) :
  index_from s sub
  = if HasPrefix s sub then Some O
    else match s with
         | EmptyString => None
         | String _ s' => S <$> index_from s' sub
         end.
Proof. destruct s; reflexivity. Qed.

(** An instance of [sub] that [strings.Index] finds lies within [s]. *)
Lemma index_from_bound (s sub : string) (n : nat) :
  index_from s sub = Some n -> (n + String.length sub <= String.length s)%nat.
Proof.
  revert n. induction s as [|a s IH]; intros n; rewrite index_from_eq.
  - destruct (HasPrefix "" sub) eqn:E; [|discriminate].
    intros [= <-]. apply HasPrefix_length in E. simpl in *. lia.
  - destruct (HasPrefix (String a s) sub) eqn:E.
    + intros [= <-]. apply HasPrefix_length in E. simpl in *. lia.
    + destruct (index_from s sub) as [k|]; simpl; [|discriminate].
      intros [= <-]. specialize (IH k eq_refl). simpl. lia.
Qed.

Lemma genSplit_first (fuel : nat) (s sep : string) :
  exists a rest, genSplit fuel s sep = a :: rest.
Proof.
  destruct fuel as [|fuel]; simpl; [eauto|].
  destruct (index_from s sep); eauto.
Qed.

(** A text with a colon splits into two pieces at least. *)
Lemma Split_colon_two (s : string) :
  Contains s ":" = true -> exists a b rest, Split s ":" = a :: b :: rest.
Proof.
  intros H. unfold Contains, Index in H.
  destruct (index_from s ":") as [n|] eqn:E; [|discriminate].
  pose proof (index_from_bound _ _ _ E) as Hb. simpl in Hb.
  unfold Split. destruct (String.length s) as [|k] eqn:El; [lia|].
  simpl. rewrite E.
  destruct (genSplit_first k (drop_bytes (n + 1) s) ":") as (b & rest & ->).
  eauto.
Qed.

End StringBounds.

(** ** The referral parser stays in range *)

Section ParserBounds.

Variable extractHostname : string -> string.

Lemma checkedServerAt_in_range (data : string) (start : Z) :
  (0 <= start <= len data)%Z ->
  checkedServerAt extractHostname data start
  = Some (serverAt extractHostname data start).
Proof.
  intros Hs. unfold checkedServerAt, serverAt, checkedSliceFrom, checkedSlice.
  rewrite (proj2 (Z.leb_le 0 start)), (proj2 (Z.leb_le start (len data))) by lia.
  cbn [andb].
  set (rest := slice_from data start).
  assert (Hl : len rest = (len data - start)%Z).
  { subst rest. unfold slice_from, len in *. rewrite length_drop_bytes. lia. }
  set (e := if (Index rest LF =? -1)%Z then len rest else Index rest LF).
  assert (He : (0 <= e <= len rest)%Z).
  { subst e. unfold Index. destruct (index_from rest LF) as [n|] eqn:E.
    - apply index_from_bound in E.
      destruct (Z.eqb_spec (Z.of_nat n) (-1)); unfold len; lia.
    - change (-1 =? -1)%Z with true. cbv iota. unfold len. lia. }
  rewrite (proj2 (Z.leb_le start (start + e))), (proj2 (Z.leb_le (start + e) (len data)))
    by lia.
  cbn [andb].
  destruct (Contains (extractHostname (TrimSpace (slice data start (start + e)))) ":")
    eqn:Hc; [|reflexivity].
  destruct (Split_colon_two _ Hc) as (a & b & more & ->). reflexivity.
Qed.

(** X1: every slice and index expression of [getServer] is in range,
    whatever the text and whatever [extractHostname] makes of the value:
    with the range checks of Go written out, the function returns for
    every text, and returns what the function without the checks
    computes. *)
Theorem getServer_in_range (data : string) :
  checkedGetServer extractHostname data = Some (getServer extractHostname data).
Proof.
  unfold checkedGetServer, getServer.
  induction tokens as [|token toks IH]; [reflexivity|].
  cbn [checkedGetServerIn getServerIn].
  destruct (Z.eqb_spec (Index data token) (-1)) as [|Hfound]; [exact IH|].
  cbn [negb]. apply checkedServerAt_in_range.
  unfold Index in *. destruct (index_from data token) as [n|] eqn:E; [|contradiction].
  apply index_from_bound in E. unfold len. lia.
Qed.

End ParserBounds.

(** ** Values with several colons, and the address dialled *)

Section HostPort.

Lemma Contains_byte_app (a rest : string) (c : ascii) :
  Contains (a +:+ String c rest) (String c "") = true.
Proof.
  unfold Contains, Index.
  destruct (index_from (a +:+ String c rest) (String c "")) as [n|] eqn:E;
    [apply Z.leb_le; lia|].
  exfalso. induction a as [|x a IH].
  - rewrite append_nil_l in E. simpl in E.
    rewrite Ascii.eqb_refl, HasPrefix_nil in E. discriminate.
  - rewrite append_cons, index_from_eq in E.
    destruct (HasPrefix (String x (a +:+ String c rest)) (String c ""));
      [discriminate|].
    destruct (index_from (a +:+ String c rest) (String c "")); [discriminate|].
    apply IH. reflexivity.
Qed.

Lemma Split_fields (a b c : string) :
  Contains a ":" = false ->
  Contains b ":" = false ->
  exists rest, Split (a +:+ ":" +:+ b +:+ ":" +:+ c) ":" = a :: b :: rest.
Proof.
  intros Ha Hb. apply Contains_false in Ha. apply Contains_false in Hb.
  change (":" +:+ c) with (String ":" c).
  change (":" +:+ b +:+ String ":" c) with (String ":" (b +:+ String ":" c)).
  unfold Split. rewrite length_append.
  change (String.length (String ":" (b +:+ String ":" c)))
    with (S (String.length (b +:+ String ":" c))).
  rewrite length_append.
  change (String.length (String ":" c)) with (S (String.length c)).
  rewrite !Nat.add_succ_r. cbn [genSplit].
  rewrite (index_from_byte_app a _ ":" Ha).
  rewrite take_bytes_app, drop_bytes_add, drop_bytes_app. cbn [drop_bytes String.length].
  rewrite (index_from_byte_app b _ ":" Hb), take_bytes_app.
  eauto.
Qed.

(** X2: a value with more than one colon gives the text before the first
    colon as the server and the text between the first two colons as the
    port; what follows the second colon is dropped. *)
Theorem hostPort_first_two_fields (a b c : string) :
  Contains a ":" = false ->
  Contains b ":" = false ->
  hostPort (a +:+ ":" +:+ b +:+ ":" +:+ c) = (a, b).
Proof.
  intros Ha Hb. unfold hostPort.
  destruct (Split_fields a b c Ha Hb) as (rest & ->).
  change (":" +:+ b +:+ ":" +:+ c) with (String ":" (b +:+ ":" +:+ c)).
  rewrite Contains_byte_app. reflexivity.
Qed.

(** X3: the address dialled for a server and a port splits back into
    them, and a value [host:port] of a referral line is dialled at that
    very address: [net.JoinHostPort] and the split of [getServer] are
    inverse to each other on host names and ports (no colon in either).
    A value without port is dialled on port 43. *)
Theorem dial_address_round_trip (host port : string) :
  Contains host ":" = false ->
  Contains port ":" = false ->
  hostPort (JoinHostPort host port) = (host, port)
  /\ JoinHostPort (fst (hostPort (host +:+ ":" +:+ port)))
                  (snd (hostPort (host +:+ ":" +:+ port)))
     = host +:+ ":" +:+ port
  /\ JoinHostPort (fst (hostPort host)) (snd (hostPort host)) = host +:+ ":43".
Proof.
  intros Hc Hq.
  assert (Hj : forall q, JoinHostPort host q = host +:+ ":" +:+ q)
    by (intros q; unfold JoinHostPort; rewrite Hc; reflexivity).
  assert (Hs : hostPort (host +:+ ":" +:+ port) = (host, port)).
  { unfold hostPort. rewrite (Split_host_port host port Hc Hq).
    change (":" +:+ port) with (String ":" port).
    rewrite Contains_byte_app. reflexivity. }
  split; [rewrite Hj; exact Hs|]. split.
  - rewrite Hs. apply Hj.
  - unfold hostPort. rewrite Hc. apply Hj.
Qed.

End HostPort.

(** ** The normal form of a query *)

Section NormalForm.

Lemma TrimSpace_fixed (s : string) :
  startsWithSpace s = false -> endsWithSpace s = false -> TrimSpace s = s.
Proof.
  unfold startsWithSpace, endsWithSpace, TrimSpace, trimRightSpace,
    trimLeftSpace, trimLeftSpaceRev.
  intros Hs He. rewrite (trimRunes_fixed _ _ _ _ Hs), (trimRunes_fixed _ _ _ _ He).
  apply reverse_involutive.
Qed.

Lemma trimLeftByte_fixed (s : string) (c : ascii) :
  startsWithByte c s = false -> trimLeftByte s c = s.
Proof. destruct s as [|b s]; simpl; [reflexivity|]. intros ->. reflexivity. Qed.

Lemma TrimByte_fixed (s : string) (c : ascii) :
  startsWithByte c s = false -> endsWithByte c s = false -> TrimByte s c = s.
Proof.
  unfold endsWithByte, TrimByte, trimRightByte. intros Hs He.
  rewrite (trimLeftByte_fixed _ _ Hs), (trimLeftByte_fixed _ _ He).
  apply reverse_involutive.
Qed.

(** A text that starts with a dot starts with no white space, read
    forwards or backwards. *)
Lemma dot_leads_no_space (t : string) :
  leadsWith isAsciiSpace isSpace2 isSpace3 (String "." t) = false
  /\ leadsWith isAsciiSpace (fun b1 b2 => isSpace2 b2 b1)
       (fun b1 b2 b3 => isSpace3 b3 b2 b1) (String "." t) = false.
Proof.
  destruct t as [|b2 [|b3 t]]; split; try reflexivity;
    unfold leadsWith, isSpace2, isSpace3;
    change (nat_of_ascii ".") with 46%nat;
    change (isAsciiSpace ".") with false;
    cbn [Nat.eqb Nat.leb orb andb];
    rewrite ?andb_false_r; reflexivity.
Qed.

(** X4: the two trims of line 131 are applied once, in this order.  A
    normal form without white space at its ends is its own normal form;
    but white space that the removal of the dots uncovers stays: the
    query [. name .] is classified and sent as [ name ], with the
    blanks. *)
Theorem normalize_once :
  (forall domain,
      startsWithSpace (normalize domain) = false ->
      endsWithSpace (normalize domain) = false ->
      normalize (normalize domain) = normalize domain)
  /\ (forall name,
        normalize ("." +:+ " " +:+ name +:+ " " +:+ ".") = " " +:+ name +:+ " ").
Proof.
  assert (Hblank : forall name,
             normalize ("." +:+ " " +:+ name +:+ " " +:+ ".") = " " +:+ name +:+ " ").
  { intros name. unfold normalize.
    set (q := "." +:+ " " +:+ name +:+ " " +:+ ".").
    assert (Hrev : reverse q = "." +:+ " " +:+ reverse name +:+ " " +:+ ".").
    { subst q. rewrite !reverse_app. change (reverse ".") with ".".
      change (reverse " ") with " ". rewrite !append_assoc. reflexivity. }
    assert (Htrim : TrimSpace q = q).
    { apply TrimSpace_fixed.
      - apply (dot_leads_no_space (" " +:+ name +:+ " " +:+ ".")).
      - unfold endsWithSpace. rewrite Hrev.
        apply (dot_leads_no_space (" " +:+ reverse name +:+ " " +:+ ".")). }
    rewrite Htrim. unfold TrimByte, trimRightByte. subst q.
    change (trimLeftByte ("." +:+ " " +:+ name +:+ " " +:+ ".") ".")
      with (" " +:+ name +:+ " " +:+ ".").
    rewrite !reverse_app. change (reverse ".") with ".".
    change (reverse " ") with " ". rewrite !append_assoc.
    change (trimLeftByte ("." +:+ " " +:+ reverse name +:+ " ") ".")
      with (" " +:+ reverse name +:+ " ").
    rewrite !reverse_app, reverse_involutive. change (reverse " ") with " ".
    rewrite !append_assoc. reflexivity. }
  split; [|exact Hblank].
  intros domain Hs He. unfold normalize at 1.
  rewrite (TrimSpace_fixed _ Hs He).
  destruct (TrimByte_spec (TrimSpace domain) ".") as (_ & _ & _ & _ & _ & Hd1 & Hd2).
  apply TrimByte_fixed; assumption.
Qed.

End NormalForm.

(** ** What a call does on the network *)

Section Traces.

Lemma within_nil (q d w : nat) : within q d w [].
Proof. repeat split; simpl; lia. Qed.

Lemma within_le (q d w q' d' w' : nat) (evs : list event) :
  (q <= q')%nat -> (d <= d')%nat -> (w <= w')%nat ->
  within q d w evs -> within q' d' w' evs.
Proof. intros ? ? ? (? & ? & ?). repeat split; lia. Qed.

Lemma within_app (q1 d1 w1 q2 d2 w2 : nat) (a b : list event) :
  within q1 d1 w1 a -> within q2 d2 w2 b ->
  within (q1 + q2) (d1 + d2) (w1 + w2) (a ++ b).
Proof.
  intros (Hq1 & Hd1 & Hw1) (Hq2 & Hd2 & Hw2).
  unfold within, rawQueries, dials, directoryWrites in *.
  rewrite !omap_app, !length_app.
  repeat split; lia.
Qed.

Lemma emits_le {A : Type} (q d w q' d' w' : nat) (m : M A) :
  (q <= q')%nat -> (d <= d')%nat -> (w <= w')%nat ->
  emits (within q d w) m -> emits (within q' d' w') m.
Proof.
  intros ? ? ? H st. destruct (H st) as (evs & T & Hw).
  exists evs. split; [exact T|]. eapply within_le; eauto.
Qed.

Lemma emits_bind {A B : Type} (q1 d1 w1 q2 d2 w2 : nat) (m : M A) (k : A -> M B) :
  emits (within q1 d1 w1) m ->
  (forall a, emits (within q2 d2 w2) (k a)) ->
  emits (within (q1 + q2) (d1 + d2) (w1 + w2)) (bind m k).
Proof.
  intros Hm Hk st. unfold bind. destruct (Hm st) as (e1 & T1 & W1).
  destruct (m st) as [[a|why] st1]; simpl in *.
  - destruct (Hk a st1) as (e2 & T2 & W2).
    exists (e1 ++ e2). rewrite T2, T1, app_assoc. split; [reflexivity|].
    apply within_app; assumption.
  - exists e1. split; [exact T1|].
    eapply within_le; [| | |exact W1]; lia.
Qed.

Lemma emits_silent {A : Type} (q d w : nat) (m : M A) :
  (forall st, trace (snd (m st)) = trace st) -> emits (within q d w) m.
Proof.
  intros H st. exists []. rewrite H, app_nil_r. split; [reflexivity|].
  apply within_nil.
Qed.

Lemma emits_emit (q d w : nat) (e : event) :
  within q d w [e] -> emits (within q d w) (emit e).
Proof. intros H st. exists [e]. split; [reflexivity | exact H]. Qed.

Lemma emits_load (q d w : nat) (c : nat) : emits (within q d w) (load c).
Proof.
  apply emits_silent. intros st. unfold load.
  destruct (clients st !! c); reflexivity.
Qed.

Lemma emits_ret {A : Type} (q d w : nat) (a : A) : emits (within q d w) (ret a).
Proof. apply emits_silent. reflexivity. Qed.

Lemma emits_GetWhoisServer (q d w : nat) recv ext :
  emits (within q d w) (GetWhoisServer recv ext).
Proof.
  intros st. unfold GetWhoisServer, bind, emit, deref, ret. simpl.
  exists [EvGetWhoisServer recv ext].
  split; [destruct (recv ≫= _); reflexivity|].
  apply (within_le 0 0 0); try lia. repeat split; simpl; lia.
Qed.

Lemma emits_SetWhoisServer (q d w : nat) recv ext server :
  emits (within q d (S w)) (SetWhoisServer recv ext server).
Proof.
  intros st. unfold SetWhoisServer, bind, emit, deref, panic. simpl.
  exists [EvSetWhoisServer recv ext server].
  split; [destruct (recv ≫= _); [destruct recv|]; reflexivity|].
  apply (within_le 0 0 1); try lia. repeat split; simpl; lia.
Qed.

End Traces.

Section EngineTraces.

Variable IsASN : string -> bool.
Variable getExtension : string -> string.
Variable extractHostname : string -> string.
Variable now : list event -> Z.
Variable formatTime : Z -> string.

Local Notation rawQuery := (rawQuery IsASN).
Local Notation resolveServer := (resolveServer IsASN getExtension extractHostname).
Local Notation queryAndRefer := (queryAndRefer IsASN extractHostname).
Local Notation whoisBody := (whoisBody IsASN getExtension extractHostname).
Local Notation deferred := (deferred now formatTime).
Local Notation Whois := (Whois IsASN getExtension extractHostname now formatTime).
Local Notation PackageWhois :=
  (PackageWhois IsASN getExtension extractHostname now formatTime).

Lemma emits_rawQuery (q d w : nat) c domain server port :
  emits (within (S q) (S d) w) (rawQuery c domain server port).
Proof.
  apply (emits_le 1 1 0); try lia.
  intros st. unfold Engine.rawQuery, resetElapsed, GetRewriteServer, dialContext,
    bind, emit, store, load, deref, ret. simpl.
  destruct (clients st !! c) as [cl|] eqn:Hc; simpl.
  2: { eexists. split; [reflexivity|]. repeat split; simpl; lia. }
  rewrite list_lookup_insert_eq by (eapply lookup_lt_Some; eauto). simpl.
  destruct (serverMap cl ≫= _) as [m|]; simpl.
  2: { eexists. split; [rewrite <- app_assoc; reflexivity|].
       repeat split; simpl; lia. }
  rewrite list_lookup_insert_eq by (eapply lookup_lt_Some; eauto). simpl.
  destruct (dialer cl _ _ _ _) as [err|conn]; simpl.
  - eexists. split; [rewrite <- !app_assoc; reflexivity|].
    repeat split; simpl; lia.
  - destruct (conn _) as [err|err|buffer]; simpl;
      (eexists; split; [rewrite <- !app_assoc; reflexivity|];
       repeat split; simpl; lia).
Qed.

Lemma emits_resolveServer c domain servers :
  emits (within 1 1 1) (resolveServer c domain servers).
Proof.
  unfold Engine.resolveServer. destruct (override servers); [apply emits_ret|].
  apply (emits_bind 0 0 0 1 1 1); [apply emits_load|]. intros cl.
  apply (emits_bind 0 0 0 1 1 1); [apply emits_GetWhoisServer|]. intros r.
  destruct (snd r); [apply emits_ret|].
  apply (emits_bind 1 1 0 0 0 1); [apply emits_rawQuery|]. intros q.
  destruct (snd q); [apply emits_ret|]. cbv zeta.
  destruct (String.eqb _ ""); [apply emits_ret|].
  apply (emits_bind 0 0 0 0 0 1); [apply emits_load|]. intros cl'.
  apply (emits_bind 0 0 1 0 0 0); [apply emits_SetWhoisServer | intros; apply emits_ret].
Qed.

Lemma emits_queryAndRefer c domain server port :
  emits (within 2 2 0) (queryAndRefer c domain server port).
Proof.
  unfold Engine.queryAndRefer.
  apply (emits_bind 1 1 0 1 1 0); [apply emits_rawQuery|]. intros q.
  destruct (snd q); [apply emits_ret|]. cbv zeta.
  apply (emits_bind 0 0 0 1 1 0); [apply emits_load|]. intros cl.
  destruct (disableReferral cl); [apply emits_ret|].
  destruct (_ || _); [apply emits_ret|].
  apply (emits_bind 1 1 0 0 0 0); [apply emits_rawQuery|]. intros r.
  destruct (snd r); apply emits_ret.
Qed.

Lemma emits_deferred c start r : emits (within 0 0 0) (deferred c start r).
Proof.
  unfold Engine.deferred. cbv zeta. destruct (negb _); [|apply emits_ret].
  apply (emits_bind 0 0 0 0 0 0); [apply emits_load|]. intros cl.
  destruct (negb _); [|apply emits_ret]. apply emits_silent. reflexivity.
Qed.

Lemma emits_Whois c domain servers :
  emits (within 3 3 1) (Whois c domain servers).
Proof.
  intros st. unfold Engine.Whois. generalize (now (trace st)). intros start.
  revert st.
  change (emits (within 3 3 1) (r <- whoisBody c domain servers ;; deferred c start r)).
  apply (emits_bind 3 3 1 0 0 0); [|intros; apply emits_deferred].
  unfold Engine.whoisBody. cbv zeta.
  destruct (String.eqb _ ""); [apply emits_ret|].
  destruct (negb _ && negb _ && negb _); [apply emits_rawQuery|].
  apply (emits_bind 1 1 1 2 2 0); [apply emits_resolveServer|].
  intros [[server port]|early]; [apply emits_queryAndRefer | apply emits_ret].
Qed.

(** X5: whatever the client, the state, the query and the network, a
    call of [Whois] makes at most three raw queries (one to find the
    server, one to the server, one to the referral server: a referral is
    followed once, never further), dials at most three times and writes
    to the extension table at most once, also when it fails or panics;
    so does a call of the package's [Whois].  A raw query dials at most
    once and writes nothing to the table. *)
Theorem call_budget c domain servers st :
  (exists evs, trace (snd (Whois c domain servers st)) = trace st ++ evs)
  /\ (let evs := eventsOf (Whois c domain servers) st in
      (length (rawQueries evs) <= 3)%nat
      /\ (length (dials evs) <= 3)%nat
      /\ (length (directoryWrites evs) <= 1)%nat)
  /\ within 3 3 1 (eventsOf (PackageWhois domain servers) st)
  /\ forall server port,
      within 1 1 0 (eventsOf (rawQuery c domain server port) st).
Proof.
  assert (Hev : forall (A : Type) (m : M A) q d w s,
             emits (within q d w) m -> within q d w (eventsOf m s)).
  { intros A m q d w s H. destruct (H s) as (evs & T & Hw).
    unfold eventsOf. rewrite T, drop_app_length. exact Hw. }
  split; [|split; [|split]].
  - destruct (emits_Whois c domain servers st) as (evs & T & _). eauto.
  - apply (Hev _ _ 3 3 1)%nat. apply emits_Whois.
  - apply Hev. intros s. unfold Engine.PackageWhois.
    destruct (DefaultClient s) as [c0|]; [apply emits_Whois|].
    exists []. rewrite app_nil_r. split; [reflexivity | apply within_nil].
  - intros server port. apply Hev. apply emits_rawQuery.
Qed.

End EngineTraces.

(** ** What the calls leave alone *)

Section Frames.

Variable IsASN : string -> bool.
Variable getExtension : string -> string.
Variable extractHostname : string -> string.
Variable LoadFromFile :
  string -> Directory.serverMap -> Directory.serverMap * option error.
Variable netDialer : Dialer.
Variable now : list event -> Z.
Variable formatTime : Z -> string.

Local Notation rawQuery := (rawQuery IsASN).
Local Notation getServer := (getServer extractHostname).
Local Notation resolveServer := (resolveServer IsASN getExtension extractHostname).
Local Notation queryAndRefer := (queryAndRefer IsASN extractHostname).
Local Notation whoisBody := (whoisBody IsASN getExtension extractHostname).
Local Notation deferred := (deferred now formatTime).
Local Notation Whois := (Whois IsASN getExtension extractHostname now formatTime).
Local Notation PackageWhois :=
  (PackageWhois IsASN getExtension extractHostname now formatTime).
Local Notation NewClient := (NewClient netDialer).
Local Notation InitWhois := (InitWhois LoadFromFile).
Local Notation packageInit := (packageInit netDialer).
Local Notation run :=
  (run IsASN getExtension extractHostname LoadFromFile netDialer now formatTime).
Local Notation exec :=
  (exec IsASN getExtension extractHostname LoadFromFile netDialer now formatTime).

(** *** Stores to a client

    A property of the state that a change of the trace, a change of the
    directory objects and a store of the kind [allowed] keep; the store
    of [rawQuery], which resets [elapsed], is of that kind. *)

Section Stores.

Variable Inv : state -> Prop.
Variable allowed : (Client -> Client) -> Prop.
Hypothesis Inv_trace : forall t st, Inv st -> Inv (set_trace t st).
Hypothesis Inv_maps : forall ms st, Inv st -> Inv (set_maps ms st).
Hypothesis Inv_store :
  forall c f cl st,
    allowed f ->
    clients st !! c = Some cl ->
    Inv st -> Inv (set_clients (<[c := f cl]> (clients st)) st).
Hypothesis allowed_rest : allowed atRest.

Lemma stores_store (c : nat) (f : Client -> Client) :
  allowed f -> keeps Inv (store c f).
Proof.
  intros Hf st H. unfold store.
  destruct (clients st !! c) as [cl|] eqn:E; simpl; [|exact H].
  apply Inv_store; auto.
Qed.

Ltac stores_step :=
  first
    [ apply keeps_ret | apply keeps_panic | apply (keeps_emit _ Inv_trace)
    | apply keeps_load | apply keeps_deref | apply keeps_state
    | apply (keeps_set_maps _ Inv_maps)
    | apply (keeps_GetWhoisServer _ Inv_trace)
    | apply (keeps_GetRewriteServer _ Inv_trace)
    | apply (keeps_SetWhoisServer _ Inv_trace Inv_maps)
    | apply (keeps_dialContext _ Inv_trace)
    | apply stores_store; exact allowed_rest
    | apply keeps_bind; [|intros ?]
    | match goal with
      | |- keeps _ (match ?t with _ => _ end) => destruct t
      end ].

Lemma stores_rawQuery c domain server port :
  keeps Inv (rawQuery c domain server port).
Proof. unfold Engine.rawQuery, resetElapsed. cbv zeta. repeat stores_step. Qed.

Lemma stores_queryAndRefer c domain server port :
  keeps Inv (queryAndRefer c domain server port).
Proof.
  unfold Engine.queryAndRefer. cbv zeta.
  repeat first [apply stores_rawQuery | stores_step].
Qed.

Lemma stores_resolveServer c domain servers :
  keeps Inv (resolveServer c domain servers).
Proof.
  unfold Engine.resolveServer. cbv zeta.
  repeat first [apply stores_rawQuery | stores_step].
Qed.

Lemma stores_Whois c domain servers : keeps Inv (Whois c domain servers).
Proof.
  intros st H. unfold Engine.Whois.
  generalize (now (trace st)). intros start.
  revert st H. change (keeps Inv (r <- whoisBody c domain servers ;;
                                  deferred c start r)).
  unfold Engine.whoisBody. cbv zeta.
  repeat first [apply stores_rawQuery | apply stores_queryAndRefer
               | apply stores_resolveServer | apply keeps_deferred | stores_step].
Qed.

Lemma stores_PackageWhois domain servers :
  keeps Inv (PackageWhois domain servers).
Proof.
  intros st H. unfold Engine.PackageWhois.
  destruct (DefaultClient st); [apply stores_Whois; exact H | exact H].
Qed.

End Stores.

(** *** Updates of the extension table

    A property of the state that a change of the trace, a change of the
    clients and the insertion of an entry that is not in the table, for
    a server that is not empty, keep. *)

Section Inserts.

Variable Inv : state -> Prop.
Hypothesis Inv_trace : forall t st, Inv st -> Inv (set_trace t st).
Hypothesis Inv_clients : forall cs st, Inv st -> Inv (set_clients cs st).
Hypothesis Inv_insert :
  forall p m ext server st,
    maps st !! p = Some m ->
    Directory.whoisServers m !! ext = None ->
    server <> "" ->
    Inv st ->
    Inv (set_maps (<[p := Directory.insertWhoisServer m ext server]> (maps st)) st).

Lemma Inv_any_store :
  forall c (f : Client -> Client) cl st,
    clients st !! c = Some cl ->
    serverMap (f cl) = serverMap cl ->
    Inv st -> Inv (set_clients (<[c := f cl]> (clients st)) st).
Proof. intros. apply Inv_clients. assumption. Qed.

Lemma inserts_resolveServer c domain servers :
  keeps Inv (resolveServer c domain servers).
Proof.
  intros st HI. unfold Engine.resolveServer.
  destruct (override servers); [exact HI|].
  unfold bind at 1. unfold load at 1.
  destruct (clients st !! c) as [cl|] eqn:Hc; [|exact HI].
  unfold bind at 1. unfold GetWhoisServer, bind at 1 2, emit, deref.
  cbn [trace maps set_trace fst snd].
  destruct (serverMap cl ≫= (fun q => maps st !! q)) as [m'|] eqn:Hrecv;
    [|apply Inv_trace; exact HI].
  unfold ret at 1. unfold Directory.lookupWhoisServer.
  destruct (Directory.whoisServers m' !! getExtension domain) as [v|] eqn:Hlook;
    cbn [fst snd]; [apply Inv_trace; exact HI|].
  set (st1 := set_trace (trace st ++ [EvGetWhoisServer (serverMap cl) (getExtension domain)]) st).
  assert (HI1 : Inv st1) by (apply Inv_trace; exact HI).
  assert (Hkeep_maps : maps (snd (rawQuery c (getExtension domain) defaultWhoisServer
                                    defaultWhoisPort st1)) = maps st).
  { apply (keeps_rawQuery IsASN (fun st' => maps st' = maps st)); auto. }
  assert (Hkeep_client : holds c (serverMap cl)
                           (snd (rawQuery c (getExtension domain) defaultWhoisServer
                                   defaultWhoisPort st1))).
  { destruct (holds_stable c (serverMap cl)) as (Ht' & _ & Hs').
    apply (keeps_rawQuery IsASN (holds c (serverMap cl))); auto.
    exists cl. auto. }
  assert (Hkeep : Inv (snd (rawQuery c (getExtension domain) defaultWhoisServer
                              defaultWhoisPort st1)))
    by (apply (keeps_rawQuery IsASN Inv Inv_trace Inv_any_store); exact HI1).
  unfold bind at 1.
  destruct (rawQuery c (getExtension domain) defaultWhoisServer defaultWhoisPort st1)
    as [[q|why] st2]; cbn [fst snd] in *; [|exact Hkeep].
  destruct (snd q); [exact Hkeep|].
  destruct (String.eqb_spec (fst (getServer (fst q))) "") as [|Hnamed];
    [exact Hkeep|].
  destruct Hkeep_client as (cl2 & Hc2 & Hsm2).
  unfold bind at 1. unfold load at 1. rewrite Hc2.
  unfold bind at 1. unfold SetWhoisServer, bind at 1 2, emit, deref.
  cbn [trace maps set_trace fst snd].
  rewrite Hsm2, Hkeep_maps, Hrecv.
  destruct (serverMap cl) as [p'|] eqn:Hp'; [|apply Inv_trace; exact Hkeep].
  cbn [fst snd]. unfold ret. cbn [fst snd].
  simpl in Hrecv.
  apply Inv_insert; [|exact Hlook|exact Hnamed|apply Inv_trace; exact Hkeep].
  cbn [maps set_trace]. rewrite Hkeep_maps. exact Hrecv.
Qed.

Lemma inserts_Whois c domain servers : keeps Inv (Whois c domain servers).
Proof.
  apply (keeps_Whois_with IsASN getExtension extractHostname now formatTime Inv
           Inv_trace Inv_any_store).
  intros d. apply inserts_resolveServer.
Qed.

Lemma inserts_exec k st :
  (forall f, onceWhois st = false ->
             Inv st -> Inv (snd (InitWhois f st))) ->
  Inv st -> Inv (exec k st).
Proof.
  intros Hinit H. destruct k; simpl.
  - unfold Engine.InitWhois in *. specialize (Hinit configFile).
    destruct (onceWhois st); [exact H | apply Hinit; auto].
  - apply Inv_clients. exact H.
  - apply (keeps_setters _ Inv_any_store c d 0 true); exact H.
  - apply (keeps_setters _ Inv_any_store c (fun _ _ _ _ => DialFails ErrDomainEmpty) t true);
      exact H.
  - apply (keeps_setters _ Inv_any_store c (fun _ _ _ _ => DialFails ErrDomainEmpty) 0
             disabled); exact H.
  - apply (keeps_setters _ Inv_any_store c (fun _ _ _ _ => DialFails ErrDomainEmpty) 0
             disabled); exact H.
  - apply inserts_Whois; exact H.
  - unfold Engine.PackageWhois. destruct (DefaultClient st); [|exact H].
    apply inserts_Whois; exact H.
Qed.

End Inserts.

(** The clients before and after a call: the same fields, [elapsed]
    apart, which is as before or zero. *)
Lemma rest_store (cs0 cs : list Client) (c : nat) (cl : Client) :
  Forall2 (fun a b => atRest b = atRest a
                      /\ (elapsed b = elapsed a \/ elapsed b = 0%Z)) cs0 cs ->
  cs !! c = Some cl ->
  Forall2 (fun a b => atRest b = atRest a
                      /\ (elapsed b = elapsed a \/ elapsed b = 0%Z))
          cs0 (<[c := atRest cl]> cs).
Proof.
  intros H Hc.
  destruct (Forall2_lookup_r _ _ _ _ _ H Hc) as (a & Ha & Hab & _).
  rewrite <- (list_insert_id cs0 c a Ha).
  apply Forall2_insert; [exact H|].
  split; [rewrite <- Hab; reflexivity | right; reflexivity].
Qed.

(** X6: a call of [Whois] changes the configuration of no client: the
    clients are the same in number, each keeps its dialer, its timeout,
    its two flags and its directory, and its field [elapsed] is as
    before or zero; the package variables [serverMapInstance],
    [onceWhois] and [DefaultClient] keep their values, and no directory
    is created.  This holds whatever the call returns, and when it
    panics. *)
Theorem Whois_leaves_configuration c domain servers st :
  let st' := snd (Whois c domain servers st) in
  Forall2 (fun cl cl' =>
             dialer cl' = dialer cl /\ timeout cl' = timeout cl
             /\ disableStats cl' = disableStats cl
             /\ disableReferral cl' = disableReferral cl
             /\ serverMap cl' = serverMap cl
             /\ (elapsed cl' = elapsed cl \/ elapsed cl' = 0%Z))
          (clients st) (clients st')
  /\ serverMapInstance st' = serverMapInstance st
  /\ onceWhois st' = onceWhois st
  /\ DefaultClient st' = DefaultClient st
  /\ length (maps st') = length (maps st).
Proof.
  intros st'. split; [|split; [|split; [|split]]].
  - set (R := fun a b : Client =>
                atRest b = atRest a /\ (elapsed b = elapsed a \/ elapsed b = 0%Z)).
    assert (H : Forall2 R (clients st) (clients st')).
    { apply (stores_Whois (fun s => Forall2 R (clients st) (clients s))
               (fun f => f = atRest)); try (intros; assumption); try reflexivity.
      - intros c0 f cl s -> Hc HI. simpl. apply rest_store; assumption.
      - apply Forall_Forall2_diag, Forall_forall. intros x _. split; auto. }
    eapply Forall2_impl; [exact H|]. intros a b (Hab & He).
    unfold atRest in Hab. injection Hab as H1 H2 H3 H4 H5. auto 10.
  - apply (keeps_Whois IsASN getExtension extractHostname now formatTime
             (fun s => serverMapInstance s = serverMapInstance st));
      try (intros; assumption). reflexivity.
  - apply (keeps_Whois IsASN getExtension extractHostname now formatTime
             (fun s => onceWhois s = onceWhois st));
      try (intros; assumption). reflexivity.
  - apply (keeps_Whois IsASN getExtension extractHostname now formatTime
             (fun s => DefaultClient s = DefaultClient st));
      try (intros; assumption). reflexivity.
  - apply (inserts_Whois (fun s => length (maps s) = length (maps st)));
      try (intros; assumption); [|reflexivity].
    intros p m ext server s _ _ _ H. simpl. rewrite length_insert. exact H.
Qed.

Lemma elapsed_exec k st :
  Forall (fun cl => elapsed cl = 0%Z) (clients st) ->
  Forall (fun cl => elapsed cl = 0%Z) (clients (exec k st)).
Proof.
  set (Inv := fun s => Forall (fun cl => elapsed cl = 0%Z) (clients s)).
  set (allowed := fun f : Client -> Client => forall cl, elapsed (f cl) = 0%Z
                                                         \/ elapsed (f cl) = elapsed cl).
  assert (Ht : forall t s, Inv s -> Inv (set_trace t s)) by (intros; assumption).
  assert (Hm : forall ms s, Inv s -> Inv (set_maps ms s)) by (intros; assumption).
  assert (Hs : forall c f cl s, allowed f -> clients s !! c = Some cl ->
                                Inv s -> Inv (set_clients (<[c := f cl]> (clients s)) s)).
  { intros c f cl s Hf Hc HI. unfold Inv in *. simpl.
    apply Forall_insert; [exact HI|].
    destruct (Hf cl) as [E|E]; [exact E|]. rewrite E.
    exact (Forall_lookup_1 (fun x => elapsed x = 0%Z) _ _ _ HI Hc). }
  assert (Hr : allowed atRest) by (intros cl; left; reflexivity).
  assert (Hset : forall c f, allowed f -> keeps Inv (store c f ;;; ret c)).
  { intros c f Hf. apply keeps_bind; [|intros; apply keeps_ret].
    apply (stores_store Inv allowed Hs); exact Hf. }
  intros H. change (Inv (exec k st)). change (Inv st) in H.
  destruct k; simpl.
  - unfold Engine.InitWhois. destruct (onceWhois st); [exact H|].
    destruct (snd (LoadFromFile configFile Directory.NewServerMap)); exact H.
  - unfold Inv. simpl. apply Forall_app. split; [exact H|]. repeat constructor.
  - apply Hset; [|exact H]. intros cl. right. reflexivity.
  - apply Hset; [|exact H]. intros cl. right. reflexivity.
  - apply Hset; [|exact H]. intros cl. right. reflexivity.
  - apply Hset; [|exact H]. intros cl. right. reflexivity.
  - apply (stores_Whois Inv allowed Ht Hm Hs Hr); exact H.
  - apply (stores_PackageWhois Inv allowed Ht Hm Hs Hr); exact H.
Qed.

(** X7: the field [elapsed] is dead: in every state that the exported
    functions reach from the loading of the package, the field is zero
    in every client ([NewClient] leaves it zero, [rawQuery] sets it to
    zero, and nothing else writes it). *)
Theorem elapsed_is_always_zero ks :
  Forall (fun cl => elapsed cl = 0%Z) (clients (run ks packageInit)).
Proof.
  assert (H : forall st, Forall (fun cl => elapsed cl = 0%Z) (clients st) ->
                         Forall (fun cl => elapsed cl = 0%Z) (clients (run ks st))).
  { induction ks as [|k ks IH]; intros st H; simpl; [exact H|].
    apply IH. apply elapsed_exec. exact H. }
  apply H. repeat constructor.
Qed.

Lemma grows_exec p m k st : grows p m st -> grows p m (exec k st).
Proof.
  apply inserts_exec; try (intros; assumption).
  - intros q mq ext server s Hq Hext _ (m' & Hm' & Hrw & Hsub).
    unfold grows. simpl. destruct (decide (q = p)) as [->|Hne].
    + rewrite Hm' in Hq. injection Hq as <-.
      exists (Directory.insertWhoisServer m' ext server).
      rewrite list_lookup_insert_eq by (eapply lookup_lt_Some; eauto).
      split; [reflexivity|]. split; [exact Hrw|]. simpl.
      etransitivity; [exact Hsub|]. apply insert_subseteq. exact Hext.
    + exists m'. rewrite list_lookup_insert_ne by exact Hne. auto.
  - intros f Hon (m' & Hm' & Hrw & Hsub). unfold Engine.InitWhois. rewrite Hon.
    assert (H' : grows p m
                   {| serverMapInstance := Some (length (maps st)); onceWhois := true;
                      DefaultClient := DefaultClient st;
                      maps := maps st ++ [fst (LoadFromFile f Directory.NewServerMap)];
                      clients := clients st; trace := trace st |}).
    { exists m'. simpl. rewrite lookup_app_l by (eapply lookup_lt_Some; eauto). auto. }
    destruct (snd (LoadFromFile f Directory.NewServerMap)); exact H'.
Qed.

Lemma grows_run p m ks st : grows p m st -> grows p m (run ks st).
Proof.
  revert st. induction ks as [|k ks IH]; intros st H; simpl; [exact H|].
  apply IH. apply grows_exec. exact H.
Qed.

(** X8: a directory only grows.  Whatever the callers of the package
    do, a directory that exists keeps its rewrite table as it is and
    keeps every entry of its extension table with the server it has:
    [SetWhoisServer] is called for an extension only after its lookup
    has failed, and nothing removes an entry. *)
Theorem directory_only_grows ks p m st :
  maps st !! p = Some m ->
  exists m',
    maps (run ks st) !! p = Some m'
    /\ Directory.rewriteServers m' = Directory.rewriteServers m
    /\ (forall ext server,
          Directory.whoisServers m !! ext = Some server ->
          Directory.whoisServers m' !! ext = Some server).
Proof.
  intros Hm.
  destruct (grows_run p m ks st) as (m' & Hm' & Hrw & Hsub);
    [exists m; repeat split; auto|].
  exists m'. split; [exact Hm'|]. split; [exact Hrw|].
  intros ext server H. eapply lookup_weaken; eauto.
Qed.

Lemma once_exec k st :
  onceWhois st = true ->
  onceWhois (exec k st) = true
  /\ serverMapInstance (exec k st) = serverMapInstance st.
Proof.
  intros Hon.
  set (Inv := fun s => onceWhois s = true
                       /\ serverMapInstance s = serverMapInstance st).
  assert (Ht : forall t s, Inv s -> Inv (set_trace t s)) by (intros; assumption).
  assert (Hm : forall ms s, Inv s -> Inv (set_maps ms s)) by (intros; assumption).
  assert (Hs : forall c f cl s, clients s !! c = Some cl ->
                 serverMap (f cl) = serverMap cl ->
                 Inv s -> Inv (set_clients (<[c := f cl]> (clients s)) s))
    by (intros; assumption).
  assert (H : Inv st) by (split; [exact Hon | reflexivity]).
  change (Inv (exec k st)).
  destruct k; simpl.
  - unfold Engine.InitWhois. rewrite Hon. exact H.
  - exact H.
  - apply (keeps_setters _ Hs c d 0 true); exact H.
  - apply (keeps_setters _ Hs c (fun _ _ _ _ => DialFails ErrDomainEmpty) t true);
      exact H.
  - apply (keeps_setters _ Hs c (fun _ _ _ _ => DialFails ErrDomainEmpty) 0 disabled);
      exact H.
  - apply (keeps_setters _ Hs c (fun _ _ _ _ => DialFails ErrDomainEmpty) 0 disabled);
      exact H.
  - apply (keeps_Whois _ _ _ _ _ _ Ht Hm Hs); exact H.
  - unfold Engine.PackageWhois. destruct (DefaultClient st); [|exact H].
    apply (keeps_Whois _ _ _ _ _ _ Ht Hm Hs); exact H.
Qed.

Lemma once_run ks st :
  onceWhois st = true ->
  onceWhois (run ks st) = true
  /\ serverMapInstance (run ks st) = serverMapInstance st.
Proof.
  revert st. induction ks as [|k ks IH]; intros st Hon; simpl; [auto|].
  destruct (once_exec k st Hon) as (Hon' & Hi).
  destruct (IH _ Hon') as (Hon'' & Hi'). split; [exact Hon''|]. congruence.
Qed.

(** X9: [InitWhois] loads the directory once.  After a first call,
    whatever its file and also when the load failed and the call
    panicked, every later call returns at once and changes nothing: a
    failed initialization cannot be repeated.  The first call sets
    [serverMapInstance] to a new directory that holds what the loader
    made of the file, also when the loader reports an error; from then
    on no call of the package changes [serverMapInstance]. *)
Theorem InitWhois_once f1 f2 st :
  let st1 := snd (InitWhois f1 st) in
  onceWhois st1 = true
  /\ InitWhois f2 st1 = (Returns tt, st1)
  /\ (onceWhois st = false ->
      serverMapInstance st1 = Some (length (maps st))
      /\ maps st1 = maps st ++ [fst (LoadFromFile f1 Directory.NewServerMap)]
      /\ (snd (LoadFromFile f1 Directory.NewServerMap) = None ->
          fst (InitWhois f1 st) = Returns tt)
      /\ (forall err,
            snd (LoadFromFile f1 Directory.NewServerMap) = Some err ->
            exists why, fst (InitWhois f1 st) = Panics why))
  /\ forall ks,
      onceWhois (run ks st1) = true
      /\ serverMapInstance (run ks st1) = serverMapInstance st1.
Proof.
  intros st1.
  assert (Hon : onceWhois st1 = true).
  { subst st1. unfold Engine.InitWhois. destruct (onceWhois st) eqn:E; [exact E|].
    destruct (snd (LoadFromFile f1 Directory.NewServerMap)); reflexivity. }
  split; [exact Hon|]. split; [|split].
  - unfold Engine.InitWhois at 1. rewrite Hon. reflexivity.
  - intros Hoff. subst st1. unfold Engine.InitWhois. rewrite Hoff.
    destruct (snd (LoadFromFile f1 Directory.NewServerMap)) as [e|];
      repeat split; try reflexivity; try discriminate; eauto.
  - intros ks. apply once_run. exact Hon.
Qed.

(** X10: every client made after the first [InitWhois] has the
    directory of that call, whatever calls come in between, and that
    directory holds every entry that the loader made of the file.  The
    client has a timeout of fifteen seconds, and statistics and
    referrals enabled. *)
Theorem clients_after_InitWhois f ks st :
  onceWhois st = false ->
  let st1 := run (CallInitWhois f :: ks) st in
  let loaded := fst (LoadFromFile f Directory.NewServerMap) in
  exists cl m,
    clients (snd (NewClient st1)) !! length (clients st1) = Some cl
    /\ serverMap cl = Some (length (maps st))
    /\ timeout cl = 15000000000%Z
    /\ disableStats cl = false
    /\ disableReferral cl = false
    /\ maps (snd (NewClient st1)) !! length (maps st) = Some m
    /\ Directory.rewriteServers m = Directory.rewriteServers loaded
    /\ forall ext server,
        Directory.whoisServers loaded !! ext = Some server ->
        Directory.whoisServers m !! ext = Some server.
Proof.
  intros Hoff st1 loaded.
  set (st0 := snd (InitWhois f st)).
  assert (Hst1 : st1 = run ks st0) by reflexivity.
  assert (H0 : onceWhois st0 = true /\ serverMapInstance st0 = Some (length (maps st))
               /\ maps st0 = maps st ++ [loaded]).
  { subst st0. unfold Engine.InitWhois. rewrite Hoff.
    destruct (snd (LoadFromFile f Directory.NewServerMap)); repeat split. }
  destruct H0 as (Hon & Hinst & Hmaps).
  destruct (once_run ks st0 Hon) as (_ & Hi).
  destruct (grows_run (length (maps st)) loaded ks st0) as (m & Hm & Hrw & Hsub).
  { exists loaded. rewrite Hmaps, lookup_app_r by lia. rewrite Nat.sub_diag.
    repeat split; auto. }
  rewrite <- Hst1 in Hm, Hi.
  exists {| dialer := netDialer; timeout := defaultElapsedTimeout; elapsed := 0;
            disableStats := false; disableReferral := false;
            serverMap := serverMapInstance st1 |}, m.
  split; [|split; [|split; [reflexivity|split; [reflexivity|split; [reflexivity|
    split; [exact Hm|split; [exact Hrw|]]]]]]].
  - simpl. rewrite lookup_app_r by lia. rewrite Nat.sub_diag. reflexivity.
  - simpl. rewrite Hi. exact Hinst.
  - intros ext server H. eapply lookup_weaken; eauto.
Qed.

End Frames.

(** ** The paths of a call *)

Section Paths.

Variable IsASN : string -> bool.
Variable getExtension : string -> string.
Variable extractHostname : string -> string.
Variable LoadFromFile :
  string -> Directory.serverMap -> Directory.serverMap * option error.
Variable netDialer : Dialer.
Variable now : list event -> Z.
Variable formatTime : Z -> string.

Local Notation rawQuery := (rawQuery IsASN).
Local Notation getServer := (getServer extractHostname).
Local Notation withPrefix := (withPrefix IsASN).
Local Notation resolveServer := (resolveServer IsASN getExtension extractHostname).
Local Notation queryAndRefer := (queryAndRefer IsASN extractHostname).
Local Notation whoisBody := (whoisBody IsASN getExtension extractHostname).
Local Notation deferred := (deferred now formatTime).
Local Notation Whois := (Whois IsASN getExtension extractHostname now formatTime).
Local Notation NewClient := (NewClient netDialer).
Local Notation run :=
  (run IsASN getExtension extractHostname LoadFromFile netDialer now formatTime).
Local Notation exec :=
  (exec IsASN getExtension extractHostname LoadFromFile netDialer now formatTime).
Local Notation queryLine := (queryLine IsASN).
Local Notation rawQueryEvents := (rawQueryEvents IsASN).
Local Notation rawQueryResult := (rawQueryResult IsASN).
Local Notation referral := (referral extractHostname).
Local Notation queryAndReferEvents := (queryAndReferEvents IsASN extractHostname).
Local Notation queryAndReferResult := (queryAndReferResult IsASN extractHostname).
Local Notation formatResult := (formatResult formatTime).

Lemma error_eqb_refl (e : error) : error_eqb e e = true.
Proof.
  induction e as [| |msg|before wrapped IH after]; simpl; try reflexivity.
  - apply String.eqb_refl.
  - rewrite !String.eqb_refl, IH. reflexivity.
Qed.

Lemma errors_Is_refl (e : error) : errors_Is e e = true.
Proof. destruct e; simpl; rewrite ?String.eqb_refl, ?error_eqb_refl; reflexivity. Qed.

Lemma errors_Is_wrap (before after : string) (e target : error) :
  errors_Is e target = true -> errors_Is (Errorf before e after) target = true.
Proof. intros H. simpl. rewrite H. apply orb_true_r. Qed.

Lemma exchange_failure cl hist target port line err :
  snd (fst (Engine.exchange cl hist target port line)) = Some err ->
  fst (fst (Engine.exchange cl hist target port line)) = ""
  /\ exists stage cause,
      err = Errorf ("whois: " +:+ stage +:+ " whois server (" +:+ target
                    +:+ ") failed: ") cause ""
      /\ (stage = "connect to"
          /\ snd (Engine.exchange cl hist target port line) = []
          \/ stage = "send to"
             /\ snd (Engine.exchange cl hist target port line)
                = [EvWrite line; EvClose]
          \/ stage = "read from"
             /\ snd (Engine.exchange cl hist target port line)
                = [EvWrite line; EvReadAll; EvClose]).
Proof.
  unfold Engine.exchange.
  destruct (dialer cl _ _ _ _) as [e|conn]; simpl.
  - intros [= <-]. split; [reflexivity|]. exists "connect to", e. auto.
  - destruct (conn line) as [e|e|buffer]; simpl; intros [= <-];
      (split; [reflexivity|]).
    + exists "send to", e. auto.
    + exists "read from", e. auto 6.
Qed.

Lemma exchange_success cl hist target port line :
  snd (fst (Engine.exchange cl hist target port line)) = None ->
  snd (Engine.exchange cl hist target port line) = [EvWrite line; EvReadAll; EvClose]
  /\ exists conn,
      dialer cl (timeout cl) hist "tcp" (JoinHostPort target port) = Connected conn
      /\ conn line = Reads (fst (fst (Engine.exchange cl hist target port line))).
Proof.
  unfold Engine.exchange.
  destruct (dialer cl _ _ _ _) as [e|conn] eqn:Ed; simpl; [discriminate|].
  destruct (conn line) as [e|e|buffer] eqn:Ec; simpl; try discriminate.
  intros _. split; [reflexivity|]. exists conn. rewrite Ec. auto.
Qed.

(** X11: what a raw query of a client with a directory returns.  When it
    returns an error, the text is empty and the error is one that
    [fmt.Errorf] made for the stage that failed ([connect to], [send to]
    or [read from]); it names the host that was dialled, which is the
    entry of the rewrite table when there is one, and it wraps the error
    of the dialer or of the connection, which [errors.Is] finds.
    Nothing is written when the dial fails; a connection that was made
    is closed at every stage.  When it returns no error, the text is the
    answer that the connection gave to the query line, as it was read. *)
Theorem rawQuery_outcome c cl p m domain server port st text oerr :
  serves c cl p m st ->
  fst (rawQuery c domain server port st) = Returns (text, oerr) ->
  let target := dialTarget m server in
  let line := queryLine domain server in
  let head := [EvRawQuery domain server port; EvGetRewriteServer (Some p) server;
               EvDial "tcp" (JoinHostPort target port)] in
  let evs := eventsOf (rawQuery c domain server port) st in
  match oerr with
  | Some err =>
      text = ""
      /\ exists stage cause,
          err = Errorf ("whois: " +:+ stage +:+ " whois server (" +:+ target
                        +:+ ") failed: ") cause ""
          /\ errors_Is err cause = true
          /\ (stage = "connect to" /\ evs = head
              \/ stage = "send to" /\ evs = head ++ [EvWrite line; EvClose]
              \/ stage = "read from"
                 /\ evs = head ++ [EvWrite line; EvReadAll; EvClose])
  | None =>
      evs = head ++ [EvWrite line; EvReadAll; EvClose]
      /\ exists conn,
          dialer cl (timeout cl) (trace st ++ head) "tcp" (JoinHostPort target port)
          = Connected conn
          /\ conn line = Reads text
  end.
Proof.
  intros Hs Hr target line head evs.
  destruct (rawQuery_run IsASN c cl p m domain server port st Hs)
    as (st' & E & T & _ & _).
  assert (Hevs : evs = rawQueryEvents cl p m (trace st) domain server port)
    by (subst evs; apply (eventsOf_run _ _ _ _ _ E T)).
  rewrite E in Hr. simpl in Hr. injection Hr as Hr.
  unfold Engine.rawQueryResult in Hr. unfold Engine.rawQueryEvents in Hevs.
  fold target line in Hr, Hevs. cbv zeta in Hevs. fold head in Hr, Hevs.
  assert (Ht : text = fst (fst (Engine.exchange cl (trace st ++ head) target port line)))
    by (rewrite Hr; reflexivity).
  assert (He : oerr = snd (fst (Engine.exchange cl (trace st ++ head) target port line)))
    by (rewrite Hr; reflexivity).
  destruct oerr as [err|].
  - destruct (exchange_failure cl (trace st ++ head) target port line err (eq_sym He))
      as (Hempty & stage & cause & Herr & Hstage).
    split; [rewrite Ht; exact Hempty|].
    exists stage, cause. split; [exact Herr|]. split.
    + rewrite Herr. apply errors_Is_wrap, errors_Is_refl.
    + rewrite Hevs.
      destruct Hstage as [(-> & ->) | [(-> & ->) | (-> & ->)]];
        [left; rewrite app_nil_r | right; left | right; right]; auto.
  - destruct (exchange_success cl (trace st ++ head) target port line (eq_sym He))
      as (Hev & conn & Hd & Hc).
    split; [rewrite Hevs, Hev; reflexivity|].
    exists conn. rewrite Ht. auto.
Qed.

Lemma rawQueryResult_failure cl p m hist domain server port err :
  snd (rawQueryResult cl p m hist domain server port) = Some err ->
  fst (rawQueryResult cl p m hist domain server port) = "".
Proof.
  unfold Engine.rawQueryResult. intros H.
  apply (exchange_failure _ _ _ _ _ _ H).
Qed.

Lemma formatResult_empty stats start finish : formatResult stats start finish "" = "".
Proof. reflexivity. Qed.

Lemma referral_none cl r1 server :
  snd r1 <> None \/ disableReferral cl = true
  \/ fst (getServer (fst r1)) = "" \/ fst (getServer (fst r1)) = server ->
  referral cl r1 server = None.
Proof.
  unfold Engine.referral. intros H.
  destruct (snd r1); [reflexivity|].
  destruct (disableReferral cl); [reflexivity|].
  destruct H as [H | [H | [H | H]]]; try congruence.
  - rewrite H. reflexivity.
  - rewrite H, String.eqb_refl, orb_true_r. reflexivity.
Qed.

Lemma queryAndRefer_single cl p m hist domain server port :
  referral cl (rawQueryResult cl p m hist domain server port) server = None ->
  queryAndReferResult cl p m hist domain server port
  = rawQueryResult cl p m hist domain server port
  /\ queryAndReferEvents cl p m hist domain server port
     = rawQueryEvents cl p m hist domain server port.
Proof.
  unfold Engine.queryAndReferResult, Engine.queryAndReferEvents.
  intros ->. auto.
Qed.

(** X12: when the query to the resolved server fails, the call returns
    the empty text, without footer also when statistics are enabled,
    and the error of that query as it is; no referral is looked for, so
    the failed query is the last raw query of the call. *)
Theorem primary_failure c cl p m domain servers server port st st1 err :
  normalize domain <> "" ->
  let d := withPrefix (normalize domain) in
  negb (Contains d ".") && negb (Contains d ":")
  && negb (IsASN (normalize domain)) = false ->
  resolveServer c d servers st = (Returns (inl (server, port)), st1) ->
  serves c cl p m st1 ->
  snd (rawQueryResult cl p m (trace st1) d server port) = Some err ->
  exists st',
    Whois c domain servers st = (Returns ("", Some err), st')
    /\ trace st' = trace st1 ++ rawQueryEvents cl p m (trace st1) d server port
    /\ rawQueries (drop (length (trace st1)) (trace st')) = [(d, server, port)]
    /\ exists stage cause,
        err = Errorf ("whois: " +:+ stage +:+ " whois server ("
                      +:+ dialTarget m server +:+ ") failed: ") cause ""
        /\ errors_Is err cause = true.
Proof.
  intros Hne d Hbare Hres Hs Herr.
  destruct (Whois_resolved IsASN getExtension extractHostname now formatTime
              c cl p m domain servers st server port st1 Hne Hbare Hres Hs)
    as (st' & EW & TW & _).
  fold d in EW, TW.
  assert (Hnone : referral cl (rawQueryResult cl p m (trace st1) d server port) server
                  = None)
    by (apply referral_none; left; rewrite Herr; discriminate).
  destruct (queryAndRefer_single cl p m (trace st1) d server port Hnone) as (HR & HE).
  rewrite HR in EW. rewrite HE in TW.
  rewrite (rawQueryResult_failure _ _ _ _ _ _ _ _ Herr), Herr in EW.
  rewrite formatResult_empty in EW.
  exists st'. split; [exact EW|]. split; [exact TW|]. split.
  - rewrite TW, drop_app_length.
    apply (rawQueryEvents_shape IsASN cl p m (trace st1) d server port).
  - unfold Engine.rawQueryResult in Herr.
    destruct (exchange_failure _ _ _ _ _ _ Herr) as (_ & stage & cause & E & _).
    exists stage, cause. split; [exact E|].
    rewrite E. apply errors_Is_wrap, errors_Is_refl.
Qed.

(** X13: when the query to the resolved server succeeds, no second
    query is made if referrals are disabled, if the answer names no
    referral server, or if it names the server that was just asked:
    the call returns the text of the one query, formatted, and no
    error, and that query is the last raw query of the call. *)
Theorem referral_not_followed c cl p m domain servers server port st st1 :
  normalize domain <> "" ->
  let d := withPrefix (normalize domain) in
  negb (Contains d ".") && negb (Contains d ":")
  && negb (IsASN (normalize domain)) = false ->
  resolveServer c d servers st = (Returns (inl (server, port)), st1) ->
  serves c cl p m st1 ->
  let r1 := rawQueryResult cl p m (trace st1) d server port in
  snd r1 = None ->
  disableReferral cl = true
  \/ fst (getServer (fst r1)) = "" \/ fst (getServer (fst r1)) = server ->
  exists st',
    Whois c domain servers st
    = (Returns (formatResult (negb (disableStats cl)) (now (trace st))
                  (now (trace st')) (fst r1), None), st')
    /\ trace st' = trace st1 ++ rawQueryEvents cl p m (trace st1) d server port
    /\ rawQueries (drop (length (trace st1)) (trace st')) = [(d, server, port)]
    /\ dials (drop (length (trace st1)) (trace st'))
       = [JoinHostPort (dialTarget m server) port].
Proof.
  intros Hne d Hbare Hres Hs r1 Hok Hwhy.
  destruct (Whois_resolved IsASN getExtension extractHostname now formatTime
              c cl p m domain servers st server port st1 Hne Hbare Hres Hs)
    as (st' & EW & TW & _).
  fold d in EW, TW.
  assert (Hnone : referral cl r1 server = None)
    by (apply referral_none; right; exact Hwhy).
  destruct (queryAndRefer_single cl p m (trace st1) d server port Hnone) as (HR & HE).
  rewrite HR in EW. rewrite HE in TW. fold r1 in EW. rewrite Hok in EW.
  exists st'. split; [exact EW|]. split; [exact TW|].
  rewrite TW, drop_app_length.
  destruct (rawQueryEvents_shape IsASN cl p m (trace st1) d server port)
    as (Hq & Hd & _). auto.
Qed.

Lemma resolveServer_override c domain servers st s0 :
  override servers = Some s0 ->
  resolveServer c domain servers st = (Returns (inl (ToLower s0, "43")), st).
Proof. intros H. unfold Engine.resolveServer. rewrite H. reflexivity. Qed.

(** X14: a server named by the caller.  For a query that is not a bare
    label, a first element of [servers] that is not empty is the server
    of the call, in lower case, on port 43: the first raw query goes to
    it, the only other raw query the call can make is the referral, and
    the extension table is neither read nor written.  The elements of
    [servers] after the first play no part.  The name is not split at a
    colon: a name with a port is dialled as a host, in brackets, on
    port 43.  (The name is taken as ASCII text, on which the case
    mapping of the embedding is the one of Go.) *)
Theorem server_named_by_caller c cl p m domain s0 others st :
  normalize domain <> "" ->
  let d := withPrefix (normalize domain) in
  negb (Contains d ".") && negb (Contains d ":")
  && negb (IsASN (normalize domain)) = false ->
  s0 <> "" ->
  isASCII s0 = true ->
  serves c cl p m st ->
  let server := ToLower s0 in
  let evs := eventsOf (Whois c domain (s0 :: others)) st in
  let r1 := rawQueryResult cl p m (trace st) d server "43" in
  Whois c domain (s0 :: others) st = Whois c domain [s0] st
  /\ rawQueries evs
     = (d, server, "43")
         :: match referral cl r1 server with
            | None => []
            | Some ref => [(d, fst ref, snd ref)]
            end
  /\ directoryLookups evs = []
  /\ directoryWrites evs = []
  /\ (exists more, dials evs = JoinHostPort (dialTarget m server) "43" :: more)
  /\ (Contains server ":" = true ->
      Directory.rewriteServers m !! server = None ->
      exists more, dials evs = ("[" +:+ server +:+ "]:43") :: more).
Proof.
  intros Hne d Hbare Hs0 Hascii Hs server evs r1.
  assert (Ho : override (s0 :: others) = Some s0)
    by (unfold override; rewrite (eqb_empty_false _ Hs0); reflexivity).
  pose proof (resolveServer_override c d (s0 :: others) st s0 Ho) as Hres.
  destruct (Whois_resolved IsASN getExtension extractHostname now formatTime
              c cl p m domain (s0 :: others) st server "43" st Hne Hbare Hres Hs)
    as (st' & EW & TW & _).
  fold d in EW, TW.
  assert (Hevs : evs = queryAndReferEvents cl p m (trace st) d server "43")
    by (subst evs; apply (eventsOf_run _ _ _ _ _ EW TW)).
  destruct (queryAndReferEvents_shape IsASN extractHostname cl p m (trace st) d server "43")
    as (Hq & Hl).
  assert (Hd : exists more,
             dials (queryAndReferEvents cl p m (trace st) d server "43")
             = JoinHostPort (dialTarget m server) "43" :: more).
  { unfold Engine.queryAndReferEvents.
    destruct (rawQueryEvents_shape IsASN cl p m (trace st) d server "43")
      as (_ & Hd1 & _).
    destruct (referral cl _ server) as [ref|]; [|eauto].
    unfold dials in *. rewrite omap_app, Hd1. simpl. eauto. }
  assert (Hw : directoryWrites (queryAndReferEvents cl p m (trace st) d server "43") = []).
  { assert (Hnone : forall l, directoryLookups l = [] -> directoryWrites l = []).
    { induction l as [|e l IH]; [reflexivity|].
      destruct e; simpl; intros H; try discriminate; apply IH; exact H. }
    apply Hnone. exact Hl. }
  split; [reflexivity|]. rewrite Hevs.
  split; [exact Hq|]. split; [exact Hl|]. split; [exact Hw|]. split; [exact Hd|].
  intros Hcolon Hrw. destruct Hd as (more & Hd). exists more. rewrite Hd.
  unfold dialTarget, JoinHostPort. rewrite Hrw, Hcolon. reflexivity.
Qed.

(** X15: when the query to the root server fails, the call fails with
    it: it returns the empty text and an error [whois: query for whois
    server failed:] that wraps the error of the raw query, and through
    it the error of the dialer or of the connection; the root query is
    the only raw query, and the extension table is read once and not
    written. *)
Theorem discovery_failure c cl p m domain servers st err :
  normalize domain <> "" ->
  let d := withPrefix (normalize domain) in
  negb (Contains d ".") && negb (Contains d ":")
  && negb (IsASN (normalize domain)) = false ->
  override servers = None ->
  serves c cl p m st ->
  let ext := getExtension d in
  let lookup := EvGetWhoisServer (Some p) ext in
  Directory.whoisServers m !! ext = None ->
  snd (rawQueryResult cl p m (trace st ++ [lookup]) ext "whois.iana.org" "43")
  = Some err ->
  let evs := eventsOf (Whois c domain servers) st in
  let failure := Errorf "whois: query for whois server failed: " err "" in
  fst (Whois c domain servers st) = Returns ("", Some failure)
  /\ errors_Is failure err = true
  /\ (exists stage cause,
        err = Errorf ("whois: " +:+ stage +:+ " whois server ("
                      +:+ dialTarget m "whois.iana.org" +:+ ") failed: ") cause ""
        /\ errors_Is failure cause = true)
  /\ rawQueries evs = [(ext, "whois.iana.org", "43")]
  /\ directoryLookups evs = [lookup]
  /\ serves c cl p m (snd (Whois c domain servers st)).
Proof.
  intros Hne d Hbare Ho Hs ext lookup Hv Herr evs failure.
  destruct (resolveServer_discover IsASN getExtension extractHostname
              c cl p m d servers st Hs Ho Hv) as (st1 & T1 & Hcase).
  fold ext lookup in T1, Hcase. rewrite Herr in T1, Hcase.
  destruct Hcase as (Hres & S1). rewrite app_nil_r in T1.
  assert (EW : Whois c domain servers st = (Returns ("", Some failure), st1)).
  { unfold Engine.Whois, bind.
    rewrite (whoisBody_early IsASN getExtension extractHostname
               c domain servers st _ st1 Hne Hbare Hres).
    rewrite (deferred_run now formatTime c cl p m _ _ st1 S1). reflexivity. }
  assert (Hevs : evs = lookup :: rawQueryEvents cl p m (trace st ++ [lookup]) ext
                                   "whois.iana.org" "43").
  { subst evs. apply (eventsOf_run _ _ _ _ _ EW). rewrite T1, <- app_assoc.
    reflexivity. }
  destruct (rawQueryEvents_shape IsASN cl p m (trace st ++ [lookup]) ext
              "whois.iana.org" "43") as (Hq & _ & Hl & _).
  rewrite EW. split; [reflexivity|]. split.
  { apply errors_Is_wrap, errors_Is_refl. }
  split.
  { unfold Engine.rawQueryResult in Herr.
    destruct (exchange_failure _ _ _ _ _ _ Herr) as (_ & stage & cause & E & _).
    exists stage, cause. split; [exact E|].
    apply errors_Is_wrap. rewrite E. apply errors_Is_wrap, errors_Is_refl. }
  rewrite Hevs. split; [exact Hq|]. split; [|exact S1].
  change (directoryLookups (lookup :: ?l)) with (lookup :: directoryLookups l).
  rewrite Hl. reflexivity.
Qed.

(** X16: the directory is shared by the clients that hold it.  When a
    call of one client finds the server of an extension at the root
    server, the call asks that server on the port that the root server
    gave, and the directory keeps the server alone, without the port:
    after any further calls to the package, a call of another client
    with the same directory, for a query with that extension, asks the
    server at once, on port 43, without a query to the root server. *)
Theorem directory_is_shared c1 c2 cl1 cl2 p m domain1 servers1 st :
  normalize domain1 <> "" ->
  let d1 := withPrefix (normalize domain1) in
  Contains d1 "." = true ->
  override servers1 = None ->
  serves c1 cl1 p m st ->
  serves c2 cl2 p m st ->
  let ext := getExtension d1 in
  let lookup := EvGetWhoisServer (Some p) ext in
  Directory.whoisServers m !! ext = None ->
  let r0 := rawQueryResult cl1 p m (trace st ++ [lookup]) ext "whois.iana.org" "43" in
  snd r0 = None ->
  let s := fst (getServer (fst r0)) in
  s <> "" ->
  let st' := snd (Whois c1 domain1 servers1 st) in
  (exists refs,
      rawQueries (eventsOf (Whois c1 domain1 servers1) st)
      = (ext, "whois.iana.org", "43") :: (d1, s, snd (getServer (fst r0))) :: refs)
  /\ directoryWrites (eventsOf (Whois c1 domain1 servers1) st) = [(ext, s)]
  /\ forall ks domain2 servers2,
      normalize domain2 <> "" ->
      let d2 := withPrefix (normalize domain2) in
      Contains d2 "." = true ->
      getExtension d2 = ext ->
      override servers2 = None ->
      let evs2 := eventsOf (Whois c2 domain2 servers2) (run ks st') in
      directoryLookups evs2 = [lookup]
      /\ exists refs,
          rawQueries evs2 = (d2, s, "43") :: refs /\ (length refs <= 1)%nat.
Proof.
  intros Hne d1 Hdot Ho Hs1 Hs2 ext lookup Hv r0 Herr s Hfound st'.
  destruct (resolveServer_discover IsASN getExtension extractHostname
              c1 cl1 p m d1 servers1 st Hs1 Ho Hv) as (st1 & T1 & Hcase).
  fold ext lookup r0 in T1, Hcase. rewrite Herr in T1, Hcase. fold s in T1, Hcase.
  rewrite (eqb_empty_false _ Hfound) in T1, Hcase.
  destruct Hcase as (Hres & S1).
  rewrite (surjective_pairing (getServer (fst r0))) in Hres. fold s in Hres.
  set (ev0 := rawQueryEvents cl1 p m (trace st ++ [lookup]) ext "whois.iana.org" "43")
    in *.
  destruct (Whois_resolved IsASN getExtension extractHostname now formatTime
              c1 cl1 p _ domain1 servers1 st _ _ st1 Hne
              (dotted_not_bare _ _ Hdot) Hres S1) as (st2 & EW & TW & SW).
  fold d1 in EW, TW.
  set (m1 := Directory.insertWhoisServer m ext s) in *.
  set (ev2 := queryAndReferEvents cl1 p m1 (trace st1) d1 s (snd (getServer (fst r0))))
    in *.
  assert (Hst' : st' = st2) by (subst st'; rewrite EW; reflexivity).
  assert (Hevs : eventsOf (Whois c1 domain1 servers1) st
                 = lookup :: ev0 ++ EvSetWhoisServer (Some p) ext s :: ev2).
  { apply (eventsOf_run _ _ _ _ _ EW). rewrite TW, T1, <- !app_assoc. reflexivity. }
  destruct (rawQueryEvents_shape IsASN cl1 p m (trace st ++ [lookup]) ext
              "whois.iana.org" "43") as (Hq0 & _ & Hl0 & _).
  fold ev0 in Hq0, Hl0.
  destruct (queryAndReferEvents_shape IsASN extractHostname cl1 p m1 (trace st1) d1 s
              (snd (getServer (fst r0)))) as (Hq2 & Hl2).
  fold ev2 in Hq2, Hl2.
  assert (Hnone : forall l, directoryLookups l = [] -> directoryWrites l = []).
  { induction l as [|e l IH]; [reflexivity|].
    destruct e; simpl; intros H; try discriminate; apply IH; exact H. }
  split; [|split].
  - rewrite Hevs.
    change (rawQueries (lookup :: ?l)) with (rawQueries l).
    unfold rawQueries. rewrite omap_app. fold (rawQueries ev0). rewrite Hq0.
    change (omap ?f (EvSetWhoisServer (Some p) ext s :: ev2)) with (rawQueries ev2).
    rewrite Hq2. simpl. eauto.
  - rewrite Hevs.
    change (directoryWrites (lookup :: ?l)) with (directoryWrites l).
    unfold directoryWrites. rewrite omap_app. fold (directoryWrites ev0).
    rewrite (Hnone _ Hl0).
    change (omap ?f (EvSetWhoisServer (Some p) ext s :: ev2))
      with ((ext, s) :: directoryWrites ev2).
    rewrite (Hnone _ Hl2). reflexivity.
  - intros ks domain2 servers2 Hne2 d2 Hdot2 Hext2 Ho2 evs2. subst evs2.
    rewrite Hst'.
    assert (Hmemo : memo p ext s (run ks st2)).
    { apply memo_run. destruct SW as (_ & _ & Hm1). exists m1.
      split; [exact Hm1 | apply lookup_insert_eq]. }
    assert (Hholds : holds c2 (Some p) (run ks st2)).
    { apply holds_run.
      assert (H2 : holds c2 (Some p) st)
        by (destruct (serves_client _ _ _ _ _ Hs2) as (x & Hx & _ & _ & Hp); exists x; auto).
      pose proof (holds_exec IsASN getExtension extractHostname LoadFromFile netDialer
                    now formatTime c2 (Some p) (CallWhois c1 domain1 servers1) st H2)
        as H2'.
      simpl in H2'. rewrite EW in H2'. exact H2'. }
    destruct Hmemo as (m2 & Hm2 & Hs).
    destruct Hholds as (x2 & Hx2 & Hp2).
    assert (S2 : serves c2 x2 p m2 (run ks st2))
      by (split; [exists x2; auto | split; assumption]).
    assert (Hv2 : Directory.whoisServers m2
                    !! getExtension (withPrefix (normalize domain2)) = Some s)
      by (fold d2; rewrite Hext2; exact Hs).
    destruct (Whois_cached IsASN getExtension extractHostname now formatTime
                c2 x2 p m2 domain2 servers2 (run ks st2) s Hne2 Hdot2 Ho2 S2 Hv2)
      as (Hq & Hl & _).
    fold d2 in Hq, Hl. rewrite Hext2 in Hq, Hl. fold lookup in Hq, Hl.
    split; [exact Hl|]. eexists. split; [exact Hq|].
    destruct (referral x2 _ s); simpl; lia.
Qed.

(** X17: every query that is no bare label is resolved through the
    directory, under its extension: an ASN and an address with colons
    as well as a name with dots.  Without a server named by the caller,
    the call starts with the lookup of the extension; with an entry, the
    first raw query goes to the server of the entry on port 43 and the
    table is not written; without one, the first raw query sends the
    extension to the root server. *)
Theorem resolution_of_every_query c cl p m domain servers st :
  normalize domain <> "" ->
  let d := withPrefix (normalize domain) in
  Contains d "." = true \/ Contains d ":" = true \/ IsASN (normalize domain) = true ->
  override servers = None ->
  serves c cl p m st ->
  let ext := getExtension d in
  let lookup := EvGetWhoisServer (Some p) ext in
  let evs := eventsOf (Whois c domain servers) st in
  match Directory.whoisServers m !! ext with
  | Some v =>
      exists rest,
        evs = lookup :: rest
        /\ rawQueries rest
           = (d, v, "43")
               :: match referral cl (rawQueryResult cl p m (trace st ++ [lookup])
                                       d v "43") v with
                  | None => []
                  | Some ref => [(d, fst ref, snd ref)]
                  end
        /\ directoryWrites rest = []
  | None =>
      exists more,
        evs = lookup :: rawQueryEvents cl p m (trace st ++ [lookup]) ext
                          "whois.iana.org" "43" ++ more
  end.
Proof.
  intros Hne d Hkind Ho Hs ext lookup evs.
  assert (Hbare : negb (Contains d ".") && negb (Contains d ":")
                  && negb (IsASN (normalize domain)) = false).
  { destruct Hkind as [-> | [-> | ->]]; rewrite ?andb_false_r; reflexivity. }
  assert (Hnone : forall l, directoryLookups l = [] -> directoryWrites l = []).
  { induction l as [|e l IH]; [reflexivity|].
    destruct e; simpl; intros H; try discriminate; apply IH; exact H. }
  destruct (Directory.whoisServers m !! ext) as [v|] eqn:Hv.
  - pose proof (resolveServer_cached IsASN getExtension extractHostname c cl p m d servers st v Hs Ho Hv)
      as Hres.
    destruct (Whois_resolved IsASN getExtension extractHostname now formatTime
                c cl p m domain servers st v "43" _ Hne Hbare Hres
                (serves_trace _ _ _ _ _ _ Hs)) as (st' & EW & TW & _).
    simpl in TW. fold d ext lookup in TW.
    exists (queryAndReferEvents cl p m (trace st ++ [lookup]) d v "43").
    destruct (queryAndReferEvents_shape IsASN extractHostname cl p m
                (trace st ++ [lookup]) d v "43") as (Hq & Hl).
    split; [|split; [exact Hq | apply Hnone; exact Hl]].
    subst evs. apply (eventsOf_run _ _ _ _ _ EW). rewrite TW, <- app_assoc.
    reflexivity.
  - destruct (resolveServer_discover IsASN getExtension extractHostname
                c cl p m d servers st Hs Ho Hv) as (st1 & T1 & Hcase).
    fold ext lookup in T1, Hcase.
    set (r0 := rawQueryResult cl p m (trace st ++ [lookup]) ext "whois.iana.org" "43")
      in *.
    set (ev0 := rawQueryEvents cl p m (trace st ++ [lookup]) ext "whois.iana.org" "43")
      in *.
    clearbody ev0.
    assert (Hearly : forall early,
               resolveServer c d servers st = (Returns (inr early), st1) ->
               serves c cl p m st1 ->
               fst early = "" ->
               Whois c domain servers st = (Returns ("", snd early), st1)).
    { intros early Hres S1 He. unfold Engine.Whois, bind.
      rewrite (whoisBody_early IsASN getExtension extractHostname
                 c domain servers st early st1 Hne Hbare Hres).
      rewrite (deferred_run now formatTime c cl p m _ _ st1 S1), He. reflexivity. }
    destruct (snd r0) as [err|] eqn:Herr.
    + destruct Hcase as (Hres & S1).
      exists []. subst evs. apply (eventsOf_run _ _ _ _ _ (Hearly _ Hres S1 eq_refl)).
      rewrite T1, <- !app_assoc. reflexivity.
    + destruct (String.eqb (fst (getServer (fst r0))) "") eqn:Hempty.
      * destruct Hcase as (Hres & S1).
        exists []. subst evs. apply (eventsOf_run _ _ _ _ _ (Hearly _ Hres S1 eq_refl)).
        rewrite T1, <- !app_assoc. reflexivity.
      * destruct Hcase as (Hres & S1).
        rewrite (surjective_pairing (getServer (fst r0))) in Hres.
        destruct (Whois_resolved IsASN getExtension extractHostname now formatTime
                    c cl p _ domain servers st _ _ st1 Hne Hbare Hres S1)
          as (st' & EW & TW & _).
        eexists. subst evs. apply (eventsOf_run _ _ _ _ _ EW).
        rewrite TW, T1, <- !app_assoc. reflexivity.
Qed.

Lemma serves_store c cl p m st (f : Client -> Client) :
  serves c cl p m st ->
  serverMap (f cl) = serverMap cl ->
  (forall a b, atRest a = atRest b -> atRest (f a) = atRest (f b)) ->
  exists st',
    (store c f ;;; ret c) st = (Returns c, st')
    /\ serves c (f cl) p m st'
    /\ trace st' = trace st /\ maps st' = maps st
    /\ forall c', c' <> c -> clients st' !! c' = clients st !! c'.
Proof.
  intros ((x & Hx & Hrest) & Hp & Hm) Hf Hcong.
  unfold bind, store, ret. rewrite Hx. eexists. split; [reflexivity|].
  simpl. split; [|split; [reflexivity|split; [reflexivity|]]].
  - split; [|split; [rewrite Hf; exact Hp | exact Hm]].
    exists (f x). simpl.
    rewrite list_lookup_insert_eq by (eapply lookup_lt_Some; eauto).
    split; [reflexivity | apply Hcong; exact Hrest].
  - intros c' Hne. apply list_lookup_insert_ne. congruence.
Qed.

(** X18: the setters configure the next queries.  Each setter returns
    its receiver, so the calls chain; after the four of them the client
    has the dialer, the timeout and the flags that were set and the
    directory it had; the trace, the directories and the other clients
    are as before.  A raw query of the client then dials through the
    dialer that was set, with the timeout that was set: it fails with
    the error of that dialer, and returns what the connection of that
    dialer answers. *)
Theorem setters_configure c cl p m d t bs br st :
  serves c cl p m st ->
  let st' := run [CallSetDialer c d; CallSetTimeout c t;
                  CallSetDisableStats c bs; CallSetDisableReferral c br] st in
  let cl' := {| dialer := d; timeout := t; elapsed := 0;
                disableStats := bs; disableReferral := br;
                serverMap := Some p |} in
  (fst (SetDialer c d st) = Returns c
   /\ fst (SetTimeout c t st) = Returns c
   /\ fst (SetDisableStats c bs st) = Returns c
   /\ fst (SetDisableReferral c br st) = Returns c)
  /\ serves c cl' p m st'
  /\ trace st' = trace st
  /\ maps st' = maps st
  /\ (forall c', c' <> c -> clients st' !! c' = clients st !! c')
  /\ forall domain server port,
      let target := dialTarget m server in
      let hist := trace st ++ [EvRawQuery domain server port;
                               EvGetRewriteServer (Some p) server;
                               EvDial "tcp" (JoinHostPort target port)] in
      match d t hist "tcp" (JoinHostPort target port) with
      | DialFails e =>
          fst (rawQuery c domain server port st')
          = Returns ("", Some (Errorf ("whois: connect to whois server ("
                                       +:+ target +:+ ") failed: ") e ""))
      | Connected conn =>
          forall text,
            conn (queryLine domain server) = Reads text ->
            fst (rawQuery c domain server port st') = Returns (text, None)
      end.
Proof.
  intros Hs st' cl'.
  assert (Hcong : forall f : Client -> Client,
             (forall a, atRest (f a) = f (atRest a)) ->
             forall a b, atRest a = atRest b -> atRest (f a) = atRest (f b))
    by (intros f Hf a b E; rewrite !Hf, E; reflexivity).
  pose proof (serves_client _ _ _ _ _ Hs) as (x & Hx & _ & _ & Hpx).
  pose proof Hs as (_ & Hp & _).
  pose (f1 := fun a : Client =>
                {| dialer := d; timeout := timeout a; elapsed := elapsed a;
                   disableStats := disableStats a;
                   disableReferral := disableReferral a;
                   serverMap := serverMap a |}).
  pose (f2 := fun a : Client =>
                {| dialer := dialer a; timeout := t; elapsed := elapsed a;
                   disableStats := disableStats a;
                   disableReferral := disableReferral a;
                   serverMap := serverMap a |}).
  pose (f3 := fun a : Client =>
                {| dialer := dialer a; timeout := timeout a; elapsed := elapsed a;
                   disableStats := bs;
                   disableReferral := disableReferral a;
                   serverMap := serverMap a |}).
  pose (f4 := fun a : Client =>
                {| dialer := dialer a; timeout := timeout a; elapsed := elapsed a;
                   disableStats := disableStats a;
                   disableReferral := br;
                   serverMap := serverMap a |}).
  destruct (serves_store c cl p m st f1 Hs eq_refl (Hcong f1 (fun a => eq_refl)))
    as (s1 & E1 & S1 & T1 & M1 & O1).
  destruct (serves_store c _ p m s1 f2 S1 eq_refl (Hcong f2 (fun a => eq_refl)))
    as (s2 & E2 & S2 & T2 & M2 & O2).
  destruct (serves_store c _ p m s2 f3 S2 eq_refl (Hcong f3 (fun a => eq_refl)))
    as (s3 & E3 & S3 & T3 & M3 & O3).
  destruct (serves_store c _ p m s3 f4 S3 eq_refl (Hcong f4 (fun a => eq_refl)))
    as (s4 & E4 & S4 & T4 & M4 & O4).
  assert (Hst' : st' = s4).
  { subst st'. unfold Engine.run, Engine.exec, fold_left.
    unfold SetDialer, SetTimeout, SetDisableStats, SetDisableReferral.
    fold f1 f2 f3 f4. rewrite E1. cbn [snd]. rewrite E2. cbn [snd].
    rewrite E3. cbn [snd]. rewrite E4. reflexivity. }
  assert (S' : serves c cl' p m st').
  { rewrite Hst'. destruct S4 as ((y & Hy & Hrest) & _ & Hm4).
    split; [|split; [reflexivity | exact Hm4]].
    exists y. split; [exact Hy|]. rewrite Hrest. unfold atRest. simpl.
    rewrite Hp. reflexivity. }
  split.
  { unfold SetDialer, SetTimeout, SetDisableStats, SetDisableReferral, bind, store, ret.
    rewrite Hx. auto. }
  split; [exact S'|]. rewrite Hst'.
  split; [congruence|]. split; [congruence|]. split.
  { intros c' Hne. rewrite O4, O3, O2, O1 by exact Hne. reflexivity. }
  intros domain server port target hist. rewrite <- Hst'.
  destruct (rawQuery_run IsASN c cl' p m domain server port st' S')
    as (st'' & E & _).
  rewrite E. simpl. unfold Engine.rawQueryResult, Engine.exchange.
  assert (Ht : trace st' = trace st) by (rewrite Hst'; congruence).
  rewrite Ht. fold target. fold hist. simpl.
  destruct (d t hist "tcp" (JoinHostPort target port)) as [e|conn]; [reflexivity|].
  intros text Hc. unfold Engine.queryLine in *. rewrite Hc. reflexivity.
Qed.

End Paths.

(** ** Padded values *)

Section Padding.

Lemma trimRunes_pad (one : ascii -> bool) (two : ascii -> ascii -> bool)
    (three : ascii -> ascii -> ascii -> bool) (pad rest : string) :
  allBytes one pad = true ->
  trimRunes one two three (pad +:+ rest) = trimRunes one two three rest.
Proof.
  induction pad as [|b pad IH]; intros H; [reflexivity|].
  simpl in H. apply andb_true_iff in H. destruct H as [Hb Hp].
  rewrite append_cons. cbn [trimRunes]. rewrite Hb. apply IH. exact Hp.
Qed.

(** An ASCII white-space byte is no part of a white-space rune of two
    or three bytes. *)
Lemma space_byte_alone (t : ascii) :
  isAsciiSpace t = true ->
  (forall b1, isSpace2 b1 t = false)
  /\ (forall b1 b2, isSpace3 b1 b2 t = false)
  /\ (forall b1 b3, isSpace3 b1 t b3 = false).
Proof.
  destruct t as [[] [] [] [] [] [] [] []]; intros H; try discriminate H;
    (split; [|split]); intros; unfold isSpace2, isSpace3;
    match goal with
    | |- context [nat_of_ascii (Ascii ?a ?b ?c ?d ?e ?f ?g ?h)] =>
        let n := eval vm_compute in (nat_of_ascii (Ascii a b c d e f g h)) in
        change (nat_of_ascii (Ascii a b c d e f g h)) with n
    end;
    cbn [Nat.eqb Nat.leb andb orb];
    rewrite ?andb_false_r; reflexivity.
Qed.

Lemma startsWithSpace_tail (value tail : string) :
  value <> "" ->
  allBytes isAsciiSpace tail = true ->
  startsWithSpace value = false ->
  startsWithSpace (value +:+ tail) = false.
Proof.
  intros Hne Ht Hv. unfold startsWithSpace in *.
  destruct value as [|b1 [|b2 [|b3 value]]]; [contradiction| | |exact Hv].
  - rewrite append_cons, append_nil_l. simpl in Hv. rewrite orb_false_r in Hv.
    destruct tail as [|t1 tail]; simpl; [rewrite Hv; reflexivity|].
    simpl in Ht. apply andb_true_iff in Ht. destruct Ht as [Ht1 Ht].
    destruct (space_byte_alone t1 Ht1) as (H2 & _ & H3).
    rewrite Hv, H2. destruct tail; simpl; [reflexivity | apply H3].
  - rewrite !append_cons, append_nil_l. simpl in Hv.
    rewrite orb_false_r in Hv. apply orb_false_iff in Hv. destruct Hv as [H1 H2].
    destruct tail as [|t1 tail]; simpl; [rewrite H1, H2; reflexivity|].
    simpl in Ht. apply andb_true_iff in Ht. destruct Ht as [Ht1 Ht].
    destruct (space_byte_alone t1 Ht1) as (_ & H3 & _).
    rewrite H1, H2, H3. reflexivity.
Qed.

(** What [strings.TrimSpace] makes of a value between blanks, tabs and
    carriage returns. *)
Lemma TrimSpace_padded (pad value tail : string) :
  allBytes isAsciiSpace pad = true ->
  allBytes isAsciiSpace tail = true ->
  startsWithSpace value = false ->
  endsWithSpace value = false ->
  TrimSpace (pad +:+ value +:+ tail) = value.
Proof.
  intros Hp Ht Hs He. unfold TrimSpace, trimLeftSpace.
  rewrite (trimRunes_pad _ _ _ pad _ Hp).
  destruct value as [|b value].
  - rewrite append_nil_l.
    rewrite <- (append_nil_r tail) at 1. rewrite (trimRunes_pad _ _ _ tail "" Ht).
    reflexivity.
  - rewrite (trimRunes_fixed _ _ _ _
               (startsWithSpace_tail (String b value) tail ltac:(discriminate) Ht Hs)).
    unfold trimRightSpace, trimLeftSpaceRev. rewrite reverse_app.
    rewrite trimRunes_pad by (rewrite allBytes_reverse; exact Ht).
    rewrite (trimRunes_fixed _ _ _ _ He). apply reverse_involutive.
Qed.

End Padding.

Section Taxonomy.

Variable IsASN : string -> bool.
Variable getExtension : string -> string.
Variable extractHostname : string -> string.
Variable now : list event -> Z.
Variable formatTime : Z -> string.

Local Notation rawQuery := (rawQuery IsASN).
Local Notation getServer := (getServer extractHostname).
Local Notation withPrefix := (withPrefix IsASN).
Local Notation resolveServer := (resolveServer IsASN getExtension extractHostname).
Local Notation queryAndRefer := (queryAndRefer IsASN extractHostname).
Local Notation whoisBody := (whoisBody IsASN getExtension extractHostname).
Local Notation deferred := (deferred now formatTime).
Local Notation Whois := (Whois IsASN getExtension extractHostname now formatTime).

(** X19: the value of a token between padding and a line end.  In an
    answer as the registries write it, with blanks or tabs after the
    token and a carriage return before the line feed, the server is the
    value itself: neither the padding nor the carriage return is part
    of it. *)
Theorem getServer_padded_value data before token after pre pad value tail rest :
  tokens = before ++ token :: after ->
  Forall (fun t => Index data t = (-1)%Z) before ->
  data = pre +:+ token +:+ (pad +:+ value +:+ tail) +:+ rest ->
  Index data token = len pre ->
  allBytes isAsciiSpace pad = true ->
  allBytes isAsciiSpace tail = true ->
  Contains (pad +:+ value +:+ tail) LF = false ->
  rest = "" \/ HasPrefix rest LF = true ->
  startsWithSpace value = false ->
  endsWithSpace value = false ->
  getServer data = hostPort (extractHostname value).
Proof.
  intros Htok Hb Hd Hi Hp Ht Hlf Hr Hs He.
  unfold Engine.getServer. rewrite Htok.
  rewrite getServerIn_first; [|exact Hb|rewrite Hi; unfold len; lia].
  rewrite Hi.
  rewrite (serverAt_value extractHostname data pre token _ rest Hd Hlf Hr).
  rewrite (TrimSpace_padded pad value tail Hp Ht Hs He). reflexivity.
Qed.

Lemma rawQuery_error_kind c domain server port st r st' :
  rawQuery c domain server port st = (Returns r, st') ->
  match snd r with
  | Some e => isQueryError e /\ fst r = ""
  | None => True
  end.
Proof.
  unfold Engine.rawQuery, resetElapsed, GetRewriteServer, dialContext,
    bind, emit, store, load, deref, ret.
  intros H. run_cases; try exact I;
    (split; [|reflexivity]); unfold isQueryError.
  all: first
    [ exists "connect to"; eexists _, _; split; [simpl; auto | reflexivity]
    | exists "send to"; eexists _, _; split; [simpl; auto | reflexivity]
    | exists "read from"; eexists _, _; split; [simpl; auto | reflexivity] ].
Qed.

Lemma queryAndRefer_error_kind c domain server port st r st' e :
  queryAndRefer c domain server port st = (Returns r, st') ->
  snd r = Some e -> isQueryError e.
Proof.
  unfold Engine.queryAndRefer, bind, load, ret.
  intros H He. run_cases;
    repeat match goal with
           | H : rawQuery _ _ _ _ _ = (Returns _, _) |- _ =>
               apply rawQuery_error_kind in H
           end;
    repeat match goal with
           | H : snd ?a = _, H' : match snd ?a with _ => _ end |- _ =>
               rewrite H in H'
           end;
    simpl in *; try discriminate;
    match goal with
    | H : isQueryError ?x /\ _ |- isQueryError ?y => destruct H as [H _]; congruence
    end.
Qed.

Lemma resolveServer_error_kind c domain servers st r st' :
  resolveServer c domain servers st = (Returns (inr r), st') ->
  fst r = ""
  /\ ((exists e, snd r = Some (Errorf "whois: query for whois server failed: " e "")
                 /\ isQueryError e)
      \/ snd r = Some (Errorf "" ErrWhoisServerNotFound (": " +:+ domain))).
Proof.
  unfold Engine.resolveServer, GetWhoisServer, SetWhoisServer, bind, emit, load,
    deref, ret, panic.
  intros H. run_cases; (split; [reflexivity|]); try (right; reflexivity).
  all: left; eexists; split; [reflexivity|].
  all: match goal with
       | H : rawQuery _ _ _ _ _ = (Returns ?q, _), E : snd ?q = Some _ |- _ =>
           apply rawQuery_error_kind in H; rewrite E in H; exact (proj1 H)
       end.
Qed.

Lemma deferred_empty c start r st :
  fst r = "" -> deferred c start r st = (Returns ("", snd r), st).
Proof. intros H. unfold Engine.deferred. rewrite H. reflexivity. Qed.

(** X20: the errors of [Whois].  When a call returns an error, it is
    one of four: [ErrDomainEmpty], for a query whose normal form is
    empty, and then nothing was done; the error [whois: query for whois
    server failed:] around the error of the raw query to the root
    server; the error that wraps [ErrWhoisServerNotFound] and ends with
    the query; or the error of a raw query to the server or to the
    referral server, as it is.  With the first three the text is
    empty. *)
Theorem Whois_errors c domain servers st text err st' :
  Whois c domain servers st = (Returns (text, Some err), st') ->
  (normalize domain = "" /\ err = ErrDomainEmpty /\ text = "" /\ st' = st)
  \/ (normalize domain <> ""
      /\ ((exists e,
              err = Errorf "whois: query for whois server failed: " e ""
              /\ isQueryError e /\ text = "")
          \/ (err = Errorf "" ErrWhoisServerNotFound
                      (": " +:+ withPrefix (normalize domain))
              /\ errors_Is err ErrWhoisServerNotFound = true
              /\ text = "")
          \/ isQueryError err)).
Proof.
  unfold Engine.Whois, bind.
  destruct (whoisBody c domain servers st) as [[r|why] st1] eqn:EB; [|discriminate].
  intros HD. pose proof (deferred_error now formatTime _ _ _ _ _ _ HD) as (Herr & ->).
  simpl in Herr.
  unfold Engine.whoisBody in EB.
  destruct (String.eqb_spec (normalize domain) "") as [Hempty|Hne].
  - left. injection EB as <- <-. rewrite deferred_empty in HD by reflexivity.
    injection HD as <- <-. auto.
  - right. split; [exact Hne|]. cbv zeta in EB.
    destruct (negb _ && negb _ && negb _).
    + right. right. apply rawQuery_error_kind in EB. rewrite <- Herr in EB.
      exact (proj1 EB).
    + unfold bind, ret in EB.
      destruct (resolveServer c _ servers st) as [[[[server port] | early] | why] st0]
        eqn:ER; [| |discriminate].
      * right. right. eapply queryAndRefer_error_kind; eauto.
      * injection EB as <- <-.
        destruct (resolveServer_error_kind _ _ _ _ _ _ ER) as (Htext & Hkind).
        rewrite deferred_empty in HD by exact Htext.
        injection HD as <- _.
        destruct Hkind as [(e & He & Hq) | He]; rewrite He in Herr;
          injection Herr as ->; [left; eauto | right; left; auto].
Qed.

End Taxonomy.

(** ** The paths of a call, all of them *)

Section AllPaths.

Variable IsASN : string -> bool.
Variable getExtension : string -> string.
Variable extractHostname : string -> string.
Variable LoadFromFile :
  string -> Directory.serverMap -> Directory.serverMap * option error.
Variable netDialer : Dialer.
Variable now : list event -> Z.
Variable formatTime : Z -> string.

Local Notation rawQuery := (rawQuery IsASN).
Local Notation getServer := (getServer extractHostname).
Local Notation withPrefix := (withPrefix IsASN).
Local Notation resolveServer := (resolveServer IsASN getExtension extractHostname).
Local Notation queryAndRefer := (queryAndRefer IsASN extractHostname).
Local Notation whoisBody := (whoisBody IsASN getExtension extractHostname).
Local Notation deferred := (deferred now formatTime).
Local Notation Whois := (Whois IsASN getExtension extractHostname now formatTime).
Local Notation run :=
  (run IsASN getExtension extractHostname LoadFromFile netDialer now formatTime).
Local Notation exec :=
  (exec IsASN getExtension extractHostname LoadFromFile netDialer now formatTime).
Local Notation rawQueryEvents := (rawQueryEvents IsASN).
Local Notation rawQueryResult := (rawQueryResult IsASN).
Local Notation referral := (referral extractHostname).
Local Notation queryAndReferEvents := (queryAndReferEvents IsASN extractHostname).
Local Notation queryAndReferResult := (queryAndReferResult IsASN extractHostname).

Lemma referral_some cl r1 server ref :
  referral cl r1 server = Some ref ->
  fst ref <> "" /\ fst ref <> server.
Proof.
  unfold Engine.referral. destruct (snd r1); [discriminate|].
  destruct (disableReferral cl); [discriminate|].
  destruct (String.eqb_spec (fst (getServer (fst r1))) "") as [|Hne];
    [discriminate|].
  destruct (String.eqb_spec (fst (getServer (fst r1))) server) as [|Hns];
    [discriminate|].
  simpl. intros [= <-]. auto.
Qed.

(** The raw queries from the query to the resolved server on: that
    query, and at most one more, for the same text, to a named server
    other than the one just asked. *)
Lemma queryAndRefer_queries cl p m hist d server port :
  exists refs,
    rawQueries (queryAndReferEvents cl p m hist d server port)
    = (d, server, port) :: refs
    /\ chase d server refs.
Proof.
  unfold chase.
  destruct (queryAndReferEvents_shape IsASN extractHostname cl p m hist d server port)
    as (Hq & _).
  rewrite Hq.
  destruct (referral cl _ server) as [ref|] eqn:E.
  - destruct (referral_some _ _ _ _ E) as (H1 & H2).
    eexists. split; [reflexivity|]. split; [simpl; lia|].
    repeat constructor; assumption.
  - exists []. split; [reflexivity|]. split; [simpl; lia | constructor].
Qed.

(** The paths of a call in the embedding, where every connection
    answers. *)
Lemma Whois_cases c cl p m domain servers st :
  serves c cl p m st ->
  normalize domain <> "" ->
  let d := withPrefix (normalize domain) in
  let ext := getExtension d in
  let bare := negb (Contains d ".") && negb (Contains d ":")
              && negb (IsASN (normalize domain)) in
  let evs := eventsOf (Whois c domain servers) st in
  exists text err st' m',
    Whois c domain servers st = (Returns (text, err), st')
    /\ serves c cl p m' st'
    /\ ((bare = true /\ m' = m
         /\ rawQueries evs = [(d, "whois.iana.org", "43")])
        \/ (bare = false
            /\ exists s0 refs,
                override servers = Some s0 /\ m' = m
                /\ rawQueries evs = (d, ToLower s0, "43") :: refs
                /\ chase d (ToLower s0) refs)
        \/ (bare = false /\ override servers = None
            /\ exists v refs,
                Directory.whoisServers m !! ext = Some v /\ m' = m
                /\ rawQueries evs = (d, v, "43") :: refs
                /\ chase d v refs)
        \/ (bare = false /\ override servers = None
            /\ Directory.whoisServers m !! ext = None /\ m' = m
            /\ rawQueries evs = [(ext, "whois.iana.org", "43")]
            /\ text = "" /\ err <> None)
        \/ (bare = false /\ override servers = None
            /\ Directory.whoisServers m !! ext = None
            /\ exists s port refs,
                s <> ""
                /\ m' = Directory.insertWhoisServer m ext s
                /\ rawQueries evs
                   = (ext, "whois.iana.org", "43") :: (d, s, port) :: refs
                /\ chase d s refs)).
Proof.
  intros Hs Hne d ext bare evs.
  destruct bare eqn:Hbare; subst bare.
  - (* the bare label *)
    destruct (rawQuery_run IsASN c cl p m d "whois.iana.org" "43" st Hs)
      as (st1 & E1 & T1 & _ & S1).
    assert (EW : Whois c domain servers st
                 = (Returns (Engine.formatResult formatTime (negb (disableStats cl))
                               (now (trace st)) (now (trace st1))
                               (fst (rawQueryResult cl p m (trace st) d
                                       "whois.iana.org" "43")),
                             snd (rawQueryResult cl p m (trace st) d
                                    "whois.iana.org" "43")), st1)).
    { unfold Engine.Whois, Engine.whoisBody, bind.
      rewrite (eqb_empty_false _ Hne). cbv zeta. fold d. rewrite Hbare.
      change defaultWhoisServer with "whois.iana.org".
      change defaultWhoisPort with "43". rewrite E1.
      rewrite (deferred_run now formatTime c cl p m _ _ st1 S1). reflexivity. }
    eexists _, _, st1, m. split; [exact EW|]. split; [exact S1|]. left.
    split; [reflexivity|]. split; [reflexivity|].
    subst evs. rewrite (eventsOf_run _ _ _ _ _ EW T1).
    apply (rawQueryEvents_shape IsASN cl p m (trace st) d "whois.iana.org" "43").
  - destruct (override servers) as [s0|] eqn:Ho.
    + (* a server named by the caller *)
      pose proof (resolveServer_override IsASN getExtension extractHostname
                    c d servers st s0 Ho) as Hres.
      destruct (Whois_resolved IsASN getExtension extractHostname now formatTime
                  c cl p m domain servers st (ToLower s0) "43" st Hne Hbare Hres Hs)
        as (st' & EW & TW & SW).
      fold d in EW, TW.
      destruct (queryAndRefer_queries cl p m (trace st) d (ToLower s0) "43")
        as (refs & Hq & Hc).
      eexists _, _, st', m. split; [exact EW|]. split; [exact SW|].
      right. left. split; [reflexivity|]. exists s0, refs.
      split; [reflexivity|]. split; [reflexivity|]. split; [|exact Hc].
      subst evs. rewrite (eventsOf_run _ _ _ _ _ EW TW). exact Hq.
    + destruct (Directory.whoisServers m !! ext) as [v|] eqn:Hv.
      * (* the extension is in the directory *)
        pose proof (resolveServer_cached IsASN getExtension extractHostname
                      c cl p m d servers st v Hs Ho Hv) as Hres.
        destruct (Whois_resolved IsASN getExtension extractHostname now formatTime
                    c cl p m domain servers st v "43" _ Hne Hbare Hres
                    (serves_trace _ _ _ _ _ _ Hs)) as (st' & EW & TW & SW).
        simpl in TW. fold d ext in EW, TW.
        destruct (queryAndRefer_queries cl p m
                    (trace st ++ [EvGetWhoisServer (Some p) ext]) d v "43")
          as (refs & Hq & Hc).
        eexists _, _, st', m. split; [exact EW|]. split; [exact SW|].
        right. right. left. split; [reflexivity|]. split; [reflexivity|].
        exists v, refs. split; [reflexivity|]. split; [reflexivity|].
        split; [|exact Hc].
        subst evs. rewrite (eventsOf_run _ _ _ _
                     (EvGetWhoisServer (Some p) ext
                                        :: queryAndReferEvents cl p m
                                             (trace st ++ [EvGetWhoisServer (Some p) ext])
                                             d v "43") EW)
          by (rewrite TW, <- app_assoc; reflexivity).
        exact Hq.
      * (* the extension is asked at the root server *)
        destruct (resolveServer_discover IsASN getExtension extractHostname
                    c cl p m d servers st Hs Ho Hv) as (st1 & T1 & Hcase).
        fold ext in T1, Hcase.
        set (lookup := EvGetWhoisServer (Some p) ext) in *.
        set (r0 := rawQueryResult cl p m (trace st ++ [lookup]) ext
                     "whois.iana.org" "43") in *.
        destruct (rawQueryEvents_shape IsASN cl p m (trace st ++ [lookup]) ext
                    "whois.iana.org" "43") as (Hq0 & _).
        set (ev0 := rawQueryEvents cl p m (trace st ++ [lookup]) ext
                      "whois.iana.org" "43") in *.
        clearbody ev0.
        assert (Hearly : forall e,
                   resolveServer c d servers st = (Returns (inr ("", Some e)), st1) ->
                   serves c cl p m st1 ->
                   Whois c domain servers st = (Returns ("", Some e), st1)).
        { intros e Hres S1. unfold Engine.Whois, bind.
          rewrite (whoisBody_early IsASN getExtension extractHostname
                     c domain servers st _ st1 Hne Hbare Hres).
          rewrite (deferred_run now formatTime c cl p m _ _ st1 S1). reflexivity. }
        assert (Hfail : forall e,
                   resolveServer c d servers st = (Returns (inr ("", Some e)), st1) ->
                   serves c cl p m st1 ->
                   trace st1 = (trace st ++ [lookup]) ++ ev0 ++ [] ->
                   exists text err st' m',
                     Whois c domain servers st = (Returns (text, err), st')
                     /\ serves c cl p m' st'
                     /\ m' = m
                     /\ rawQueries evs = [(ext, "whois.iana.org", "43")]
                     /\ text = "" /\ err <> None).
        { intros e Hres S1 HT. pose proof (Hearly e Hres S1) as EW.
          exists "", (Some e), st1, m. split; [exact EW|]. split; [exact S1|].
          split; [reflexivity|]. split; [|split; [reflexivity | discriminate]].
          subst evs. rewrite (eventsOf_run _ _ _ _
                       (lookup :: ev0) EW)
            by (rewrite HT, app_nil_r, <- app_assoc; reflexivity).
          exact Hq0. }
        destruct (snd r0) as [err0|] eqn:Herr.
        -- destruct Hcase as (Hres & S1).
           destruct (Hfail _ Hres S1 T1) as (text & err & st' & m' & EW & SW & -> & Hq & Ht & He).
           exists text, err, st', m. split; [exact EW|]. split; [exact SW|].
           right. right. right. left. auto 10.
        -- destruct (String.eqb_spec (fst (getServer (fst r0))) "") as [Hempty|Hfound].
           ++ destruct Hcase as (Hres & S1).
              destruct (Hfail _ Hres S1 T1)
                as (text & err & st' & m' & EW & SW & -> & Hq & Ht & He).
              exists text, err, st', m. split; [exact EW|]. split; [exact SW|].
              right. right. right. left. auto 10.
           ++ destruct Hcase as (Hres & S1).
              rewrite (surjective_pairing (getServer (fst r0))) in Hres.
              set (s := fst (getServer (fst r0))) in *.
              set (port := snd (getServer (fst r0))) in *.
              destruct (Whois_resolved IsASN getExtension extractHostname now formatTime
                          c cl p _ domain servers st s port st1 Hne Hbare Hres S1)
                as (st' & EW & TW & SW).
              fold d in EW, TW.
              destruct (queryAndRefer_queries cl p (Directory.insertWhoisServer m ext s)
                          (trace st1) d s port) as (refs & Hq & Hc).
              eexists _, _, st', _. split; [exact EW|]. split; [exact SW|].
              right. right. right. right.
              split; [reflexivity|]. split; [reflexivity|]. split; [reflexivity|].
              exists s, port, refs. split; [exact Hfound|]. split; [reflexivity|].
              split; [|exact Hc].
              subst evs.
              rewrite (eventsOf_run _ _ _ _
                           (lookup :: ev0 ++ EvSetWhoisServer (Some p) ext s
                                   :: queryAndReferEvents cl p
                                        (Directory.insertWhoisServer m ext s)
                                        (trace st1) d s port) EW)
                by (rewrite TW, T1, <- !app_assoc; reflexivity).
              change (rawQueries (lookup :: ?l)) with (rawQueries l).
              unfold rawQueries. rewrite omap_app. fold (rawQueries ev0). rewrite Hq0.
              change (omap ?f (EvSetWhoisServer (Some p) ext s :: ?l))
                with (rawQueries l).
              rewrite Hq. reflexivity.
Qed.

(** X21: the five paths of a call.  When a call of a client with a
    directory, for a query whose normal form is not empty, returns, the
    client is as it was and the call has been one of five: the bare
    label, asked at the root server; the query with a server named by
    the caller (an ASCII name, on which the case mapping of the
    embedding is the one of Go); the query whose extension is in the
    directory; the query whose extension the root server does not give,
    which fails with the empty text; and the query whose extension the
    root server gives, which adds that one entry, with a server that is
    not empty, to the directory.  On the first four paths the directory
    is as it was.  After the query to the server, at most one more raw
    query is made, for the same text, to a named server other than the
    one just asked.  Nothing is said of a call that does not return. *)
Theorem Whois_paths c cl p m domain servers st text err st' :
  serves c cl p m st ->
  normalize domain <> "" ->
  (forall s0, override servers = Some s0 -> isASCII s0 = true) ->
  Whois c domain servers st = (Returns (text, err), st') ->
  let d := withPrefix (normalize domain) in
  let ext := getExtension d in
  let bare := negb (Contains d ".") && negb (Contains d ":")
              && negb (IsASN (normalize domain)) in
  let evs := eventsOf (Whois c domain servers) st in
  exists m',
    serves c cl p m' st'
    /\ ((bare = true /\ m' = m
         /\ rawQueries evs = [(d, "whois.iana.org", "43")])
        \/ (bare = false
            /\ exists s0 refs,
                override servers = Some s0 /\ m' = m
                /\ rawQueries evs = (d, ToLower s0, "43") :: refs
                /\ chase d (ToLower s0) refs)
        \/ (bare = false /\ override servers = None
            /\ exists v refs,
                Directory.whoisServers m !! ext = Some v /\ m' = m
                /\ rawQueries evs = (d, v, "43") :: refs
                /\ chase d v refs)
        \/ (bare = false /\ override servers = None
            /\ Directory.whoisServers m !! ext = None /\ m' = m
            /\ rawQueries evs = [(ext, "whois.iana.org", "43")]
            /\ text = "" /\ err <> None)
        \/ (bare = false /\ override servers = None
            /\ Directory.whoisServers m !! ext = None
            /\ exists s port refs,
                s <> ""
                /\ m' = Directory.insertWhoisServer m ext s
                /\ rawQueries evs
                   = (ext, "whois.iana.org", "43") :: (d, s, port) :: refs
                /\ chase d s refs)).
Proof.
  intros Hs Hne _ EW.
  destruct (Whois_cases c cl p m domain servers st Hs Hne)
    as (text0 & err0 & st0 & m' & E & S & Hpath).
  rewrite E in EW. injection EW as <- <- <-.
  cbv zeta in *. exists m'. split; [exact S | exact Hpath].
Qed.

Lemma named_exec p k st :
  (exists m, maps st !! p = Some m /\ named m) ->
  exists m, maps (exec k st) !! p = Some m /\ named m.
Proof.
  apply (inserts_exec IsASN getExtension extractHostname LoadFromFile netDialer
           now formatTime (fun s => exists m, maps s !! p = Some m /\ named m));
    try (intros; assumption).
  - intros q mq ext server s Hq Hext Hserver (m & Hm & Hn). simpl.
    destruct (decide (q = p)) as [->|Hne].
    + rewrite Hm in Hq. injection Hq as <-.
      exists (Directory.insertWhoisServer m ext server).
      rewrite list_lookup_insert_eq by (eapply lookup_lt_Some; eauto).
      split; [reflexivity|]. intros e x. simpl.
      destruct (decide (e = ext)) as [->|He].
      * rewrite lookup_insert_eq. intros [= <-]. exact Hserver.
      * rewrite lookup_insert_ne by congruence. apply Hn.
    + exists m. rewrite list_lookup_insert_ne by exact Hne. auto.
  - intros f Hon (m & Hm & Hn). unfold Engine.InitWhois. rewrite Hon.
    assert (H' : exists m0,
               maps {| serverMapInstance := Some (length (maps st)); onceWhois := true;
                       DefaultClient := DefaultClient st;
                       maps := maps st ++ [fst (LoadFromFile f Directory.NewServerMap)];
                       clients := clients st; trace := trace st |} !! p = Some m0
               /\ named m0).
    { exists m. simpl. rewrite lookup_app_l by (eapply lookup_lt_Some; eauto). auto. }
    destruct (snd (LoadFromFile f Directory.NewServerMap)); exact H'.
Qed.

Lemma named_run p ks st :
  (exists m, maps st !! p = Some m /\ named m) ->
  exists m, maps (run ks st) !! p = Some m /\ named m.
Proof.
  revert st. induction ks as [|k ks IH]; intros st H; simpl; [exact H|].
  apply IH. apply named_exec. exact H.
Qed.

(** X22: no raw query goes to the empty server name.  When no entry of
    the client's directory has the empty server, every raw query of a
    call of [Whois] is addressed to a server name that is not empty
    (the root server, the server named by the caller, the server of the
    directory, the server that the root server gave, or the referral
    server), and this stays so call after call: whatever the callers of
    the package do, the client keeps its directory and no entry with
    the empty server comes into it. *)
Theorem no_empty_server c cl p m domain servers st :
  serves c cl p m st ->
  named m ->
  Forall (fun q => snd (fst q) <> "")
         (rawQueries (eventsOf (Whois c domain servers) st))
  /\ forall ks,
      exists cl' m',
        serves c cl' p m' (run ks st)
        /\ named m'
        /\ forall domain' servers',
            Forall (fun q => snd (fst q) <> "")
                   (rawQueries (eventsOf (Whois c domain' servers') (run ks st))).
Proof.
  assert (Hcall : forall cl0 m0 st0 domain0 servers0,
             serves c cl0 p m0 st0 -> named m0 ->
             Forall (fun q => snd (fst q) <> "")
                    (rawQueries (eventsOf (Whois c domain0 servers0) st0))).
  { intros cl0 m0 st0 domain0 servers0 Hs Hn.
    destruct (String.eqb_spec (normalize domain0) "") as [Hempty|Hne].
    { assert (E : Whois c domain0 servers0 st0
                  = (Returns ("", Some ErrDomainEmpty), st0)).
      { unfold Engine.Whois, Engine.whoisBody, bind. rewrite Hempty. reflexivity. }
      rewrite (eventsOf_run _ _ _ _ [] E) by (rewrite app_nil_r; reflexivity).
      constructor. }
    assert (Hrefs : forall d server refs,
               chase d server refs -> Forall (fun q => snd (fst q) <> "") refs).
    { intros d server refs (_ & H). eapply Forall_impl; [exact H|].
      intros q (_ & Hq & _). exact Hq. }
    destruct (Whois_cases c cl0 p m0 domain0 servers0 st0 Hs Hne)
      as (text & err & st' & m' & _ & _ & Hpath).
    cbv zeta in Hpath.
    destruct Hpath as [(_ & _ & ->) | [(_ & s0 & refs & Ho & _ & -> & Hc)
                      | [(_ & _ & v & refs & Hv & _ & -> & Hc)
                      | [(_ & _ & _ & _ & -> & _) | (_ & _ & _ & s & port & refs & Hsn
                                                    & _ & -> & Hc)]]]].
    - repeat constructor. discriminate.
    - constructor; [|eapply Hrefs; exact Hc]. simpl.
      unfold override in Ho. destruct servers0 as [|x xs]; [discriminate|].
      destruct (String.eqb_spec x "") as [|Hx]; [discriminate|].
      injection Ho as <-. destruct x as [|a x]; [contradiction|]. discriminate.
    - constructor; [|eapply Hrefs; exact Hc]. simpl. eapply Hn. exact Hv.
    - repeat constructor. discriminate.
    - constructor; [simpl; discriminate|].
      constructor; [exact Hsn|]. eapply Hrefs. exact Hc. }
  intros Hs Hn. split; [apply (Hcall cl m); assumption|].
  intros ks.
  destruct (serves_client _ _ _ _ _ Hs) as (x & Hx & _ & _ & Hpx).
  destruct (holds_run IsASN getExtension extractHostname LoadFromFile netDialer
              now formatTime c (Some p) ks st) as (cl' & Hc' & Hp');
    [exists x; auto|].
  destruct (named_run p ks st) as (m' & Hm' & Hn');
    [destruct Hs as (_ & _ & Hm); exists m; auto|].
  assert (S' : serves c cl' p m' (run ks st))
    by (split; [exists cl'; auto | split; assumption]).
  exists cl', m'. split; [exact S'|]. split; [exact Hn'|].
  intros domain' servers'. apply (Hcall cl' m'); assumption.
Qed.

End AllPaths.

(** ** The flag [disableStats] and the body of a call *)

Section StatsFlag.

Variable IsASN : string -> bool.
Variable getExtension : string -> string.
Variable extractHostname : string -> string.
Variable now : list event -> Z.
Variable formatTime : Z -> string.

Local Notation rawQuery := (rawQuery IsASN).
Local Notation getServer := (getServer extractHostname).
Local Notation resolveServer := (resolveServer IsASN getExtension extractHostname).
Local Notation queryAndRefer := (queryAndRefer IsASN extractHostname).
Local Notation whoisBody := (whoisBody IsASN getExtension extractHostname).
Local Notation deferred := (deferred now formatTime).
Local Notation Whois := (Whois IsASN getExtension extractHostname now formatTime).

Variable c : nat.
Variable b : bool.

Lemma flagged_trace st : trace (flagged c b st) = trace st.
Proof. unfold flagged, store. destruct (clients st !! c); reflexivity. Qed.

Lemma flagged_maps st : maps (flagged c b st) = maps st.
Proof. unfold flagged, store. destruct (clients st !! c); reflexivity. Qed.

Lemma flagged_set_trace t st :
  flagged c b (set_trace t st) = set_trace t (flagged c b st).
Proof. unfold flagged, store. simpl. destruct (clients st !! c); reflexivity. Qed.

Lemma flagged_set_maps ms st :
  flagged c b (set_maps ms st) = set_maps ms (flagged c b st).
Proof. unfold flagged, store. simpl. destruct (clients st !! c); reflexivity. Qed.

Lemma flagged_lookup c' st :
  clients (flagged c b st) !! c'
  = if decide (c' = c) then statsFlag b <$> clients st !! c' else clients st !! c'.
Proof.
  unfold flagged, store. destruct (decide (c' = c)) as [->|Hne].
  - destruct (clients st !! c) as [cl|] eqn:E; simpl; [|rewrite E; reflexivity].
    rewrite list_lookup_insert_eq by (eapply lookup_lt_Some; eauto). reflexivity.
  - destruct (clients st !! c) as [cl|] eqn:E; simpl; [|reflexivity].
    apply list_lookup_insert_ne. congruence.
Qed.

Lemma ignores_ret {A : Type} (a : A) : ignoresStats c b (ret a).
Proof. intros st. reflexivity. Qed.

Lemma ignores_panic {A : Type} (why : string) : ignoresStats c b (@panic A why).
Proof. intros st. reflexivity. Qed.

Lemma ignores_bind {A B : Type} (m : M A) (k : A -> M B) :
  ignoresStats c b m -> (forall a, ignoresStats c b (k a)) ->
  ignoresStats c b (bind m k).
Proof.
  intros Hm Hk st. unfold bind. rewrite Hm.
  destruct (m st) as [[a|why] st1]; simpl; [apply Hk | reflexivity].
Qed.

Lemma ignores_emit (e : event) : ignoresStats c b (emit e).
Proof.
  intros st. unfold emit. simpl. rewrite flagged_trace, flagged_set_trace.
  reflexivity.
Qed.

Lemma ignores_deref (recv : option nat) : ignoresStats c b (deref recv).
Proof.
  intros st. unfold deref. rewrite flagged_maps.
  destruct (recv ≫= _); reflexivity.
Qed.

(** A function of the trace and of the directories. *)
Lemma ignores_read {A : Type} (f : state -> A) :
  (forall st, f (flagged c b st) = f st) ->
  ignoresStats c b (fun st => (Returns (f st), st)).
Proof. intros H st. simpl. rewrite H. reflexivity. Qed.

Lemma ignores_set_maps (f : state -> list Directory.serverMap) :
  (forall st, f (flagged c b st) = f st) ->
  ignoresStats c b (fun st => (Returns tt, set_maps (f st) st)).
Proof. intros H st. simpl. rewrite H, flagged_set_maps. reflexivity. Qed.

(** The fields of a client are read through [load]: what follows must
    not tell the flag. *)
Lemma ignores_load {B : Type} (c' : nat) (k : Client -> M B) :
  (forall cl, ignoresStats c b (k cl)) ->
  (forall cl, k (statsFlag b cl) = k cl) ->
  ignoresStats c b (bind (load c') k).
Proof.
  intros Hk Hflag st. unfold bind, load. rewrite flagged_lookup.
  destruct (decide (c' = c)) as [->|Hne];
    destruct (clients st !! _) as [cl|]; simpl; try reflexivity.
  - rewrite Hflag. apply Hk.
  - apply Hk.
Qed.

Lemma ignores_rest (c' : nat) : ignoresStats c b (store c' atRest).
Proof.
  intros st. unfold store at 1 2 3. rewrite flagged_lookup.
  destruct (decide (c' = c)) as [->|Hne].
  - destruct (clients st !! c) as [cl|] eqn:E; simpl.
    + f_equal. unfold flagged, store. simpl. rewrite E. simpl.
      rewrite list_lookup_insert_eq by (eapply lookup_lt_Some; eauto). simpl.
      rewrite !list_insert_insert_eq. reflexivity.
    + reflexivity.
  - destruct (clients st !! c') as [cl'|] eqn:E'; simpl; [|reflexivity].
    f_equal. unfold flagged, store. simpl.
    rewrite list_lookup_insert_ne by congruence.
    destruct (clients st !! c) as [cl|] eqn:E; simpl; [|reflexivity].
    rewrite list_insert_insert_ne by congruence. reflexivity.
Qed.

Ltac ignores_step :=
  first
    [ apply ignores_ret | apply ignores_panic | apply ignores_emit
    | apply ignores_deref | apply ignores_rest
    | apply ignores_load; [intros ?|intros ?; reflexivity]
    | apply ignores_read; intros ?; rewrite ?flagged_trace, ?flagged_maps; reflexivity
    | apply ignores_set_maps; intros ?; rewrite ?flagged_maps; reflexivity
    | apply ignores_bind; [|intros ?]
    | match goal with
      | |- ignoresStats _ _ (match ?t with _ => _ end) => destruct t
      end ].

Lemma ignores_GetWhoisServer recv ext : ignoresStats c b (GetWhoisServer recv ext).
Proof. unfold GetWhoisServer. repeat ignores_step. Qed.

Lemma ignores_GetRewriteServer recv server :
  ignoresStats c b (GetRewriteServer recv server).
Proof. unfold GetRewriteServer. repeat ignores_step. Qed.

Lemma ignores_SetWhoisServer recv ext server :
  ignoresStats c b (SetWhoisServer recv ext server).
Proof. unfold SetWhoisServer. repeat ignores_step. Qed.

Lemma ignores_dialContext t d network addr :
  ignoresStats c b (dialContext t d network addr).
Proof. unfold dialContext. repeat ignores_step. Qed.

Lemma ignores_rawQuery c' domain server port :
  ignoresStats c b (rawQuery c' domain server port).
Proof.
  unfold Engine.rawQuery, resetElapsed. cbv zeta.
  repeat first [apply ignores_GetRewriteServer | apply ignores_dialContext
               | ignores_step].
Qed.

Lemma ignores_queryAndRefer c' domain server port :
  ignoresStats c b (queryAndRefer c' domain server port).
Proof.
  unfold Engine.queryAndRefer. cbv zeta.
  repeat first [apply ignores_rawQuery | ignores_step].
Qed.

Lemma ignores_resolveServer c' domain servers :
  ignoresStats c b (resolveServer c' domain servers).
Proof.
  unfold Engine.resolveServer. cbv zeta.
  repeat first [apply ignores_rawQuery | apply ignores_GetWhoisServer
               | apply ignores_SetWhoisServer | ignores_step].
Qed.

Lemma ignores_whoisBody c' domain servers :
  ignoresStats c b (whoisBody c' domain servers).
Proof.
  unfold Engine.whoisBody. cbv zeta.
  repeat first [apply ignores_rawQuery | apply ignores_queryAndRefer
               | apply ignores_resolveServer | ignores_step].
Qed.

Lemma SetDisableStats_flagged st : snd (SetDisableStats c b st) = flagged c b st.
Proof.
  unfold SetDisableStats, flagged, bind, store.
  destruct (clients st !! c); reflexivity.
Qed.

(** X23: [SetDisableStats] changes the footer and nothing else.  A
    call of [Whois] made after the flag is set does on the network and
    on the directory what the call made before does: it adds the same
    events to the trace, leaves the same directories, and returns the
    same error and the same text of the body; the two results differ
    by their formatting alone, which follows the flag.  This holds for
    the call of any client, and when the call panics. *)
Theorem stats_flag_only_footer c' domain servers st :
  let st2 := snd (SetDisableStats c b st) in
  eventsOf (Whois c' domain servers) st2 = eventsOf (Whois c' domain servers) st
  /\ maps (snd (Whois c' domain servers st2)) = maps (snd (Whois c' domain servers st))
  /\ (forall why,
        fst (Whois c' domain servers st) = Panics why ->
        fst (Whois c' domain servers st2) = Panics why)
  /\ (forall text err st1 cl1,
        whoisBody c' domain servers st = (Returns (text, err), st1) ->
        clients st1 !! c' = Some cl1 ->
        let shown := fun stats =>
          Engine.formatResult formatTime stats (now (trace st)) (now (trace st1)) text in
        Whois c' domain servers st
        = (Returns (shown (negb (disableStats cl1)), err), st1)
        /\ Whois c' domain servers st2
           = (Returns (shown (negb (if decide (c' = c) then b else disableStats cl1)),
                       err),
              snd (SetDisableStats c b st1))).
Proof.
  intros st2. subst st2. rewrite SetDisableStats_flagged.
  assert (Hbody := ignores_whoisBody c' domain servers st).
  assert (Hdef : forall r s,
             trace (snd (deferred c' (now (trace st)) r s)) = trace s
             /\ maps (snd (deferred c' (now (trace st)) r s)) = maps s).
  { intros r s. unfold Engine.deferred, bind, load, ret.
    destruct (negb _); [|auto]. destruct (clients s !! c'); [|auto].
    destruct (negb _); auto. }
  assert (Hshow : forall text err s cl stats,
             clients s !! c' = Some cl -> disableStats cl = stats ->
             deferred c' (now (trace st)) (text, err) s
             = (Returns (Engine.formatResult formatTime (negb stats) (now (trace st))
                           (now (trace s)) text, err), s)).
  { intros text err s cl stats Hc <-.
    unfold Engine.deferred, Engine.formatResult, bind, load, ret. simpl.
    destruct (negb (String.eqb (TrimSpace text) "")); simpl; [|reflexivity].
    rewrite Hc. destruct (negb (disableStats cl)); reflexivity. }
  assert (Hpanic : forall r s why,
             fst (deferred c' (now (trace st)) r s) = Panics why ->
             fst (deferred c' (now (trace st)) r (flagged c b s)) = Panics why).
  { intros r s why. unfold Engine.deferred, bind, load, ret.
    destruct (negb (String.eqb _ "")); [|intros H; discriminate H].
    rewrite flagged_lookup.
    destruct (clients s !! c') as [cl|]; simpl.
    - destruct (negb (disableStats cl)); intros H; discriminate H.
    - destruct (decide (c' = c)); simpl; auto. }
  unfold eventsOf, Engine.Whois, bind.
  rewrite flagged_trace, Hbody.
  destruct (whoisBody c' domain servers st) as [[r|why] st1] eqn:EB; simpl.
  - destruct (Hdef r st1) as (T1 & M1). destruct (Hdef r (flagged c b st1)) as (T2 & M2).
    rewrite T1, T2, M1, M2, flagged_trace, flagged_maps.
    split; [reflexivity|]. split; [reflexivity|]. split.
    + intros why H. revert H. apply Hpanic.
    + intros text err st1' cl1 [= -> <-] Hc1.
      split; [apply (Hshow _ _ _ cl1); auto|].
      rewrite SetDisableStats_flagged.
      rewrite <- (flagged_trace st1) at 1.
      destruct (decide (c' = c)) as [->|Hne].
      * apply (Hshow _ _ _ (statsFlag b cl1)); [|reflexivity].
        rewrite flagged_lookup. destruct (decide (c = c)); [|contradiction].
        rewrite Hc1. reflexivity.
      * apply (Hshow _ _ _ cl1); [|reflexivity].
        rewrite flagged_lookup. destruct (decide (c' = c)); [contradiction|].
        exact Hc1.
  - rewrite flagged_trace, flagged_maps.
    split; [reflexivity|]. split; [reflexivity|]. split; [auto|].
    intros text err st1' cl1 H. discriminate H.
Qed.

End StatsFlag.

(** * The further properties on the fixture *)

(** An IPv6 literal as the value of a referral line: the server is its
    first group and the port its second. *)
Lemma hostPort_first_two_fields_witness :
  hostPort "2001:db8::1" = ("2001", "db8").
Proof. exact (hostPort_first_two_fields "2001" "db8" ":1" eq_refl eq_refl). Defined.

Lemma dial_address_round_trip_witness :
  hostPort (JoinHostPort "whois.example.org" "4321") = ("whois.example.org", "4321")
  /\ JoinHostPort (fst (hostPort "whois.example.org")) (snd (hostPort "whois.example.org"))
     = "whois.example.org:43".
Proof.
  destruct (dial_address_round_trip "whois.example.org" "4321" eq_refl eq_refl)
    as (H1 & _ & H3).
  split; [exact H1 | exact H3].
Defined.

(** The answer of the root server for [com], with the padding of the
    registry and a carriage return before the line feed. *)
Lemma getServer_padded_value_witness :
  getServer Fixture.extractHostname
    ("domain:       COM" +:+ CRLF +:+ "whois:        whois.verisign-grs.com" +:+ CRLF)
  = ("whois.verisign-grs.com", "43").
Proof.
  apply (getServer_padded_value Fixture.extractHostname
           ("domain:       COM" +:+ CRLF +:+ "whois:        whois.verisign-grs.com"
            +:+ CRLF)
           ["Registrar WHOIS Server: "] "whois: " ["ReferralServer: "; "refer: "]
           ("domain:       COM" +:+ CRLF) "       " "whois.verisign-grs.com"
           (String (ascii_of_nat 13) "") LF);
    try reflexivity.
  - repeat constructor.
  - right. reflexivity.
Defined.

(** A raw query to a host that cannot be dialled. *)
Lemma rawQuery_outcome_witness :
  exists stage cause,
    Errorf "whois: connect to whois server (whois.registrar.example) failed: "
      (ExternalError "dial tcp: connection refused") ""
    = Errorf ("whois: " +:+ stage
              +:+ " whois server (whois.registrar.example) failed: ") cause ""
    /\ stage = "connect to".
Proof.
  destruct (rawQuery_outcome Fixture.IsASN 1%nat Fixture.client 0%nat
              Fixture.directory "example.com" "whois.registrar.example" "43"
              Fixture.ready ""
              (Some (Errorf "whois: connect to whois server (whois.registrar.example) failed: "
                       (ExternalError "dial tcp: connection refused") ""))
              fixture_serves) as (_ & stage & cause & E & _ & Hstage);
    [vm_compute; reflexivity|].
  exists stage, cause. split; [exact E|].
  destruct Hstage as [(-> & _) | [(_ & H) | (_ & H)]];
    [reflexivity | vm_compute in H; discriminate H | vm_compute in H; discriminate H].
Defined.

(** The directory of the fixture after a call that adds the extension
    [xy]: the entry for [com] and the rewrite rule are as they were. *)
Lemma directory_only_grows_witness :
  exists m',
    maps (Fixture.run [CallWhois 1%nat "name.xy" []] Fixture.ready) !! 0%nat = Some m'
    /\ Directory.rewriteServers m' = Directory.rewriteServers Fixture.directory
    /\ Directory.whoisServers m' !! "com" = Some "whois.verisign-grs.com".
Proof.
  destruct (directory_only_grows Fixture.IsASN Fixture.getExtension
              Fixture.extractHostname Fixture.LoadFromFile Fixture.net
              Fixture.now Fixture.formatTime
              [CallWhois 1%nat "name.xy" []] 0%nat Fixture.directory Fixture.ready
              eq_refl) as (m' & Hm & Hrw & Hsub).
  exists m'. split; [exact Hm|]. split; [exact Hrw|].
  apply Hsub. reflexivity.
Defined.

(** A server named in upper case, with a further server that plays no
    part: the query goes to the name in lower case. *)
Lemma server_named_by_caller_witness :
  directoryLookups
    (eventsOf (Fixture.Whois 1%nat "good.com" ["WHOIS.GOOD.EXAMPLE"; "whois.iana.org"])
       Fixture.ready) = []
  /\ exists more,
      dials (eventsOf (Fixture.Whois 1%nat "good.com"
                         ["WHOIS.GOOD.EXAMPLE"; "whois.iana.org"]) Fixture.ready)
      = "whois.good.example:43" :: more.
Proof.
  assert (Hne : normalize "good.com" <> "") by (vm_compute; discriminate).
  assert (Hs0 : "WHOIS.GOOD.EXAMPLE" <> "") by discriminate.
  destruct (server_named_by_caller Fixture.IsASN Fixture.getExtension
              Fixture.extractHostname Fixture.now Fixture.formatTime
              1%nat Fixture.client 0%nat Fixture.directory "good.com"
              "WHOIS.GOOD.EXAMPLE" ["whois.iana.org"] Fixture.ready
              Hne eq_refl Hs0 eq_refl fixture_serves)
    as (_ & _ & Hl & _ & Hd & _).
  split; [exact Hl | exact Hd].
Defined.

(** The root server cannot be reached: the call for [name.xy] fails
    with the error of the dial, wrapped twice. *)
Lemma discovery_failure_witness :
  fst (Fixture.Whois 1%nat "name.xy" [] Fixture.offline)
  = Returns ("", Some (Errorf "whois: query for whois server failed: "
                         (Errorf "whois: connect to whois server (whois.iana.org) failed: "
                            (ExternalError "dial tcp: connection refused") "") "")).
Proof.
  assert (Hne : normalize "name.xy" <> "") by (vm_compute; discriminate).
  assert (Hs : serves 1%nat Fixture.offlineClient 0%nat Fixture.directory
                 Fixture.offline).
  { split; [exists Fixture.offlineClient; split; reflexivity | split; reflexivity]. }
  destruct (discovery_failure Fixture.IsASN Fixture.getExtension
              Fixture.extractHostname Fixture.now Fixture.formatTime
              1%nat Fixture.offlineClient 0%nat Fixture.directory "name.xy" []
              Fixture.offline
              (Errorf "whois: connect to whois server (whois.iana.org) failed: "
                 (ExternalError "dial tcp: connection refused") "")
              Hne eq_refl eq_refl Hs eq_refl) as (H & _);
    [vm_compute; reflexivity|].
  exact H.
Defined.

(** The server named by the caller cannot be reached: the empty text,
    without footer, and the error of the dial. *)
Lemma primary_failure_witness :
  exists st',
    Fixture.Whois 1%nat "example.com" ["whois.nowhere.example"] Fixture.ready
    = (Returns ("", Some (Errorf "whois: connect to whois server (whois.nowhere.example) failed: "
                            (ExternalError "dial tcp: connection refused") "")), st').
Proof.
  assert (Hne : normalize "example.com" <> "") by (vm_compute; discriminate).
  destruct (primary_failure Fixture.IsASN Fixture.getExtension
              Fixture.extractHostname Fixture.now Fixture.formatTime
              1%nat Fixture.client 0%nat Fixture.directory "example.com"
              ["whois.nowhere.example"] "whois.nowhere.example" "43"
              Fixture.ready Fixture.ready
              (Errorf "whois: connect to whois server (whois.nowhere.example) failed: "
                 (ExternalError "dial tcp: connection refused") "")
              Hne eq_refl eq_refl fixture_serves) as (st' & E & _);
    [vm_compute; reflexivity|].
  exists st'. exact E.
Defined.

(** The answer of [whois.good.example] names no server: one raw query. *)
Lemma referral_not_followed_witness :
  exists st',
    trace st'
    = trace Fixture.ready
      ++ rawQueryEvents Fixture.IsASN Fixture.client 0%nat Fixture.directory
           (trace Fixture.ready) "good.com" "whois.good.example" "43"
    /\ rawQueries (drop (length (trace Fixture.ready)) (trace st'))
       = [("good.com", "whois.good.example", "43")].
Proof.
  assert (Hne : normalize "good.com" <> "") by (vm_compute; discriminate).
  destruct (referral_not_followed Fixture.IsASN Fixture.getExtension
              Fixture.extractHostname Fixture.now Fixture.formatTime
              1%nat Fixture.client 0%nat Fixture.directory "good.com"
              ["whois.good.example"] "whois.good.example" "43"
              Fixture.ready Fixture.ready
              Hne eq_refl eq_refl fixture_serves)
    as (st' & _ & T & Hq & _);
    [vm_compute; reflexivity | right; left; vm_compute; reflexivity |].
  exists st'. split; [exact T | exact Hq].
Defined.

(** The package as it is loaded, [InitWhois] with the file of the
    fixture: the client made next has the directory 0, which holds the
    entry of the file. *)
Lemma clients_after_InitWhois_witness :
  exists cl m,
    clients (snd (NewClient Fixture.net (Fixture.run [CallInitWhois "whois-servers.conf"]
                                           Fixture.loaded))) !! 1%nat = Some cl
    /\ serverMap cl = Some 0%nat
    /\ maps (snd (NewClient Fixture.net (Fixture.run [CallInitWhois "whois-servers.conf"]
                                           Fixture.loaded))) !! 0%nat = Some m
    /\ Directory.whoisServers m !! "com" = Some "whois.verisign-grs.com".
Proof.
  destruct (clients_after_InitWhois Fixture.IsASN Fixture.getExtension
              Fixture.extractHostname Fixture.LoadFromFile Fixture.net
              Fixture.now Fixture.formatTime
              "whois-servers.conf" [] Fixture.loaded eq_refl)
    as (cl & m & Hc & Hp & _ & _ & _ & Hm & _ & Hsub).
  exists cl, m. split; [exact Hc|]. split; [exact Hp|]. split; [exact Hm|].
  apply Hsub. reflexivity.
Defined.

Lemma pair_serves :
  serves 1%nat Fixture.client 0%nat Fixture.directory Fixture.pair
  /\ serves 2%nat Fixture.client 0%nat Fixture.directory Fixture.pair.
Proof.
  split; (split; [exists Fixture.client; split; reflexivity | split; reflexivity]).
Defined.

(** Client 1 finds the server of [xy]; client 2 then asks it at once. *)
Lemma directory_is_shared_witness :
  directoryLookups
    (eventsOf (Fixture.Whois 2%nat "other.xy" [])
       (snd (Fixture.Whois 1%nat "name.xy" [] Fixture.pair)))
  = [EvGetWhoisServer (Some 0%nat) "xy"]
  /\ exists refs,
      rawQueries
        (eventsOf (Fixture.Whois 2%nat "other.xy" [])
           (snd (Fixture.Whois 1%nat "name.xy" [] Fixture.pair)))
      = ("other.xy", "whois.nic.xy", "43") :: refs.
Proof.
  assert (Hne : normalize "name.xy" <> "") by (vm_compute; discriminate).
  assert (Hne2 : normalize "other.xy" <> "") by (vm_compute; discriminate).
  destruct pair_serves as (S1 & S2).
  destruct (directory_is_shared Fixture.IsASN Fixture.getExtension
              Fixture.extractHostname Fixture.LoadFromFile Fixture.net
              Fixture.now Fixture.formatTime
              1%nat 2%nat Fixture.client Fixture.client 0%nat Fixture.directory
              "name.xy" [] Fixture.pair Hne eq_refl eq_refl S1 S2 eq_refl)
    as (_ & _ & Hnext);
    [vm_compute; reflexivity | vm_compute; discriminate |].
  destruct (Hnext [] "other.xy" [] Hne2 eq_refl eq_refl eq_refl)
    as (Hl & refs & Hq & _).
  split; [exact Hl|]. exists refs. exact Hq.
Defined.

(** Client 1 gets the dialer that reaches no host and a timeout of one
    second: its next raw query fails at the dial. *)
Lemma setters_configure_witness :
  fst (rawQuery Fixture.IsASN 1%nat "example.com" "whois.verisign-grs.com" "43"
         (Fixture.run [CallSetDialer 1%nat Fixture.unplugged;
                       CallSetTimeout 1%nat 1000000000;
                       CallSetDisableStats 1%nat true;
                       CallSetDisableReferral 1%nat true] Fixture.ready))
  = Returns ("", Some (Errorf "whois: connect to whois server (whois.verisign-grs.com) failed: "
                         (ExternalError "dial tcp: connection refused") "")).
Proof.
  destruct (setters_configure Fixture.IsASN Fixture.getExtension
              Fixture.extractHostname Fixture.LoadFromFile Fixture.net
              Fixture.now Fixture.formatTime
              1%nat Fixture.client 0%nat Fixture.directory Fixture.unplugged
              1000000000 true true Fixture.ready fixture_serves)
    as (_ & _ & _ & _ & _ & H).
  exact (H "example.com" "whois.verisign-grs.com" "43").
Defined.

(** The call for [example.com], whose referral server cannot be
    reached: the error is the one of the raw query. *)
Lemma Whois_errors_witness :
  isQueryError
    (Errorf "whois: connect to whois server (whois.registrar.example) failed: "
       (ExternalError "dial tcp: connection refused") "").
Proof.
  destruct (Whois_errors Fixture.IsASN Fixture.getExtension
              Fixture.extractHostname Fixture.now Fixture.formatTime
              1%nat "example.com" [] Fixture.ready
              ("Domain Name: EXAMPLE.COM" +:+ LF
               +:+ "Registrar WHOIS Server: whois.registrar.example" +:+ LF +:+ LF
               +:+ "% Query time: 30 msec" +:+ LF
               +:+ "% WHEN: T+0" +:+ LF)
              (Errorf "whois: connect to whois server (whois.registrar.example) failed: "
                 (ExternalError "dial tcp: connection refused") "")
              (snd (Fixture.Whois 1%nat "example.com" [] Fixture.ready)))
    as [(H & _) | (_ & [(e & H & _) | [(H & _) | H]])];
    [ vm_compute; reflexivity
    | vm_compute in H; discriminate H
    | discriminate H
    | discriminate H
    | exact H ].
Defined.

(** The query of an ASN is resolved under its extension: the table is
    read, and the extension goes to the root server. *)
Lemma resolution_of_every_query_witness :
  exists more,
    eventsOf (Fixture.Whois 1%nat "AS15169" []) Fixture.ready
    = EvGetWhoisServer (Some 0%nat) "AS15169"
        :: rawQueryEvents Fixture.IsASN Fixture.client 0%nat Fixture.directory
             (trace Fixture.ready ++ [EvGetWhoisServer (Some 0%nat) "AS15169"])
             "AS15169" "whois.iana.org" "43" ++ more.
Proof.
  assert (Hne : normalize "AS15169" <> "") by (vm_compute; discriminate).
  exact (resolution_of_every_query Fixture.IsASN Fixture.getExtension
           Fixture.extractHostname Fixture.now Fixture.formatTime
           1%nat Fixture.client 0%nat Fixture.directory "AS15169" [] Fixture.ready
           Hne (or_intror (or_intror eq_refl)) eq_refl fixture_serves).
Defined.

(** The bound of three raw queries is reached: on the network [chain]
    the call for [name.pq] asks the root server, the registry and the
    registrar, one after the other, with a dial for each. *)
Lemma call_budget_witness :
  rawQueries (eventsOf (Fixture.Whois 1%nat "name.pq" []) Fixture.chained)
  = [("pq", "whois.iana.org", "43");
     ("name.pq", "whois.nic.pq", "43");
     ("name.pq", "whois.registrar.pq", "43")]
  /\ (length (dials (eventsOf (Fixture.Whois 1%nat "name.pq" []) Fixture.chained))
      <= 3)%nat.
Proof.
  destruct (call_budget Fixture.IsASN Fixture.getExtension Fixture.extractHostname
              Fixture.now Fixture.formatTime 1%nat "name.pq" [] Fixture.chained)
    as (_ & (_ & Hd & _) & _).
  split; [vm_compute; reflexivity | exact Hd].
Defined.

(** The call for [name.xy] returns the answer of the registry; after
    it client 1 is as it was, with its directory. *)
Lemma Whois_paths_witness :
  exists m',
    serves 1%nat Fixture.client 0%nat m'
      (snd (Fixture.Whois 1%nat "name.xy" [] Fixture.ready)).
Proof.
  assert (Hne : normalize "name.xy" <> "") by (vm_compute; discriminate).
  assert (Ho : forall s0, override [] = Some s0 -> isASCII s0 = true)
    by (intros s0 H; discriminate H).
  assert (E : Fixture.Whois 1%nat "name.xy" [] Fixture.ready
              = (Returns ("Domain Name: name.xy" +:+ LF +:+ LF
                          +:+ "% Query time: 42 msec" +:+ LF
                          +:+ "% WHEN: T+0" +:+ LF, None),
                 snd (Fixture.Whois 1%nat "name.xy" [] Fixture.ready)))
    by (vm_compute; reflexivity).
  destruct (Whois_paths Fixture.IsASN Fixture.getExtension Fixture.extractHostname
              Fixture.now Fixture.formatTime
              1%nat Fixture.client 0%nat Fixture.directory "name.xy" []
              Fixture.ready _ _ _ fixture_serves Hne Ho E)
    as (m' & S & _).
  exists m'. exact S.
Defined.

Lemma fixture_named : named Fixture.directory.
Proof.
  apply (bool_decide_unpack
           (map_Forall (fun _ s => s <> "")
              (Directory.whoisServers Fixture.directory))).
  vm_compute. exact I.
Defined.

(** The directory of the fixture has no empty server: the raw queries
    of the call for [example.com] go to named servers, and so do those
    of a call for [name.xy] after it. *)
Lemma no_empty_server_witness :
  Forall (fun q => snd (fst q) <> "")
         (rawQueries (eventsOf (Fixture.Whois 1%nat "example.com" []) Fixture.ready))
  /\ Forall (fun q => snd (fst q) <> "")
            (rawQueries
               (eventsOf (Fixture.Whois 1%nat "name.xy" [])
                  (Fixture.run [CallWhois 1%nat "example.com" []] Fixture.ready))).
Proof.
  destruct (no_empty_server Fixture.IsASN Fixture.getExtension Fixture.extractHostname
              Fixture.LoadFromFile Fixture.net Fixture.now Fixture.formatTime
              1%nat Fixture.client 0%nat Fixture.directory "example.com" []
              Fixture.ready fixture_serves fixture_named) as (H1 & H2).
  split; [exact H1|].
  destruct (H2 [CallWhois 1%nat "example.com" []]) as (cl' & m' & _ & _ & H).
  exact (H "name.xy" []).
Defined.
